(** * cron-cli: the scheduling task (task.go) and its helpers (func.go)

    A shallow embedding of the Go sources.  Go strings are byte sequences and
    are modelled by [string] (a sequence of 8-bit [ascii]); Go [int] and
    [int64] values are modelled by [Z], with the 64-bit wrap-around written
    out where the code does arithmetic on them.  Pointers to jobs are
    locations of an explicit heap, so that the aliasing between the batch
    handed to [AddJob], the cron table and [Task.Jobs] is kept. *)

From Stdlib Require Import ZArith List Lia Bool Ascii String.
From Stdlib Require Import DecimalString DecimalZ.
From stdpp Require Import gmap strings.

Local Open Scope Z_scope.

(* ===================================================================== *)
(** * Part I: definitions                                                 *)
(* ===================================================================== *)

(** ** Go primitives *)

Module Go.

(** [len(s)] for a string: the number of bytes. *)
Definition len (s : string) : Z := Z.of_nat (String.length s).

(** The range of a 64-bit two's complement integer, and the value a
    64-bit operation leaves. *)
Definition minInt64 : Z := - 2 ^ 63.
Definition maxInt64 : Z := 2 ^ 63 - 1.
Definition wrap64 (z : Z) : Z := (z + 2 ^ 63) mod 2 ^ 64 - 2 ^ 63.

(** [fmt.Sprintf("%d", n)]: sign and decimal digits. *)
Definition itoa (n : Z) : string := NilEmpty.string_of_int (Z.to_int n).

(** What a call leaves: a normal return, a returned [error], or a
    run-time panic. *)
Inductive result (E : Type) : Type :=
| Ok
| Err (e : E)
| Panic.
Arguments Ok {E}.
Arguments Err {E} e.
Arguments Panic {E}.

End Go.

(** ** func.go *)

(** [truncateText]: [s[:max]] panics for a negative [max] (slice bounds
    out of range), which is [None] here. *)
Definition truncateText (s : string) (max : Z) : option string :=
  if max >=? Go.len s then Some s
  else if max <? 0 then None
  else Some (substring 0 (Z.to_nat max) s +:+ "...").

(** ** path/filepath on Unix

    The functions of Go's standard library that [createCronJob] calls.
    [Clean] is written over the path elements: Go's loop inspects the
    element that starts at the read index and either skips it (empty, "."),
    backtracks (".."), or copies it. *)

Module filepath.

Definition Separator : ascii := "/"%char.

Definition IsPathSeparator (c : ascii) : bool := Ascii.eqb c Separator.

(** The path elements between separators; never the empty list. *)
Fixpoint elements (path : string) : list string :=
  match path with
  | EmptyString => [EmptyString]
  | String c rest =>
      if IsPathSeparator c then EmptyString :: elements rest
      else match elements rest with
           | e :: es => String c e :: es
           | [] => [String c EmptyString]
           end
  end.

(** The write index after backtracking over the last element: [w] has been
    decremented once; it goes on down while it is above [dotdot] and the
    byte at [w] is not a separator. *)
Fixpoint backtrack (out : string) (dotdot w : nat) : nat :=
  match w with
  | O => O
  | S w' =>
      if (dotdot <? w)%nat
         && negb (match String.get w out with
                  | Some c => IsPathSeparator c
                  | None => false
                  end)
      then backtrack out dotdot w'
      else w
  end.

(** One round of the loop of [Clean], on the element [e]; the state is the
    output buffer and the index [dotdot]. *)
Definition cleanStep (rooted : bool) (st : string * nat) (e : string)
  : string * nat :=
  let '(out, dotdot) := st in
  let w := String.length out in
  if String.eqb e "" then st
  else if String.eqb e "." then st
  else if String.eqb e ".." then
    if (dotdot <? w)%nat then
      (substring 0 (backtrack out dotdot (Nat.pred w)) out, dotdot)
    else if negb rooted then
      let out' := (if (0 <? w)%nat then out +:+ "/" else out) +:+ ".." in
      (out', String.length out')
    else st
  else
    ((if (rooted && negb (w =? 1)%nat) || (negb rooted && negb (w =? 0)%nat)
      then out +:+ "/" else out) +:+ e, dotdot).

Definition Clean (path : string) : string :=
  match path with
  | EmptyString => "."
  | String c rest =>
      let rooted := IsPathSeparator c in
      let start := if rooted then ("/", 1%nat) else ("", 0%nat) in
      let out := fst (fold_left (cleanStep rooted)
                        (elements (if rooted then rest else path)) start) in
      if String.eqb out "" then "." else out
  end.

(** Whether a string holds no separator. *)
Fixpoint sepFree (s : string) : bool :=
  match s with
  | EmptyString => true
  | String c rest => negb (IsPathSeparator c) && sepFree rest
  end.

(** [strings.Join(elem, "/")]. *)
Fixpoint joinSep (elem : list string) : string :=
  match elem with
  | [] => ""
  | [e] => e
  | e :: es => e +:+ "/" +:+ joinSep es
  end.

(** [Join]: leading empty elements are dropped, the rest is joined and
    cleaned; all empty gives the empty string. *)
Fixpoint Join (elem : list string) : string :=
  match elem with
  | [] => ""
  | e :: es => if String.eqb e "" then Join es else Clean (joinSep elem)
  end.

(** [path[:i+1]] where [i] is the index of the last separator (or -1). *)
Fixpoint uptoLastSep (path : string) : string :=
  match path with
  | EmptyString => ""
  | String c rest =>
      match uptoLastSep rest with
      | EmptyString => if IsPathSeparator c then String c "" else ""
      | r => String c r
      end
  end.

Definition Dir (path : string) : string := Clean (uptoLastSep path).

(** [path] without its trailing separators. *)
Fixpoint stripTrailingSep (path : string) : string :=
  match path with
  | EmptyString => ""
  | String c rest =>
      match stripTrailingSep rest with
      | EmptyString => if IsPathSeparator c then "" else String c ""
      | r => String c r
      end
  end.

(** [path[i+1:]] where [i] is the index of the last separator (or -1). *)
Fixpoint afterLastSep (path : string) : string :=
  match path with
  | EmptyString => ""
  | String c rest =>
      if existsb IsPathSeparator (list_ascii_of_string rest)
      then afterLastSep rest
      else if IsPathSeparator c then rest else path
  end.

Definition Base (path : string) : string :=
  match path with
  | EmptyString => "."
  | _ =>
      match afterLastSep (stripTrailingSep path) with
      | EmptyString => "/"
      | b => b
      end
  end.

End filepath.

(** ** What the process leaves behind: log records *)

(** A record handed to the logger: [Info(msg, keysAndValues...)] or
    [Error(err, msg, keysAndValues...)]. *)
Inductive LogEvent : Type :=
| LogInfo (msg : string) (kv : list (string * string))
| LogError (err : string) (msg : string) (kv : list (string * string)).

(** A pointer to a job is a location of the heap of jobs. *)
Abbreviation ptr := nat.

(** ** time *)

Module time.
(** Durations and instants are counted in nanoseconds. *)
Definition Millisecond : Z := 1000000.
Definition Second : Z := 1000000000.
Definition Minute : Z := 60 * Second.
End time.

(** ** github.com/robfig/cron/v3, as far as task.go uses it *)

Module cron.

Inductive JobWrapper : Type :=
| Recover
| DelayIfStillRunning
| SkipIfStillRunning.

(** [NewChain(wrappers...).Then(job)]: the job under its wrappers, the
    first wrapper outermost. *)
Record ChainedJob : Type := Then {
  wrappers : list JobWrapper;
  inner : ptr
}.

Record Entry : Type := {
  ID : Z;
  Schedule : string;
  Job : ChainedJob
}.

Record Cron : Type := {
  entries : list Entry;
  nextID : Z;
  running : bool
}.

(** [cron.New(...)]. *)
Definition New : Cron := {| entries := []; nextID := 0; running := false |}.

(** The parser of schedule expressions is the library's: [Parse spec] is
    [None] when the expression is accepted and the text of the parser's
    error otherwise. *)
Class Parser : Type := Parse : string -> option string.

(** [c.AddJob(spec, cmd)]: a parse error leaves the table alone; otherwise
    the next id is taken and the entry appended. *)
Definition AddJob `{Parser} (c : Cron) (spec : string) (cmd : ChainedJob)
  : Cron * (Z + string) :=
  match Parse spec with
  | Some err => (c, inr err)
  | None =>
      let id := Go.wrap64 (nextID c + 1) in
      ({| entries := entries c ++ [{| ID := id; Schedule := spec; Job := cmd |}];
          nextID := id;
          running := running c |}, inl id)
  end.

Definition Start (c : Cron) : Cron :=
  {| entries := entries c; nextID := nextID c; running := true |}.

(** [c.Stop()]: no further triggers.  The context it returns is done once
    the runs the scheduler started have finished. *)
Definition Stop (c : Cron) : Cron :=
  {| entries := entries c; nextID := nextID c; running := false |}.

(** How one trigger of a wrapped job ends. *)
Inductive outcome : Type :=
| Returned
| Panicked (v : string).

(** One trigger of a job under its wrappers, after chain.go of the
    library.  What the trigger meets:
    - [token]: whether the token of [SkipIfStillRunning] is in its channel
      (it is not while an earlier run of the job holds it);
    - [waited]: how long [DelayIfStillRunning] waits for its mutex;
    - [stack]: the text [runtime.Stack] gives at a recovered panic;
    - [body]: how the job's own [Run] ends when it is reached.
    What it leaves: how the trigger ends, the records logged, and whether
    the token is in the channel afterwards.

    [Recover] defers a function that recovers the panic and logs
    [Error(err, "panic", "stack", "...\n" + stack)].
    [DelayIfStillRunning] locks the mutex, logs
    [Info("delay", "duration", dur)] when that took more than a minute (the
    duration is written as its count of nanoseconds), and runs the job.
    [SkipIfStillRunning] takes the token, runs the job and puts the token
    back with a plain statement after the run, so that a run that panics
    keeps the token; without the token it logs [Info("skip")]. *)
Fixpoint run (ws : list JobWrapper) (token : bool) (waited : Z) (stack : string)
  (body : outcome) : outcome * list LogEvent * bool :=
  match ws with
  | [] => (body, [], token)
  | Recover :: ws' =>
      match run ws' token waited stack body with
      | (Panicked v, l, tk) =>
          (Returned,
           l ++ [LogError v "panic" [("stack", "..." +:+ String "010" stack)]],
           tk)
      | r => r
      end
  | DelayIfStillRunning :: ws' =>
      let '(o, l, tk) := run ws' token waited stack body in
      (o,
       (if waited >? time.Minute
        then [LogInfo "delay" [("duration", Go.itoa waited)]] else []) ++ l,
       tk)
  | SkipIfStillRunning :: ws' =>
      if token then
        match run ws' true waited stack body with
        | (Returned, l, _) => (Returned, l, true)
        | (Panicked v, l, _) => (Panicked v, l, false)
        end
      else (Returned, [LogInfo "skip" []], false)
  end.

(** Triggers of one job that come one after the other, none before the
    earlier one has ended: the token is handed from each to the next. *)
Fixpoint runs (ws : list JobWrapper) (token : bool)
  (triggers : list (Z * string * outcome)) : list (outcome * list LogEvent) :=
  match triggers with
  | [] => []
  | (waited, stack, body) :: rest =>
      let '(o, l, tk) := run ws token waited stack body in
      (o, l) :: runs ws tk rest
  end.

End cron.

(** ** context *)

Module context.

Inductive error : Type := Canceled | DeadlineExceeded.

(** A context made by [WithTimeout(parent, d)]: the instant at which the
    parent is cancelled (if ever) and the deadline. *)
Record Context : Type := {
  parentDone : option Z;
  deadline : Z
}.

(** [ctx.Err()] at the instant [now]; [None] while the context is not
    done.  The parent's cancellation wins when it comes no later than the
    deadline. *)
Definition Err (ctx : Context) (now : Z) : option error :=
  match parentDone ctx with
  | Some tp =>
      if (tp <=? now) && (tp <=? deadline ctx) then Some Canceled
      else if deadline ctx <=? now then Some DeadlineExceeded
      else None
  | None => if deadline ctx <=? now then Some DeadlineExceeded else None
  end.

(** [WithTimeout(parent, time.Duration(ms) * time.Millisecond)] made at
    [now]; the product is a 64-bit one. *)
Definition WithTimeout (parent : option Z) (now ms : Z) : Context :=
  {| parentDone := parent;
     deadline := now + Go.wrap64 (ms * time.Millisecond) |}.

End context.

(** What the job runs of the other goroutines do while [Stop] waits:
    [runningAt t] is the value of [runningCount] read at the instant [t],
    [schedulerIdle] the instant at which the runs started by the scheduler
    have all finished (if ever), when the context of [Cron.Stop] is done. *)
Record Timeline : Type := {
  runningAt : Z -> Z;
  schedulerIdle : option Z
}.

(** The errors [AddJob] returns. *)
Inductive error : Type :=
| ScheduleRequired
| CommandRequired (schedule : string)
| LoggerError (e : string)
| InvalidSchedule (schedule : string) (cause : string).

(** What lies outside task.go: the schedule parser, [os.TempDir()], whether
    [job.makeLogger] fails for a job (job.go is not part of the sources), and
    whether a file can be created at a path. *)
Class Platform (job : Type) : Type := {
  Platform_Parser :: cron.Parser;
  TempDir : string;
  makeLoggerError : job -> option string;
  creatable : string -> bool
}.

(** ** task.go, first revision in the file (lines 1-202): jobs with one
    command text and a shell file *)

Module Task.

(** The fields of [job] that task.go reads or writes (job.go is not part of
    the sources).  [task] and [logger] tell whether the pointers are set. *)
Record job : Type := {
  Schedule : string;
  Command : string;
  RunningMode : string;
  task : bool;
  logger : bool;
  id : Z;
  shellFile : string
}.

(** [runningCount] is written by the goroutines of the job runs; what [Stop]
    reads from it is given by a [Timeline].  [quitSignalCtx] is [None] while
    the cancel function is nil, and otherwise tells whether the context has
    been cancelled. *)
Record Task : Type := {
  Jobs : list ptr;
  Cron : cron.Cron;
  stoppingTimeout : Z;
  wg : Z;
  quitSignalCtx : option bool;
  rootPathInDocker : string;
  testMode : bool
}.

(** The task with what it points to: the heap of jobs, the files on disk
    (path to content) and the records logged so far. *)
Record World : Type := {
  self : Task;
  heap : gmap nat job;
  files : gmap string string;
  logged : list LogEvent
}.

Definition setJobs (js : list ptr) (t : Task) : Task :=
  {| Jobs := js; Cron := Cron t; stoppingTimeout := stoppingTimeout t; wg := wg t;
     quitSignalCtx := quitSignalCtx t; rootPathInDocker := rootPathInDocker t;
     testMode := testMode t |}.

Definition setCron (c : cron.Cron) (t : Task) : Task :=
  {| Jobs := Jobs t; Cron := c; stoppingTimeout := stoppingTimeout t; wg := wg t;
     quitSignalCtx := quitSignalCtx t; rootPathInDocker := rootPathInDocker t;
     testMode := testMode t |}.

Definition setWg (n : Z) (t : Task) : Task :=
  {| Jobs := Jobs t; Cron := Cron t; stoppingTimeout := stoppingTimeout t; wg := n;
     quitSignalCtx := quitSignalCtx t; rootPathInDocker := rootPathInDocker t;
     testMode := testMode t |}.

Definition setQuitSignalCtx (q : option bool) (t : Task) : Task :=
  {| Jobs := Jobs t; Cron := Cron t; stoppingTimeout := stoppingTimeout t; wg := wg t;
     quitSignalCtx := q; rootPathInDocker := rootPathInDocker t;
     testMode := testMode t |}.

Definition onSelf (f : Task -> Task) (w : World) : World :=
  {| self := f (self w); heap := heap w; files := files w; logged := logged w |}.

Definition store (p : ptr) (j : job) (w : World) : World :=
  {| self := self w; heap := <[p := j]> (heap w); files := files w;
     logged := logged w |}.

Definition setFiles (fs : gmap string string) (w : World) : World :=
  {| self := self w; heap := heap w; files := fs; logged := logged w |}.

Definition log (e : LogEvent) (w : World) : World :=
  {| self := self w; heap := heap w; files := files w; logged := logged w ++ [e] |}.

(** [NewTask(log)]. *)
Definition NewTask : Task :=
  {| Jobs := []; Cron := cron.New; stoppingTimeout := 3000; wg := 0;
     quitSignalCtx := None; rootPathInDocker := ""; testMode := false |}.

Definition InDocker (t : Task) : bool :=
  negb (String.eqb (rootPathInDocker t) "") && negb (String.eqb (rootPathInDocker t) "/").

Section Operations.
Context `{Platform job}.

(** [j.makeLogger(t.logger)]: sets the job's logger unless it fails. *)
Definition makeLogger (p : ptr) (w : World) : World * Go.result error :=
  match heap w !! p with
  | None => (w, Go.Panic)
  | Some j =>
      match makeLoggerError j with
      | Some e => (w, Go.Err (LoggerError e))
      | None =>
          (store p {| Schedule := Schedule j; Command := Command j;
                      RunningMode := RunningMode j; task := task j; logger := true;
                      id := id j; shellFile := shellFile j |} w, Go.Ok)
      end
  end.

(** Modelled from the spec: [job.saveShellFile] (job.go) is the spec's
    [materializeArtifact], which writes the commands into the artifact and
    fails with an I/O error if the artifact cannot be created. The caller
    drops whatever it returns. *)
Definition saveShellFile (p : ptr) (w : World) : World * Go.result error :=
  match heap w !! p with
  | None => (w, Go.Panic)
  | Some j =>
      if creatable (shellFile j)
      then (setFiles (<[shellFile j := Command j]> (files w)) w, Go.Ok)
      else (w, Go.Ok)
  end.

(** Modelled from the spec: [job.deleteShellFile] (job.go) is the spec's
    [cleanup], which removes the on-disk artifact and is idempotent. *)
Definition deleteShellFile (p : ptr) (w : World) : World * Go.result error :=
  match heap w !! p with
  | None => (w, Go.Panic)
  | Some j => (setFiles (delete (shellFile j) (files w)) w, Go.Ok)
  end.

(** The wrappers [createCronJob] collects for a running mode. *)
Definition jobWrappers (mode : string) : list cron.JobWrapper :=
  [cron.Recover]
    ++ (if String.eqb mode "delay" then [cron.DelayIfStillRunning]
        else if String.eqb mode "skip" then [cron.SkipIfStillRunning]
        else []).

(** The file name [fmt.Sprintf] builds, with or without the test prefix. *)
Definition shellFileName (test : bool) (configFile : string) (id : Z) : string :=
  (if test then ".test-" else ".")
    +:+ filepath.Base configFile +:+ "-" +:+ Go.itoa id +:+ ".sh".

(** The path of the shell file of the job that got [id] from the source
    [configFile]. *)
Definition shellFilePath (test : bool) (configFile : string) (id : Z) : string :=
  let configFile :=
    if String.eqb configFile "argument"
    then filepath.Join [TempDir; "argument"]
    else configFile in
  filepath.Join [filepath.Dir configFile; shellFileName test configFile id].

Definition createCronJob (configFile : string) (p : ptr) (w : World)
  : World * Go.result error :=
  match heap w !! p with
  | None => (w, Go.Panic)
  | Some j =>
      match cron.AddJob (Cron (self w)) (Schedule j)
              (cron.Then (jobWrappers (RunningMode j)) p) with
      | (_, inr err) => (w, Go.Err (InvalidSchedule (Schedule j) err))
      | (c, inl id) =>
          let w := onSelf (setCron c) w in
          let w := store p {| Schedule := Schedule j; Command := Command j;
                              RunningMode := RunningMode j; task := task j;
                              logger := logger j; id := id;
                              shellFile :=
                                shellFilePath (testMode (self w)) configFile id |} w in
          (fst (saveShellFile p w), Go.Ok)
      end
  end.

(** The body of the loop of [AddJob], for one job of the batch. *)
Definition addJob (configFile : string) (p : ptr) (w : World)
  : World * Go.result error :=
  match heap w !! p with
  | None => (w, Go.Panic)
  | Some j =>
      if String.eqb (Schedule j) "" then (w, Go.Err ScheduleRequired)
      else if String.eqb (Command j) "" then (w, Go.Err (CommandRequired (Schedule j)))
      else
        let w := store p {| Schedule := Schedule j; Command := Command j;
                            RunningMode := RunningMode j; task := true;
                            logger := logger j; id := id j;
                            shellFile := shellFile j |} w in
        match makeLogger p w with
        | (w, Go.Ok) =>
            match createCronJob configFile p w with
            | (w, Go.Ok) =>
                match truncateText (Command j) 40 with
                | Some c =>
                    (log (LogInfo "add job" [("schedule", Schedule j); ("command", c)]) w,
                     Go.Ok)
                | None => (w, Go.Panic)
                end
            | r => r
            end
        | r => r
        end
  end.

(** The loop of [AddJob] over the batch: it stops at the first job that does
    not return normally. *)
Fixpoint addJobs (configFile : string) (jobs : list ptr) (w : World)
  : World * Go.result error :=
  match jobs with
  | [] => (w, Go.Ok)
  | p :: rest =>
      match addJob configFile p w with
      | (w, Go.Ok) => addJobs configFile rest w
      | r => r
      end
  end.

Definition AddJob (configFile : string) (jobs : list ptr) (w : World)
  : World * Go.result error :=
  match addJobs configFile jobs w with
  | (w, Go.Ok) => (onSelf (fun t => setJobs (Jobs t ++ jobs) t) w, Go.Ok)
  | r => r
  end.

(** What a call leaves running beside its caller. *)
Inductive spawned : Type :=
| Nothing
| TestRun.

(** [startTest]: what it does before it returns, and the goroutine it
    starts, [TestRun]: that one runs the jobs of [t.Jobs] in order and then
    calls [stopTest], whatever the caller does meanwhile.  Its course needs
    [job.Run], which task.go does not hold, and is not followed here. *)
Definition startTest (w : World) : World * spawned :=
  let w := log (LogInfo "cron start in test mode" []) w in
  (onSelf (fun t => setQuitSignalCtx (Some false) (setWg (wg t + 1) t)) w, TestRun).

Definition Start (w : World) : World * spawned :=
  if testMode (self w) then startTest w
  else
    let w := onSelf (fun t => setCron (cron.Start (Cron t)) t) w in
    let w := log (LogInfo "cron start" []) w in
    (onSelf (fun t => setQuitSignalCtx (Some false) (setWg (wg t + 1) t)) w, Nothing).

(** The wait loop of [stopImpl], entered at the instant [now]: the instant
    at which it is left and whether it was left on an expired deadline.
    Only [time.Sleep] takes time. [None] when the fuel does not reach the
    end of the loop. *)
Fixpoint waitRunning (fuel : nat) (tl : Timeline) (ctx : context.Context) (now : Z)
  : option (Z * bool) :=
  match fuel with
  | O => None
  | S fuel =>
      if runningAt tl now >? 0 then
        match context.Err ctx now with
        | Some context.DeadlineExceeded => Some (now, true)
        | Some context.Canceled => Some (now, false)
        | None => waitRunning fuel tl ctx (now + 100 * time.Second)
        end
      else Some (now, false)
  end.

(** The deferred loop over [t.Jobs]. *)
Fixpoint deleteShellFiles (jobs : list ptr) (w : World) : World * Go.result error :=
  match jobs with
  | [] => (w, Go.Ok)
  | p :: rest =>
      match deleteShellFile p w with
      | (w, Go.Ok) => deleteShellFiles rest w
      | r => r
      end
  end.

(** [t.wg.Done()]: panics when the counter goes negative. *)
Definition wgDone (w : World) : World * Go.result error :=
  let n := wg (self w) - 1 in
  (onSelf (setWg n) w, if n <? 0 then Go.Panic else Go.Ok).

(** [stopImpl(ctx)] entered at [now]: the world it leaves, the instant at
    which it returns, and whether it returned normally.  The two deferred
    calls run in reverse order, also when the first of them panics. *)
Definition stopImpl (fuel : nat) (tl : Timeline) (ctx : context.Context) (now : Z)
  (w : World) : option (World * Z * Go.result error) :=
  let w := match quitSignalCtx (self w) with
           | Some _ => onSelf (setQuitSignalCtx (Some true)) w
           | None => w
           end in
  match waitRunning fuel tl ctx now with
  | None => None
  | Some (now, forced) =>
      let w := if forced : bool
               then log (LogError "" "cron jobs force quiting" []) w else w in
      let w := log (LogInfo "all jobs quit" []) w in
      let '(w, deleted) := deleteShellFiles (Jobs (self w)) w in
      let '(w, done) := wgDone w in
      Some (w, now, match deleted with Go.Ok => done | r => r end)
  end.

(** Rounds of the wait loop that reach the deadline of [ctx] from [now]. *)
Definition roundsUntil (ctx : context.Context) (now : Z) : nat :=
  Z.to_nat ((context.deadline ctx - now) / (100 * time.Second)) + 2.

Definition stopTest (tl : Timeline) (now : Z) (w : World)
  : option (World * Z * Go.result error) :=
  let ctx := context.WithTimeout None now (stoppingTimeout (self w)) in
  stopImpl (roundsUntil ctx now) tl ctx now w.

(** [Stop] called at the instant [now]. *)
Definition Stop (tl : Timeline) (now : Z) (w : World)
  : option (World * Z * Go.result error) :=
  if testMode (self w) then stopTest tl now w
  else
    let w := onSelf (fun t => setCron (cron.Stop (Cron t)) t) w in
    let ctx := context.WithTimeout (schedulerIdle tl) now (stoppingTimeout (self w)) in
    stopImpl (roundsUntil ctx now) tl ctx now w.

(** The shell file of the job at [q] is on disk, unless it could not be
    created. *)
Definition saved (w : World) (q : ptr) : Prop :=
  exists j, heap w !! q = Some j
            /\ (creatable (shellFile j) = true -> is_Some (files w !! shellFile j)).

End Operations.

End Task.

(** ** task.go, second revision in the file (lines 203-378): jobs with a
    list of commands, no shell file *)

Module TaskCmds.

Record job : Type := {
  Name : string;
  Schedule : string;
  Commands : list string;
  RunningMode : string;
  task : bool;
  logger : bool;
  id : Z
}.

(** [ctx] is [None] while the cancel function is nil, and otherwise tells
    whether the context has been cancelled. *)
Record Task : Type := {
  Jobs : list ptr;
  Cron : cron.Cron;
  stoppingTimeout : Z;
  wg : Z;
  ctx : option bool;
  isDocker : bool
}.

Record World : Type := {
  self : Task;
  heap : gmap nat job;
  logged : list LogEvent
}.

Definition setJobs (js : list ptr) (t : Task) : Task :=
  {| Jobs := js; Cron := Cron t; stoppingTimeout := stoppingTimeout t; wg := wg t;
     ctx := ctx t; isDocker := isDocker t |}.

Definition setCron (c : cron.Cron) (t : Task) : Task :=
  {| Jobs := Jobs t; Cron := c; stoppingTimeout := stoppingTimeout t; wg := wg t;
     ctx := ctx t; isDocker := isDocker t |}.

Definition setWg (n : Z) (t : Task) : Task :=
  {| Jobs := Jobs t; Cron := Cron t; stoppingTimeout := stoppingTimeout t; wg := n;
     ctx := ctx t; isDocker := isDocker t |}.

Definition setCtx (q : option bool) (t : Task) : Task :=
  {| Jobs := Jobs t; Cron := Cron t; stoppingTimeout := stoppingTimeout t; wg := wg t;
     ctx := q; isDocker := isDocker t |}.

Definition onSelf (f : Task -> Task) (w : World) : World :=
  {| self := f (self w); heap := heap w; logged := logged w |}.

Definition store (p : ptr) (j : job) (w : World) : World :=
  {| self := self w; heap := <[p := j]> (heap w); logged := logged w |}.

Definition log (e : LogEvent) (w : World) : World :=
  {| self := self w; heap := heap w; logged := logged w ++ [e] |}.

Definition NewTask : Task :=
  {| Jobs := []; Cron := cron.New; stoppingTimeout := 3000; wg := 0;
     ctx := None; isDocker := false |}.

Section Operations.
Context `{Platform job}.

Definition makeLogger (p : ptr) (w : World) : World * Go.result error :=
  match heap w !! p with
  | None => (w, Go.Panic)
  | Some j =>
      match makeLoggerError j with
      | Some e => (w, Go.Err (LoggerError e))
      | None =>
          (store p {| Name := Name j; Schedule := Schedule j; Commands := Commands j;
                      RunningMode := RunningMode j; task := task j; logger := true;
                      id := id j |} w, Go.Ok)
      end
  end.

Definition jobWrappers (mode : string) : list cron.JobWrapper :=
  [cron.Recover]
    ++ (if String.eqb mode "delay" then [cron.DelayIfStillRunning]
        else if String.eqb mode "skip" then [cron.SkipIfStillRunning]
        else []).

Definition createCronJob (p : ptr) (w : World) : World * Go.result error :=
  match heap w !! p with
  | None => (w, Go.Panic)
  | Some j =>
      match cron.AddJob (Cron (self w)) (Schedule j)
              (cron.Then (jobWrappers (RunningMode j)) p) with
      | (_, inr err) => (w, Go.Err (InvalidSchedule (Schedule j) err))
      | (c, inl id) =>
          (store p {| Name := Name j; Schedule := Schedule j; Commands := Commands j;
                      RunningMode := RunningMode j; task := task j;
                      logger := logger j; id := id |}
             (onSelf (setCron c) w), Go.Ok)
      end
  end.

Definition addJob (p : ptr) (w : World) : World * Go.result error :=
  match heap w !! p with
  | None => (w, Go.Panic)
  | Some j =>
      if String.eqb (Schedule j) "" then (w, Go.Err ScheduleRequired)
      else if Z.of_nat (length (Commands j)) <? 1
      then (w, Go.Err (CommandRequired (Schedule j)))
      else
        let w := store p {| Name := Name j; Schedule := Schedule j;
                            Commands := Commands j; RunningMode := RunningMode j;
                            task := true; logger := logger j; id := id j |} w in
        match makeLogger p w with
        | (w, Go.Ok) =>
            match createCronJob p w with
            | (w, Go.Ok) =>
                (log (LogInfo "add job" [("name", Name j); ("schedule", Schedule j)]) w,
                 Go.Ok)
            | r => r
            end
        | r => r
        end
  end.

Fixpoint addJobs (jobs : list ptr) (w : World) : World * Go.result error :=
  match jobs with
  | [] => (w, Go.Ok)
  | p :: rest =>
      match addJob p w with
      | (w, Go.Ok) => addJobs rest w
      | r => r
      end
  end.

Definition AddJob (jobs : list ptr) (w : World) : World * Go.result error :=
  match addJobs jobs w with
  | (w, Go.Ok) => (onSelf (fun t => setJobs (Jobs t ++ jobs) t) w, Go.Ok)
  | r => r
  end.

Definition Start (w : World) : World :=
  let w := log (LogInfo "cron start" [])
             (onSelf (fun t => setCron (cron.Start (Cron t)) t) w) in
  onSelf (fun t => setCtx (Some false) (setWg (wg t + 1) t)) w.

(** The loop of [Stop], entered at [now]: the instant at which it is left
    and whether it was left on the done context. *)
Fixpoint waitRunning (fuel : nat) (tl : Timeline) (c : context.Context) (now : Z)
  : option (Z * bool) :=
  match fuel with
  | O => None
  | S fuel =>
      match context.Err c now with
      | Some _ => Some (now, true)
      | None =>
          if runningAt tl now >? 0
          then waitRunning fuel tl c (now + 100 * time.Second)
          else Some (now, false)
      end
  end.

Definition roundsUntil (c : context.Context) (now : Z) : nat :=
  Z.to_nat ((context.deadline c - now) / (100 * time.Second)) + 2.

(** [Stop] called at the instant [now]; [wg.Done()] is deferred. *)
Definition Stop (tl : Timeline) (now : Z) (w : World)
  : option (World * Z * Go.result error) :=
  let w := onSelf (fun t => setCron (cron.Stop (Cron t)) t) w in
  let w := match ctx (self w) with
           | Some _ => onSelf (setCtx (Some true)) w
           | None => w
           end in
  let c := context.WithTimeout None now (stoppingTimeout (self w)) in
  match waitRunning (roundsUntil c now) tl c now with
  | None => None
  | Some (now, forced) =>
      let w := if forced : bool then log (LogError "" "force quit" []) w else w in
      let n := wg (self w) - 1 in
      Some (onSelf (setWg n) w, now, if n <? 0 then Go.Panic else Go.Ok)
  end.

End Operations.

End TaskCmds.

(** ** task.go, second revision: [LoadSettings] (lines 339-374) *)

Module Settings.

(** The errors [LoadSettings] returns: those of [os.Stat], [findYamls] and
    [loadSetting] as they come, and the error of [AddJob] wrapped with the
    name of the config file. *)
Inductive loadError : Type :=
| StatError (e : string)
| FindError (e : string)
| SettingError (e : string)
| ConfigError (filename : string) (cause : error).

(** What lies outside task.go: [os.Stat] (its error, or whether the path is
    a directory), and [findYamls] and [loadSetting], which are not part of the
    sources.  [loadSetting] gives the entries of [config.Schedules] in the
    order in which the range over the map visits them; a value is [None] for
    a nil job. *)
Class Disk : Type := {
  Stat : string -> string + bool;
  findYamls : string -> string + list string;
  loadSetting : string -> string + list (string * option TaskCmds.job)
}.

Section Operations.
Context `{Platform TaskCmds.job} `{Disk}.

(** The loop that turns the map into a slice: each job gets its key as
    [Name].  The jobs of a config are new objects, so each one is put at a
    location the heap does not hold yet.  [None] when a value is nil
    ([j.Name = k] panics). *)
Fixpoint collect (schedules : list (string * option TaskCmds.job))
    (w : TaskCmds.World) : TaskCmds.World * option (list ptr) :=
  match schedules with
  | [] => (w, Some [])
  | (_, None) :: _ => (w, None)
  | (k, Some j) :: rest =>
      let p := fresh (dom (TaskCmds.heap w)) in
      let w := TaskCmds.store p
                 {| TaskCmds.Name := k; TaskCmds.Schedule := TaskCmds.Schedule j;
                    TaskCmds.Commands := TaskCmds.Commands j;
                    TaskCmds.RunningMode := TaskCmds.RunningMode j;
                    TaskCmds.task := TaskCmds.task j;
                    TaskCmds.logger := TaskCmds.logger j;
                    TaskCmds.id := TaskCmds.id j |} w in
      match collect rest w with
      | (w, Some jobs) => (w, Some (p :: jobs))
      | r => r
      end
  end.

(** The body of the loop over the file names. *)
Definition loadFile (filename : string) (w : TaskCmds.World)
  : TaskCmds.World * Go.result loadError :=
  match loadSetting filename with
  | inl e => (w, Go.Err (SettingError e))
  | inr schedules =>
      match collect schedules w with
      | (w, None) => (w, Go.Panic)
      | (w, Some jobs) =>
          match TaskCmds.AddJob jobs w with
          | (w, Go.Ok) => (w, Go.Ok)
          | (w, Go.Err e) => (w, Go.Err (ConfigError filename e))
          | (w, Go.Panic) => (w, Go.Panic)
          end
      end
  end.

Fixpoint loadFiles (filenames : list string) (w : TaskCmds.World)
  : TaskCmds.World * Go.result loadError :=
  match filenames with
  | [] => (w, Go.Ok)
  | filename :: rest =>
      match loadFile filename w with
      | (w, Go.Ok) => loadFiles rest w
      | r => r
      end
  end.

(** The body of the loop over the paths: a directory stands for the yaml
    files found in it, any other path for itself. *)
Definition loadPath (path : string) (w : TaskCmds.World)
  : TaskCmds.World * Go.result loadError :=
  match Stat path with
  | inl e => (w, Go.Err (StatError e))
  | inr true =>
      match findYamls path with
      | inl e => (w, Go.Err (FindError e))
      | inr filenames => loadFiles filenames w
      end
  | inr false => loadFiles [path] w
  end.

Fixpoint LoadSettings (configs : list string) (w : TaskCmds.World)
  : TaskCmds.World * Go.result loadError :=
  match configs with
  | [] => (w, Go.Ok)
  | path :: rest =>
      match loadPath path w with
      | (w, Go.Ok) => LoadSettings rest w
      | r => r
      end
  end.

(** [w'] is [w] with jobs loaded from config files: [Jobs] has grown by
    jobs that were not on the heap of [w], each of which carries a key of a
    config file as its [Name] and the schedule and commands found under that
    key; the jobs that were on the heap of [w] keep their name, schedule and
    commands. *)
Definition extends (w w' : TaskCmds.World) : Prop :=
  (exists new,
      TaskCmds.Jobs (TaskCmds.self w') = TaskCmds.Jobs (TaskCmds.self w) ++ new
      /\ forall q, In q new ->
           TaskCmds.heap w !! q = None
           /\ exists j' filename schedules j,
                TaskCmds.heap w' !! q = Some j'
                /\ loadSetting filename = inr schedules
                /\ In (TaskCmds.Name j', Some j) schedules
                /\ TaskCmds.Schedule j' = TaskCmds.Schedule j
                /\ TaskCmds.Commands j' = TaskCmds.Commands j)
  /\ (forall q j, TaskCmds.heap w !! q = Some j ->
        exists j', TaskCmds.heap w' !! q = Some j'
                   /\ TaskCmds.Name j' = TaskCmds.Name j
                   /\ TaskCmds.Schedule j' = TaskCmds.Schedule j
                   /\ TaskCmds.Commands j' = TaskCmds.Commands j).

End Operations.

End Settings.

(** ** A concrete platform and concrete jobs, to run the definitions on *)

Module Demo.

Definition parser : cron.Parser :=
  fun spec =>
    if String.eqb spec "" then Some "empty spec string"
    else if String.eqb spec "every day" then Some "expected 5 to 6 fields"
    else None.

Definition platform : Platform Task.job :=
  {| Platform_Parser := parser;
     TempDir := "/tmp";
     makeLoggerError := fun _ => None;
     creatable := fun _ => true |}.

Definition platformCmds : Platform TaskCmds.job :=
  {| Platform_Parser := parser;
     TempDir := "/tmp";
     makeLoggerError := fun _ => None;
     creatable := fun _ => true |}.

Definition job (schedule command mode : string) : Task.job :=
  {| Task.Schedule := schedule; Task.Command := command; Task.RunningMode := mode;
     Task.task := false; Task.logger := false; Task.id := 0; Task.shellFile := "" |}.

Definition jobCmds (name schedule : string) (commands : list string) (mode : string)
  : TaskCmds.job :=
  {| TaskCmds.Name := name; TaskCmds.Schedule := schedule;
     TaskCmds.Commands := commands; TaskCmds.RunningMode := mode;
     TaskCmds.task := false; TaskCmds.logger := false; TaskCmds.id := 0 |}.

(** A fresh task and four jobs on the heap: two well-formed ones, one with
    a misspelt running mode, one without a schedule. *)
Definition world : Task.World :=
  {| Task.self := Task.NewTask;
     Task.heap := {[ 1%nat := job "* * * * *" "echo 1" "";
                     2%nat := job "@every 1s" "sleep 5" "skip";
                     3%nat := job "@hourly" "date" "Skip";
                     4%nat := job "" "echo 4" "delay";
                     5%nat := job "every day" "echo 5" "" ]};
     Task.files := ∅;
     Task.logged := [] |}.

Definition worldCmds : TaskCmds.World :=
  {| TaskCmds.self := TaskCmds.NewTask;
     TaskCmds.heap := {[ 1%nat := jobCmds "a" "* * * * *" ["echo 1"] "";
                         2%nat := jobCmds "b" "@every 1s" ["sleep 5"] "skip";
                         3%nat := jobCmds "c" "@hourly" ["date"] "Skip";
                         4%nat := jobCmds "d" "@daily" [] "delay";
                         5%nat := jobCmds "e" "every day" ["echo 5"] "" ]};
     TaskCmds.logged := [] |}.

(** The task after a batch of two jobs went through and [Start] was
    called. *)
Definition started : Task.World :=
  fst (Task.Start
         (fst (Task.AddJob (H := platform) "/etc/cron/jobs.yaml" [1; 2]%nat world))).

(** A job that is in flight when [Stop] is called and never finishes. *)
Definition stuck : Timeline :=
  {| runningAt := fun _ => 1; schedulerIdle := None |}.

(** A job that is in flight when [Stop] is called at the instant 0 and
    finishes one second later. *)
Definition brief : Timeline :=
  {| runningAt := fun t => if t <? 1 * time.Second then 1 else 0;
     schedulerIdle := Some (1 * time.Second) |}.

End Demo.

(** ** A concrete disk, to run [LoadSettings] on *)

Module DemoDisk.

(** A directory with two config files: the first with two jobs, the second
    with a job without commands; and a config file outside it. *)
Definition disk : Settings.Disk :=
  {| Settings.Stat :=
       fun path =>
         if String.eqb path "/etc/cron" then inr true
         else if String.eqb path "/etc/cron/a.yaml" then inr false
         else if String.eqb path "/etc/cron/b.yaml" then inr false
         else if String.eqb path "/srv/jobs.yaml" then inr false
         else inl "no such file or directory";
     Settings.findYamls :=
       fun path =>
         if String.eqb path "/etc/cron" then inr ["/etc/cron/a.yaml"; "/etc/cron/b.yaml"]
         else inr [];
     Settings.loadSetting :=
       fun filename =>
         if String.eqb filename "/etc/cron/a.yaml"
         then inr [("backup", Some (Demo.jobCmds "" "@daily" ["tar cf /b.tar /srv"] ""));
                   ("ping", Some (Demo.jobCmds "" "@every 1s" ["ping -c1 host"] "skip"))]
         else if String.eqb filename "/etc/cron/b.yaml"
         then inr [("empty", Some (Demo.jobCmds "" "@hourly" [] ""))]
         else if String.eqb filename "/srv/jobs.yaml"
         then inr [("date", Some (Demo.jobCmds "" "@hourly" ["date"] "delay"))]
         else inl "yaml: unmarshal errors" |}.

Definition world : TaskCmds.World :=
  {| TaskCmds.self := TaskCmds.NewTask; TaskCmds.heap := ∅; TaskCmds.logged := [] |}.

End DemoDisk.

(* ===================================================================== *)
(** * Part II: properties                                                 *)
(* ===================================================================== *)

(** ** Sanity checks of the library models against Go's documented results *)

Example itoa_examples :
  Go.itoa 0 = "0" /\ Go.itoa 7 = "7" /\ Go.itoa 120 = "120" /\ Go.itoa (-35) = "-35".
Proof. repeat split; reflexivity. Qed.

Example Clean_examples :
  map filepath.Clean
    ["abc"; "abc/def"; "."; ".."; "../.."; "../../abc"; "/abc"; "/"; "";
     "abc/"; "abc//def//ghi"; "abc/./def"; "/./abc/def"; "abc/.";
     "abc/def/ghi/../jkl"; "abc/def/../ghi/../jkl"; "abc/def/.."; "abc/def/../..";
     "/abc/def/../.."; "abc/def/../../.."; "/abc/def/../../..";
     "abc/def/../../../ghi/jkl/../../../mno"; "/../abc"; "abc/./../def";
     "abc//./../def"; "abc/../../././../def"; "//abc"; "///abc"; "//abc//"]
  = ["abc"; "abc/def"; "."; ".."; "../.."; "../../abc"; "/abc"; "/"; ".";
     "abc"; "abc/def/ghi"; "abc/def"; "/abc/def"; "abc";
     "abc/def/jkl"; "abc/jkl"; "abc"; ".";
     "/"; ".."; "/";
     "../../mno"; "/abc"; "def";
     "def"; "../../def"; "/abc"; "/abc"; "/abc"].
Proof. vm_compute. reflexivity. Qed.

Example Dir_Base_examples :
  map filepath.Dir ["/foo/bar/baz.js"; "/foo/bar/baz"; "/foo/bar/baz/"; "dev.txt";
                    "../todo.txt"; ".."; "."; "/"; ""; "a/b"; "a/b/"; "a////b"; "/////"]
  = ["/foo/bar"; "/foo/bar"; "/foo/bar/baz"; "."; ".."; "."; "."; "/"; "."; "a"; "a/b";
     "a"; "/"]
  /\ map filepath.Base [""; "."; "/."; "/"; "////"; "x/"; "abc"; "abc/def"; "a/b/.x";
                       "a/b/c."; "a/b/c.x"]
  = ["."; "."; "."; "/"; "/"; "x"; "abc"; "def"; ".x"; "c."; "c.x"].
Proof. split; vm_compute; reflexivity. Qed.

Example Join_examples :
  map filepath.Join [[]; [""]; ["a"]; ["a"; "b"]; ["a"; ""]; [""; "b"]; ["/"; "a"];
                     ["/"; ""]; ["a/"; "b"]; ["a/"; ""]; [""; ""]; ["/tmp"; "argument"]]
  = [""; ""; "a"; "a/b"; "a"; "b"; "/a"; "/"; "a/b"; "a"; ""; "/tmp/argument"].
Proof. vm_compute. reflexivity. Qed.

(** ** truncateText *)

Example truncateText_examples :
  truncateText "echo hello" 40 = Some "echo hello"
  /\ truncateText "echo hello" 4 = Some "echo..."
  /\ truncateText "abcd" 3 = Some "abc..."
  /\ truncateText "abcd" (-1) = None.
Proof. repeat split; reflexivity. Qed.

(** ** Strings *)

Lemma append_cons (x : ascii) (a b : string) : String x a +:+ b = String x (a +:+ b).
Proof. reflexivity. Qed.

Lemma append_nil (b : string) : "" +:+ b = b.
Proof. reflexivity. Qed.

Lemma length_append (a b : string) :
  String.length (a +:+ b) = (String.length a + String.length b)%nat.
Proof.
  induction a as [|x a IH]; [reflexivity|].
  rewrite append_cons; simpl; now rewrite IH.
Qed.

Lemma append_assoc (a b c : string) : (a +:+ b) +:+ c = a +:+ (b +:+ c).
Proof.
  induction a as [|x a IH]; [reflexivity|].
  rewrite !append_cons; now rewrite IH.
Qed.

Lemma append_empty_r (a : string) : a +:+ "" = a.
Proof.
  induction a as [|x a IH]; [reflexivity|].
  rewrite append_cons; now rewrite IH.
Qed.

Lemma length_substring_0 (n : nat) (s : string) :
  (n <= String.length s)%nat -> String.length (substring 0 n s) = n.
Proof.
  revert s; induction n as [|n IH]; intros [|c s] Hn; simpl in *; try reflexivity.
  - lia.
  - rewrite IH; [reflexivity | lia].
Qed.

Lemma prefix_substring_0 (n : nat) (s : string) :
  String.prefix (substring 0 n s) s = true.
Proof.
  revert s; induction n as [|n IH]; intros [|c s]; simpl; try reflexivity.
  destruct (ascii_dec c c) as [_|Hc]; [apply IH | contradiction].
Qed.

(** Cancellation of a common tail. *)
Lemma append_inj_r (a b t : string) : a +:+ t = b +:+ t -> a = b.
Proof.
  revert b; induction a as [|x a IH]; intros [|y b] Heq;
    rewrite ?append_cons, ?append_nil in Heq.
  - reflexivity.
  - apply (f_equal String.length) in Heq; simpl in Heq.
    rewrite length_append in Heq; lia.
  - apply (f_equal String.length) in Heq; simpl in Heq.
    rewrite length_append in Heq; lia.
  - injection Heq as -> Heq. f_equal. now apply IH.
Qed.

(** C10.  For [0 <= max], [truncateText s max] is [s] itself when
    [max >= len(s)]; otherwise it is the first [max] bytes of [s] followed by
    three dots, of length [max + 3], which is more than [len(s)] whenever
    [len(s) < max + 3]. *)
Theorem truncateText_spec (s : string) (max : Z) :
  0 <= max ->
  (max >= Go.len s -> truncateText s max = Some s)
  /\ (max < Go.len s ->
      exists head,
        truncateText s max = Some (head +:+ "...")
        /\ Go.len head = max
        /\ String.prefix head s = true
        /\ Go.len (head +:+ "...") = max + 3
        /\ (Go.len s < max + 3 -> Go.len (head +:+ "...") > Go.len s)).
Proof.
  intros Hmax. unfold truncateText, Go.len. split.
  - intros Hge. destruct (Z.geb_spec max (Z.of_nat (String.length s))); [reflexivity | lia].
  - intros Hlt.
    destruct (Z.geb_spec max (Z.of_nat (String.length s))) as [Hge|_]; [lia|].
    destruct (Z.ltb_spec max 0) as [Hneg|_]; [lia|].
    exists (substring 0 (Z.to_nat max) s).
    assert (Hlen : String.length (substring 0 (Z.to_nat max) s) = Z.to_nat max)
      by (apply length_substring_0; lia).
    repeat split.
    + rewrite Hlen; lia.
    + apply prefix_substring_0.
    + rewrite length_append, Hlen; simpl; lia.
    + intros Hshort. rewrite length_append, Hlen; simpl; lia.
Qed.

Lemma truncateText_spec_witness :
  0 <= 3
  /\ exists head,
       truncateText "abcd" 3 = Some (head +:+ "...")
       /\ Go.len (head +:+ "...") > Go.len "abcd".
Proof.
  split; [lia|].
  destruct (truncateText_spec "abcd" 3 ltac:(lia)) as [_ Hcut].
  destruct (Hcut ltac:(vm_compute; reflexivity)) as (head & Hres & _ & _ & _ & Hlong).
  exists head. split; [exact Hres | apply Hlong; vm_compute; reflexivity].
Defined.

(** ** The wrappers of a job *)

(** Under [Recover] as the outermost wrapper a trigger always returns. *)
Lemma run_Recover_returns (ws : list cron.JobWrapper) (token : bool) (waited : Z)
    (stack : string) (body : cron.outcome) :
  fst (fst (cron.run (cron.Recover :: ws) token waited stack body)) = cron.Returned.
Proof.
  simpl. destruct (cron.run ws token waited stack body) as [[[|v] l] tk]; reflexivity.
Qed.

(** [SkipIfStillRunning] does not put its token back after a run that
    panicked: [Recover] logs the panic, and the triggers that follow are
    skipped. *)
Lemma run_skip_after_panic (v stack : string) (body : cron.outcome) :
  cron.runs [cron.Recover; cron.SkipIfStillRunning] true
    [(0, stack, cron.Panicked v); (0, stack, body)]
  = [(cron.Returned, [LogError v "panic" [("stack", "..." +:+ String "010" stack)]]);
     (cron.Returned, [LogInfo "skip" []])].
Proof. reflexivity. Qed.

(** [DelayIfStillRunning] logs a wait of more than a minute and runs the
    job all the same. *)
Lemma run_delay_logged (waited : Z) (stack : string) :
  time.Minute < waited ->
  cron.run [cron.Recover; cron.DelayIfStillRunning] true waited stack cron.Returned
  = (cron.Returned, [LogInfo "delay" [("duration", Go.itoa waited)]], true).
Proof.
  intros Hlong. cbn -[time.Minute Go.itoa].
  destruct (Z.gtb_spec waited time.Minute) as [_|Hle]; [reflexivity | lia].
Qed.

Lemma Task_jobWrappers_cases (mode : string) :
  (mode = "delay" /\ Task.jobWrappers mode = [cron.Recover; cron.DelayIfStillRunning])
  \/ (mode = "skip" /\ Task.jobWrappers mode = [cron.Recover; cron.SkipIfStillRunning])
  \/ (mode <> "delay" /\ mode <> "skip" /\ Task.jobWrappers mode = [cron.Recover]).
Proof.
  unfold Task.jobWrappers.
  destruct (String.eqb_spec mode "delay") as [->|Hd]; [left; split; reflexivity|].
  destruct (String.eqb_spec mode "skip") as [->|Hs]; [right; left; split; reflexivity|].
  right; right; repeat split; assumption.
Qed.

Lemma TaskCmds_jobWrappers_cases (mode : string) :
  (mode = "delay" /\ TaskCmds.jobWrappers mode = [cron.Recover; cron.DelayIfStillRunning])
  \/ (mode = "skip" /\ TaskCmds.jobWrappers mode = [cron.Recover; cron.SkipIfStillRunning])
  \/ (mode <> "delay" /\ mode <> "skip" /\ TaskCmds.jobWrappers mode = [cron.Recover]).
Proof.
  unfold TaskCmds.jobWrappers.
  destruct (String.eqb_spec mode "delay") as [->|Hd]; [left; split; reflexivity|].
  destruct (String.eqb_spec mode "skip") as [->|Hs]; [right; left; split; reflexivity|].
  right; right; repeat split; assumption.
Qed.

(** What [createCronJob] does to the world, by the verdict of the parser. *)
Lemma Task_createCronJob_eq `{Platform Task.job} (cfg : string) (p : nat)
    (w : Task.World) (j : Task.job) :
  Task.heap w !! p = Some j ->
  Task.createCronJob cfg p w =
    match cron.Parse (Task.Schedule j) with
    | Some err => (w, Go.Err (InvalidSchedule (Task.Schedule j) err))
    | None =>
        let c := Task.Cron (Task.self w) in
        let id := Go.wrap64 (cron.nextID c + 1) in
        let path := Task.shellFilePath (Task.testMode (Task.self w)) cfg id in
        ({| Task.self :=
              Task.setCron
                {| cron.entries :=
                     cron.entries c
                       ++ [{| cron.ID := id; cron.Schedule := Task.Schedule j;
                              cron.Job :=
                                cron.Then (Task.jobWrappers (Task.RunningMode j)) p |}];
                   cron.nextID := id;
                   cron.running := cron.running c |} (Task.self w);
            Task.heap :=
              <[p := {| Task.Schedule := Task.Schedule j; Task.Command := Task.Command j;
                        Task.RunningMode := Task.RunningMode j; Task.task := Task.task j;
                        Task.logger := Task.logger j; Task.id := id;
                        Task.shellFile := path |}]> (Task.heap w);
            Task.files :=
              if creatable path then <[path := Task.Command j]> (Task.files w)
              else Task.files w;
            Task.logged := Task.logged w |}, Go.Ok)
    end.
Proof.
  intros Hp. unfold Task.createCronJob, cron.AddJob. rewrite Hp.
  destruct (cron.Parse (Task.Schedule j)) as [err|]; [reflexivity|].
  cbn -[Go.wrap64 Task.shellFilePath]. unfold Task.saveShellFile.
  cbn -[Go.wrap64 Task.shellFilePath]. rewrite lookup_insert_eq.
  cbn -[Go.wrap64 Task.shellFilePath].
  destruct (creatable _); reflexivity.
Qed.

Lemma TaskCmds_createCronJob_eq `{Platform TaskCmds.job} (p : nat)
    (w : TaskCmds.World) (j : TaskCmds.job) :
  TaskCmds.heap w !! p = Some j ->
  TaskCmds.createCronJob p w =
    match cron.Parse (TaskCmds.Schedule j) with
    | Some err => (w, Go.Err (InvalidSchedule (TaskCmds.Schedule j) err))
    | None =>
        let c := TaskCmds.Cron (TaskCmds.self w) in
        let id := Go.wrap64 (cron.nextID c + 1) in
        ({| TaskCmds.self :=
              TaskCmds.setCron
                {| cron.entries :=
                     cron.entries c
                       ++ [{| cron.ID := id; cron.Schedule := TaskCmds.Schedule j;
                              cron.Job :=
                                cron.Then (TaskCmds.jobWrappers (TaskCmds.RunningMode j)) p |}];
                   cron.nextID := id;
                   cron.running := cron.running c |} (TaskCmds.self w);
            TaskCmds.heap :=
              <[p := {| TaskCmds.Name := TaskCmds.Name j;
                        TaskCmds.Schedule := TaskCmds.Schedule j;
                        TaskCmds.Commands := TaskCmds.Commands j;
                        TaskCmds.RunningMode := TaskCmds.RunningMode j;
                        TaskCmds.task := TaskCmds.task j;
                        TaskCmds.logger := TaskCmds.logger j;
                        TaskCmds.id := id |}]> (TaskCmds.heap w);
            TaskCmds.logged := TaskCmds.logged w |}, Go.Ok)
    end.
Proof.
  intros Hp. unfold TaskCmds.createCronJob, cron.AddJob. rewrite Hp.
  destruct (cron.Parse (TaskCmds.Schedule j)) as [err|]; reflexivity.
Qed.

(** The facts about a list of wrappers that is the one collected for a
    running mode. *)
Lemma wrappers_policy (mode : string) (ws : list cron.JobWrapper) :
  (mode = "delay" /\ ws = [cron.Recover; cron.DelayIfStillRunning])
  \/ (mode = "skip" /\ ws = [cron.Recover; cron.SkipIfStillRunning])
  \/ (mode <> "delay" /\ mode <> "skip" /\ ws = [cron.Recover]) ->
  (mode = "skip" -> ws = [cron.Recover; cron.SkipIfStillRunning])
  /\ (mode = "delay" -> ws = [cron.Recover; cron.DelayIfStillRunning])
  /\ (mode = "" -> ws = [cron.Recover])
  /\ (exists policy, ws = cron.Recover :: policy)
  /\ (forall token waited stack body,
         fst (fst (cron.run ws token waited stack body)) = cron.Returned)
  /\ (forall waited stack v,
         exists l tk,
           cron.run ws true waited stack (cron.Panicked v)
           = (cron.Returned,
              l ++ [LogError v "panic" [("stack", "..." +:+ String "010" stack)]],
              tk)).
Proof.
  intros Hcases.
  split; [|split; [|split; [|split; [|split]]]].
  - destruct Hcases as [[-> ->]|[[-> ->]|(Hd & Hs & ->)]];
      intros Hm; try reflexivity; try discriminate Hm; contradiction.
  - destruct Hcases as [[-> ->]|[[-> ->]|(Hd & Hs & ->)]];
      intros Hm; try reflexivity; try discriminate Hm; contradiction.
  - destruct Hcases as [[-> ->]|[[-> ->]|(Hd & Hs & ->)]];
      intros Hm; try reflexivity; discriminate Hm.
  - destruct Hcases as [[_ ->]|[[_ ->]|(_ & _ & ->)]]; eexists; reflexivity.
  - destruct Hcases as [[_ ->]|[[_ ->]|(_ & _ & ->)]];
      intros token waited stack body; apply run_Recover_returns.
  - destruct Hcases as [[_ ->]|[[_ ->]|(_ & _ & ->)]]; intros waited stack v.
    + exists ((if waited >? time.Minute
               then [LogInfo "delay" [("duration", Go.itoa waited)]] else []) ++ []),
             true.
      reflexivity.
    + exists [], false. reflexivity.
    + exists [], true. reflexivity.
Qed.

(** C4.  [createCronJob] registers a job exactly when the parser accepts its
    schedule, and then appends it to the cron table under the wrappers
    chosen by its running mode: "skip" gives skip-if-still-running, "delay"
    gives delay-if-still-running, the empty string gives no serializing
    wrapper.  In each case [Recover] is the outermost wrapper: a trigger of
    the job always returns to the scheduler, and when the job's run is
    reached and panics, the panic is logged as an error with its stack.
    Stated for both revisions of task.go. *)
Theorem createCronJob_applies_policy :
  (forall (P : Platform Task.job) (cfg : string) (p : nat) (w : Task.World)
          (j : Task.job),
      Task.heap w !! p = Some j ->
      (forall w', Task.createCronJob cfg p w = (w', Go.Ok) ->
                  cron.Parse (Task.Schedule j) = None)
      /\ (cron.Parse (Task.Schedule j) = None ->
          exists w' e,
            Task.createCronJob cfg p w = (w', Go.Ok)
            /\ cron.entries (Task.Cron (Task.self w'))
               = cron.entries (Task.Cron (Task.self w)) ++ [e]
            /\ cron.inner (cron.Job e) = p
            /\ (Task.RunningMode j = "skip" ->
                cron.wrappers (cron.Job e) = [cron.Recover; cron.SkipIfStillRunning])
            /\ (Task.RunningMode j = "delay" ->
                cron.wrappers (cron.Job e) = [cron.Recover; cron.DelayIfStillRunning])
            /\ (Task.RunningMode j = "" -> cron.wrappers (cron.Job e) = [cron.Recover])
            /\ (exists policy, cron.wrappers (cron.Job e) = cron.Recover :: policy)
            /\ (forall token waited stack body,
                   fst (fst (cron.run (cron.wrappers (cron.Job e)) token waited stack body))
                   = cron.Returned)
            /\ (forall waited stack v,
                   exists l tk,
                     cron.run (cron.wrappers (cron.Job e)) true waited stack
                       (cron.Panicked v)
                     = (cron.Returned,
                        l ++ [LogError v "panic"
                                [("stack", "..." +:+ String "010" stack)]],
                        tk))))
  /\ (forall (P : Platform TaskCmds.job) (p : nat) (w : TaskCmds.World)
             (j : TaskCmds.job),
         TaskCmds.heap w !! p = Some j ->
         (forall w', TaskCmds.createCronJob p w = (w', Go.Ok) ->
                     cron.Parse (TaskCmds.Schedule j) = None)
         /\ (cron.Parse (TaskCmds.Schedule j) = None ->
             exists w' e,
               TaskCmds.createCronJob p w = (w', Go.Ok)
               /\ cron.entries (TaskCmds.Cron (TaskCmds.self w'))
                  = cron.entries (TaskCmds.Cron (TaskCmds.self w)) ++ [e]
               /\ cron.inner (cron.Job e) = p
               /\ (TaskCmds.RunningMode j = "skip" ->
                   cron.wrappers (cron.Job e) = [cron.Recover; cron.SkipIfStillRunning])
               /\ (TaskCmds.RunningMode j = "delay" ->
                   cron.wrappers (cron.Job e) = [cron.Recover; cron.DelayIfStillRunning])
               /\ (TaskCmds.RunningMode j = "" ->
                   cron.wrappers (cron.Job e) = [cron.Recover])
               /\ (exists policy, cron.wrappers (cron.Job e) = cron.Recover :: policy)
               /\ (forall token waited stack body,
                      fst (fst (cron.run (cron.wrappers (cron.Job e)) token waited stack
                                  body))
                      = cron.Returned)
               /\ (forall waited stack v,
                      exists l tk,
                        cron.run (cron.wrappers (cron.Job e)) true waited stack
                          (cron.Panicked v)
                        = (cron.Returned,
                           l ++ [LogError v "panic"
                                   [("stack", "..." +:+ String "010" stack)]],
                           tk)))).
Proof.
  split.
  - intros P cfg p w j Hp.
    rewrite (Task_createCronJob_eq cfg p w j Hp). split.
    + intros w' Hrun. destruct (cron.Parse (Task.Schedule j)) as [err|];
        [discriminate | reflexivity].
    + intros ->. do 2 eexists. split; [reflexivity|].
      split; [reflexivity|]. split; [reflexivity|].
      apply (wrappers_policy (Task.RunningMode j)), Task_jobWrappers_cases.
  - intros P p w j Hp.
    rewrite (TaskCmds_createCronJob_eq p w j Hp). split.
    + intros w' Hrun. destruct (cron.Parse (TaskCmds.Schedule j)) as [err|];
        [discriminate | reflexivity].
    + intros ->. do 2 eexists. split; [reflexivity|].
      split; [reflexivity|]. split; [reflexivity|].
      apply (wrappers_policy (TaskCmds.RunningMode j)), TaskCmds_jobWrappers_cases.
Qed.

Lemma createCronJob_applies_policy_witness :
  (exists w' e,
      Task.createCronJob (H := Demo.platform) "/etc/cron/jobs.yaml" 2%nat Demo.world
      = (w', Go.Ok)
      /\ cron.entries (Task.Cron (Task.self w')) = [e]
      /\ cron.Job e = cron.Then [cron.Recover; cron.SkipIfStillRunning] 2%nat
      /\ cron.runs (cron.wrappers (cron.Job e)) true
           [(0, "goroutine 7", cron.Panicked "boom"); (0, "", cron.Returned)]
         = [(cron.Returned,
             [LogError "boom" "panic"
                [("stack", "..." +:+ String "010" "goroutine 7")]]);
            (cron.Returned, [LogInfo "skip" []])])
  /\ (exists w' e,
         TaskCmds.createCronJob (H := Demo.platformCmds) 4%nat Demo.worldCmds
         = (w', Go.Ok)
         /\ cron.entries (TaskCmds.Cron (TaskCmds.self w')) = [e]
         /\ cron.Job e = cron.Then [cron.Recover; cron.DelayIfStillRunning] 4%nat).
Proof.
  split.
  - destruct (proj1 createCronJob_applies_policy Demo.platform "/etc/cron/jobs.yaml"
                2%nat Demo.world (Demo.job "@every 1s" "sleep 5" "skip")
                ltac:(vm_compute; reflexivity))
      as [_ Hreg].
    destruct (Hreg ltac:(vm_compute; reflexivity))
      as (w' & e & Hrun & Hentries & Hinner & Hskip & _).
    exists w', e. split; [exact Hrun|]. split; [exact Hentries|].
    specialize (Hskip eq_refl).
    assert (Hjob : cron.Job e = cron.Then [cron.Recover; cron.SkipIfStillRunning] 2%nat)
      by (destruct e as [? ? [ws q]]; cbn in *; congruence).
    split; [exact Hjob|]. rewrite Hjob. reflexivity.
  - destruct (proj2 createCronJob_applies_policy Demo.platformCmds
                4%nat Demo.worldCmds (Demo.jobCmds "d" "@daily" [] "delay")
                ltac:(vm_compute; reflexivity))
      as [_ Hreg].
    destruct (Hreg ltac:(vm_compute; reflexivity))
      as (w' & e & Hrun & Hentries & Hinner & _ & Hdelay & _).
    exists w', e. split; [exact Hrun|]. split; [exact Hentries|].
    specialize (Hdelay eq_refl).
    destruct e as [? ? [ws q]]; cbn in *; congruence.
Defined.

(** C9.  A running mode other than "skip" and "delay" is not rejected: the
    job gets [Recover] as its only wrapper, the call returns normally
    whenever the parser accepts the schedule, and the only error it can
    return is the parser's.  Stated for both revisions of task.go. *)
Theorem createCronJob_unknown_mode :
  (forall (P : Platform Task.job) (cfg : string) (p : nat) (w : Task.World)
          (j : Task.job),
      Task.heap w !! p = Some j ->
      Task.RunningMode j <> "skip" ->
      Task.RunningMode j <> "delay" ->
      Task.jobWrappers (Task.RunningMode j) = [cron.Recover]
      /\ (cron.Parse (Task.Schedule j) = None ->
          exists w' e,
            Task.createCronJob cfg p w = (w', Go.Ok)
            /\ cron.entries (Task.Cron (Task.self w'))
               = cron.entries (Task.Cron (Task.self w)) ++ [e]
            /\ cron.Job e = cron.Then [cron.Recover] p)
      /\ (forall w' err,
             Task.createCronJob cfg p w = (w', Go.Err err) ->
             exists cause,
               cron.Parse (Task.Schedule j) = Some cause
               /\ err = InvalidSchedule (Task.Schedule j) cause))
  /\ (forall (P : Platform TaskCmds.job) (p : nat) (w : TaskCmds.World)
             (j : TaskCmds.job),
         TaskCmds.heap w !! p = Some j ->
         TaskCmds.RunningMode j <> "skip" ->
         TaskCmds.RunningMode j <> "delay" ->
         TaskCmds.jobWrappers (TaskCmds.RunningMode j) = [cron.Recover]
         /\ (cron.Parse (TaskCmds.Schedule j) = None ->
             exists w' e,
               TaskCmds.createCronJob p w = (w', Go.Ok)
               /\ cron.entries (TaskCmds.Cron (TaskCmds.self w'))
                  = cron.entries (TaskCmds.Cron (TaskCmds.self w)) ++ [e]
               /\ cron.Job e = cron.Then [cron.Recover] p)
         /\ (forall w' err,
                TaskCmds.createCronJob p w = (w', Go.Err err) ->
                exists cause,
                  cron.Parse (TaskCmds.Schedule j) = Some cause
                  /\ err = InvalidSchedule (TaskCmds.Schedule j) cause)).
Proof.
  split.
  - intros P cfg p w j Hp Hs Hd.
    assert (Hws : Task.jobWrappers (Task.RunningMode j) = [cron.Recover]).
    { destruct (Task_jobWrappers_cases (Task.RunningMode j))
        as [[? _]|[[? _]|(_ & _ & ?)]]; [contradiction..|assumption]. }
    split; [exact Hws|].
    rewrite (Task_createCronJob_eq cfg p w j Hp). split.
    + intros ->. do 2 eexists. split; [reflexivity|]. split; [reflexivity|].
      cbn [cron.Job]. now rewrite Hws.
    + intros w' err Hrun. destruct (cron.Parse (Task.Schedule j)) as [cause|].
      * injection Hrun as _ <-. now exists cause.
      * discriminate.
  - intros P p w j Hp Hs Hd.
    assert (Hws : TaskCmds.jobWrappers (TaskCmds.RunningMode j) = [cron.Recover]).
    { destruct (TaskCmds_jobWrappers_cases (TaskCmds.RunningMode j))
        as [[? _]|[[? _]|(_ & _ & ?)]]; [contradiction..|assumption]. }
    split; [exact Hws|].
    rewrite (TaskCmds_createCronJob_eq p w j Hp). split.
    + intros ->. do 2 eexists. split; [reflexivity|]. split; [reflexivity|].
      cbn [cron.Job]. now rewrite Hws.
    + intros w' err Hrun. destruct (cron.Parse (TaskCmds.Schedule j)) as [cause|].
      * injection Hrun as _ <-. now exists cause.
      * discriminate.
Qed.

Lemma createCronJob_unknown_mode_witness :
  Task.RunningMode (Demo.job "@hourly" "date" "Skip") <> "skip"
  /\ Task.RunningMode (Demo.job "@hourly" "date" "Skip") <> "delay"
  /\ exists w' e,
       Task.createCronJob (H := Demo.platform) "argument" 3%nat Demo.world = (w', Go.Ok)
       /\ cron.entries (Task.Cron (Task.self w')) = [e]
       /\ cron.Job e = cron.Then [cron.Recover] 3%nat.
Proof.
  assert (Hs : Task.RunningMode (Demo.job "@hourly" "date" "Skip") <> "skip")
    by (cbn; discriminate).
  assert (Hd : Task.RunningMode (Demo.job "@hourly" "date" "Skip") <> "delay")
    by (cbn; discriminate).
  split; [exact Hs|]. split; [exact Hd|].
  destruct (proj1 createCronJob_unknown_mode Demo.platform "argument" 3%nat Demo.world
              (Demo.job "@hourly" "date" "Skip") ltac:(vm_compute; reflexivity) Hs Hd)
    as (_ & Hok & _).
  destruct (Hok ltac:(vm_compute; reflexivity)) as (w' & e & Hrun & Hentries & Hjob).
  exists w', e. split; [exact Hrun|]. split; [exact Hentries|exact Hjob].
Defined.

(** ** The wait of [Stop] *)

Lemma wrap64_small (z : Z) : Go.minInt64 <= z <= Go.maxInt64 -> Go.wrap64 z = z.
Proof.
  unfold Go.minInt64, Go.maxInt64, Go.wrap64. intros Hz.
  rewrite Z.mod_small; lia.
Qed.

(** A timeout below the sleep of the loop: the deadline comes before the
    first sleep ends, and the fuel of [Stop] is two rounds. *)
Lemma short_timeout (parent : option Z) (now ms : Z) :
  0 < ms < 100000 ->
  let ctx := context.WithTimeout parent now ms in
  context.deadline ctx = now + ms * time.Millisecond
  /\ now < context.deadline ctx < now + 100 * time.Second
  /\ Task.roundsUntil ctx now = 2%nat
  /\ TaskCmds.roundsUntil ctx now = 2%nat.
Proof.
  intros Hms ctx. unfold ctx, context.WithTimeout, Task.roundsUntil,
    TaskCmds.roundsUntil. cbn [context.deadline].
  rewrite wrap64_small
    by (unfold Go.minInt64, Go.maxInt64, time.Millisecond; lia).
  unfold time.Millisecond, time.Second.
  replace (now + ms * 1000000 - now) with (ms * 1000000) by lia.
  rewrite Z.div_small by lia. repeat split; lia.
Qed.

Lemma Err_before_deadline (ctx : context.Context) (now : Z) :
  now < context.deadline ctx ->
  match context.parentDone ctx with Some tp => now < tp | None => True end ->
  context.Err ctx now = None.
Proof.
  intros Hd Hp. unfold context.Err. destruct (context.parentDone ctx) as [tp|].
  - destruct (Z.leb_spec tp now); [lia|]. cbn.
    destruct (Z.leb_spec (context.deadline ctx) now); [lia|reflexivity].
  - destruct (Z.leb_spec (context.deadline ctx) now); [lia|reflexivity].
Qed.

Lemma Err_after_deadline (ctx : context.Context) (now : Z) :
  context.deadline ctx <= now ->
  context.Err ctx now
  = match context.parentDone ctx with
    | Some tp =>
        if tp <=? context.deadline ctx then Some context.Canceled
        else Some context.DeadlineExceeded
    | None => Some context.DeadlineExceeded
    end.
Proof.
  intros Hd. unfold context.Err. destruct (context.parentDone ctx) as [tp|].
  - destruct (Z.leb_spec tp (context.deadline ctx)).
    + destruct (Z.leb_spec tp now); [reflexivity|lia].
    + rewrite andb_false_r.
      destruct (Z.leb_spec (context.deadline ctx) now); [reflexivity|lia].
  - destruct (Z.leb_spec (context.deadline ctx) now); [reflexivity|lia].
Qed.

(** With a job in flight at the call and the context not yet done, the loop
    of [stopImpl] sleeps; when the deadline falls within that sleep the loop
    is left when the sleep ends. *)
Lemma Task_waitRunning_sleeps (tl : Timeline) (ctx : context.Context) (now : Z) :
  0 < runningAt tl now ->
  now < context.deadline ctx <= now + 100 * time.Second ->
  match context.parentDone ctx with Some tp => now < tp | None => True end ->
  Task.waitRunning 2 tl ctx now
  = Some (now + 100 * time.Second,
          (runningAt tl (now + 100 * time.Second) >? 0)
          && match context.parentDone ctx with
             | Some tp => negb (tp <=? context.deadline ctx)
             | None => true
             end).
Proof.
  intros Hrun Hd Hp. cbn [Task.waitRunning].
  destruct (Z.gtb_spec (runningAt tl now) 0); [|lia].
  rewrite Err_before_deadline by (assumption || lia).
  destruct (Z.gtb_spec (runningAt tl (now + 100 * time.Second)) 0); [|reflexivity].
  rewrite Err_after_deadline by lia.
  destruct (context.parentDone ctx) as [tp|]; [|reflexivity].
  destruct (tp <=? context.deadline ctx); reflexivity.
Qed.

Lemma TaskCmds_waitRunning_sleeps (tl : Timeline) (ctx : context.Context) (now : Z) :
  0 < runningAt tl now ->
  now < context.deadline ctx <= now + 100 * time.Second ->
  context.parentDone ctx = None ->
  TaskCmds.waitRunning 2 tl ctx now = Some (now + 100 * time.Second, true).
Proof.
  intros Hrun Hd Hp. cbn [TaskCmds.waitRunning].
  rewrite Err_before_deadline by (try rewrite Hp; trivial; lia).
  destruct (Z.gtb_spec (runningAt tl now) 0); [|lia].
  rewrite Err_after_deadline by lia. now rewrite Hp.
Qed.

(** The deferred deletions touch the files only. *)
Lemma Task_deleteShellFiles_frame (jobs : list nat) (w w' : Task.World)
    (r : Go.result error) :
  Task.deleteShellFiles jobs w = (w', r) ->
  Task.self w' = Task.self w /\ Task.heap w' = Task.heap w
  /\ Task.logged w' = Task.logged w.
Proof.
  revert w; induction jobs as [|p jobs IH]; intros w Hdel; cbn in Hdel.
  - now injection Hdel as <- _.
  - unfold Task.deleteShellFile in Hdel. destruct (Task.heap w !! p) as [j|].
    + apply IH in Hdel. exact Hdel.
    + now injection Hdel as <- _.
Qed.

(** [stopImpl] returns when its loop is left, with the records of the
    forced quit (if any) and of the end of the wait appended to the log. *)
Lemma Task_stopImpl_returns (fuel : nat) (tl : Timeline) (ctx : context.Context)
    (now t : Z) (forced : bool) (w : Task.World) :
  Task.waitRunning fuel tl ctx now = Some (t, forced) ->
  exists w' r,
    Task.stopImpl fuel tl ctx now w = Some (w', t, r)
    /\ Task.logged w'
       = Task.logged w
           ++ (if forced then [LogError "" "cron jobs force quiting" []] else [])
           ++ [LogInfo "all jobs quit" []].
Proof.
  intros Hwait. unfold Task.stopImpl. rewrite Hwait.
  match goal with
  | |- context [Task.deleteShellFiles ?js ?w0] =>
      destruct (Task.deleteShellFiles js w0) as [w1 r1] eqn:Hdel
  end.
  apply Task_deleteShellFiles_frame in Hdel as (_ & _ & Hlog).
  cbn [Task.wgDone]. unfold Task.wgDone. do 2 eexists. split; [reflexivity|].
  cbn [Task.logged Task.onSelf]. rewrite Hlog.
  destruct forced, (Task.quitSignalCtx (Task.self w)); cbn;
    rewrite <- ?app_assoc; reflexivity.
Qed.

(** [Stop] with a timeout below the sleep of its loop and a job in flight at
    the call: it returns when the first sleep ends. *)
Lemma Task_Stop_sleeps (tl : Timeline) (now : Z) (w : Task.World) :
  0 < Task.stoppingTimeout (Task.self w) < 100000 ->
  0 < runningAt tl now ->
  match schedulerIdle tl with Some t => now < t | None => True end ->
  exists w' r forced,
    Task.Stop tl now w = Some (w', now + 100 * time.Second, r)
    /\ Task.logged w'
       = Task.logged w
           ++ (if forced : bool then [LogError "" "cron jobs force quiting" []] else [])
           ++ [LogInfo "all jobs quit" []]
    /\ (0 < runningAt tl (now + 100 * time.Second) -> schedulerIdle tl = None ->
        forced = true)
    /\ (runningAt tl (now + 100 * time.Second) <= 0 -> forced = false).
Proof.
  intros Hms Hrun Hidle. unfold Task.Stop, Task.stopTest.
  destruct (Task.testMode (Task.self w)).
  - destruct (short_timeout None now _ Hms) as (_ & Hd & Hr & _).
    rewrite Hr.
    pose proof (Task_waitRunning_sleeps tl
                  (context.WithTimeout None now (Task.stoppingTimeout (Task.self w)))
                  now Hrun ltac:(lia) I) as Hwait.
    destruct (Task_stopImpl_returns _ _ _ _ _ _ w Hwait) as (w' & r & Hstop & Hlog).
    exists w', r. eexists. split; [exact Hstop|]. split; [exact Hlog|].
    cbn [context.parentDone context.WithTimeout]. split.
    + intros Hpos _. destruct (Z.gtb_spec (runningAt tl (now + 100 * time.Second)) 0);
        [reflexivity|lia].
    + intros Hzero. destruct (Z.gtb_spec (runningAt tl (now + 100 * time.Second)) 0);
        [lia|reflexivity].
  - cbn [Task.self Task.onSelf Task.stoppingTimeout Task.setCron].
    destruct (short_timeout (schedulerIdle tl) now _ Hms) as (_ & Hd & Hr & _).
    rewrite Hr.
    pose proof (Task_waitRunning_sleeps tl
                  (context.WithTimeout (schedulerIdle tl) now
                     (Task.stoppingTimeout (Task.self w)))
                  now Hrun ltac:(lia) Hidle) as Hwait.
    destruct (Task_stopImpl_returns _ _ _ _ _ _
                (Task.onSelf (fun t => Task.setCron (cron.Stop (Task.Cron t)) t) w)
                Hwait) as (w' & r & Hstop & Hlog).
    exists w', r. eexists. split; [exact Hstop|]. split; [exact Hlog|].
    cbn [context.parentDone context.WithTimeout]. split.
    + intros Hpos ->. destruct (Z.gtb_spec (runningAt tl (now + 100 * time.Second)) 0);
        [reflexivity|lia].
    + intros Hzero. destruct (Z.gtb_spec (runningAt tl (now + 100 * time.Second)) 0);
        [lia|reflexivity].
Qed.

Lemma TaskCmds_Stop_sleeps (tl : Timeline) (now : Z) (w : TaskCmds.World) :
  0 < TaskCmds.stoppingTimeout (TaskCmds.self w) < 100000 ->
  0 < runningAt tl now ->
  exists w' r,
    TaskCmds.Stop tl now w = Some (w', now + 100 * time.Second, r)
    /\ TaskCmds.logged w' = TaskCmds.logged w ++ [LogError "" "force quit" []].
Proof.
  intros Hms Hrun. unfold TaskCmds.Stop.
  set (w1 := match TaskCmds.ctx _ with Some _ => _ | None => _ end).
  assert (Hw1 : TaskCmds.stoppingTimeout (TaskCmds.self w1)
                = TaskCmds.stoppingTimeout (TaskCmds.self w)
                /\ TaskCmds.logged w1 = TaskCmds.logged w).
  { unfold w1. cbn. destruct (TaskCmds.ctx (TaskCmds.self w)); cbn; split; reflexivity. }
  destruct Hw1 as [Hto Hlog]. rewrite Hto.
  destruct (short_timeout None now _ Hms) as (_ & Hd & _ & Hr).
  rewrite Hr.
  rewrite (TaskCmds_waitRunning_sleeps tl
             (context.WithTimeout None now (TaskCmds.stoppingTimeout (TaskCmds.self w)))
             now Hrun ltac:(lia) eq_refl).
  do 2 eexists. split; [reflexivity|]. cbn. now rewrite Hlog.
Qed.

(** C1 (the code departs from it).  With a job in flight that never
    finishes and a stopping timeout below 100 seconds (the default is 3000
    ms), [Stop] does not return at the deadline: its loop sleeps 100 seconds
    between two looks at the context, so [Stop] returns 100 seconds after the
    call, and only then logs the forced quit.  Stated for both revisions of
    task.go. *)
Theorem Stop_returns_after_the_sleep :
  (forall (tl : Timeline) (now : Z) (w : Task.World),
      0 < Task.stoppingTimeout (Task.self w) < 100000 ->
      (forall t, 0 < runningAt tl t) ->
      schedulerIdle tl = None ->
      exists w' r,
        Task.Stop tl now w = Some (w', now + 100 * time.Second, r)
        /\ now + Task.stoppingTimeout (Task.self w) * time.Millisecond
           < now + 100 * time.Second
        /\ In (LogError "" "cron jobs force quiting" []) (Task.logged w'))
  /\ (forall (tl : Timeline) (now : Z) (w : TaskCmds.World),
         0 < TaskCmds.stoppingTimeout (TaskCmds.self w) < 100000 ->
         (forall t, 0 < runningAt tl t) ->
         exists w' r,
           TaskCmds.Stop tl now w = Some (w', now + 100 * time.Second, r)
           /\ now + TaskCmds.stoppingTimeout (TaskCmds.self w) * time.Millisecond
              < now + 100 * time.Second
           /\ In (LogError "" "force quit" []) (TaskCmds.logged w')).
Proof.
  split.
  - intros tl now w Hms Hrun Hidle.
    destruct (Task_Stop_sleeps tl now w Hms (Hrun now) ltac:(now rewrite Hidle))
      as (w' & r & forced & Hstop & Hlog & Hforced & _).
    exists w', r. split; [exact Hstop|].
    split; [unfold time.Millisecond, time.Second; lia|].
    rewrite Hlog, (Hforced (Hrun _) Hidle). apply in_or_app. right. now left.
  - intros tl now w Hms Hrun.
    destruct (TaskCmds_Stop_sleeps tl now w Hms (Hrun now)) as (w' & r & Hstop & Hlog).
    exists w', r. split; [exact Hstop|].
    split; [unfold time.Millisecond, time.Second; lia|].
    rewrite Hlog. apply in_or_app. right. now left.
Qed.

Lemma Stop_returns_after_the_sleep_witness :
  exists w' r,
    Task.Stop Demo.stuck 0 Demo.world = Some (w', 100 * time.Second, r)
    /\ 3000 * time.Millisecond < 100 * time.Second.
Proof.
  destruct (proj1 Stop_returns_after_the_sleep Demo.stuck 0 Demo.world
              ltac:(cbn; lia) ltac:(intros t; cbn; lia) eq_refl)
    as (w' & r & Hstop & Hlate & _).
  exists w', r. split; [exact Hstop|exact Hlate].
Defined.

(** C5 (the code departs from it).  With a job in flight at the call that
    finishes at an instant [t1] before the deadline, and a stopping timeout
    below 100 seconds, [Stop] does not return at [t1]: it is asleep then and
    returns 100 seconds after the call, which is later than the deadline
    too.  Stated for both revisions of task.go. *)
Theorem Stop_sleeps_past_idle :
  (forall (tl : Timeline) (now t1 : Z) (w : Task.World),
      0 < Task.stoppingTimeout (Task.self w) < 100000 ->
      0 < runningAt tl now ->
      now < t1 < now + Task.stoppingTimeout (Task.self w) * time.Millisecond ->
      (forall t, t1 <= t -> runningAt tl t = 0) ->
      schedulerIdle tl = Some t1 ->
      exists w' r,
        Task.Stop tl now w = Some (w', now + 100 * time.Second, r)
        /\ t1 < now + Task.stoppingTimeout (Task.self w) * time.Millisecond
           < now + 100 * time.Second
        /\ ~ In (LogError "" "cron jobs force quiting" [])
               (skipn (length (Task.logged w)) (Task.logged w')))
  /\ (forall (tl : Timeline) (now t1 : Z) (w : TaskCmds.World),
         0 < TaskCmds.stoppingTimeout (TaskCmds.self w) < 100000 ->
         0 < runningAt tl now ->
         now < t1 < now + TaskCmds.stoppingTimeout (TaskCmds.self w) * time.Millisecond ->
         (forall t, t1 <= t -> runningAt tl t = 0) ->
         exists w' r,
           TaskCmds.Stop tl now w = Some (w', now + 100 * time.Second, r)
           /\ t1 < now + TaskCmds.stoppingTimeout (TaskCmds.self w) * time.Millisecond
              < now + 100 * time.Second).
Proof.
  split.
  - intros tl now t1 w Hms Hrun Ht1 Hzero Hidle.
    destruct (Task_Stop_sleeps tl now w Hms Hrun ltac:(rewrite Hidle; lia))
      as (w' & r & forced & Hstop & Hlog & _ & Hforced).
    exists w', r. split; [exact Hstop|].
    split; [unfold time.Millisecond, time.Second in *; lia|].
    rewrite Hlog, Hforced.
    + rewrite skipn_app, Nat.sub_diag, skipn_all. cbn. intros [Hin|[]]. discriminate.
    + rewrite Hzero; [lia|]. unfold time.Millisecond, time.Second in *; lia.
  - intros tl now t1 w Hms Hrun Ht1 Hzero.
    destruct (TaskCmds_Stop_sleeps tl now w Hms Hrun) as (w' & r & Hstop & _).
    exists w', r. split; [exact Hstop|].
    unfold time.Millisecond, time.Second in *; lia.
Qed.

Lemma Stop_sleeps_past_idle_witness :
  exists w' r,
    Task.Stop Demo.brief 0 Demo.world = Some (w', 100 * time.Second, r)
    /\ runningAt Demo.brief (1 * time.Second) = 0
    /\ 1 * time.Second < 3000 * time.Millisecond.
Proof.
  destruct (proj1 Stop_sleeps_past_idle Demo.brief 0 (1 * time.Second) Demo.world
              ltac:(vm_compute; split; reflexivity) ltac:(vm_compute; reflexivity)
              ltac:(vm_compute; split; reflexivity)
              ltac:(intros t Ht; unfold Demo.brief; cbn [runningAt];
                    destruct (Z.ltb_spec t (1 * time.Second)); [lia|reflexivity])
              eq_refl)
    as (w' & r & Hstop & Hlate & _).
  exists w', r. split; [exact Hstop|]. split; [reflexivity|].
  unfold time.Second, time.Millisecond; lia.
Defined.

(** ** One job of a batch *)

Lemma truncateText_nonneg (s : string) (max : Z) :
  0 <= max -> exists c, truncateText s max = Some c.
Proof.
  intros Hmax. unfold truncateText.
  destruct (max >=? Go.len s); [eauto|].
  destruct (Z.ltb_spec max 0); [lia|eauto].
Qed.

(** The body of the loop of [AddJob] on an allocated job, case by case: the
    two validations, the logger, the parser, and the registration. *)
Lemma Task_addJob_eq `{Platform Task.job} (cfg : string) (p : nat)
    (w : Task.World) (j : Task.job) :
  Task.heap w !! p = Some j ->
  let j1 := {| Task.Schedule := Task.Schedule j; Task.Command := Task.Command j;
               Task.RunningMode := Task.RunningMode j; Task.task := true;
               Task.logger := Task.logger j; Task.id := Task.id j;
               Task.shellFile := Task.shellFile j |} in
  let j2 := {| Task.Schedule := Task.Schedule j; Task.Command := Task.Command j;
               Task.RunningMode := Task.RunningMode j; Task.task := true;
               Task.logger := true; Task.id := Task.id j;
               Task.shellFile := Task.shellFile j |} in
  let c := Task.Cron (Task.self w) in
  let id := Go.wrap64 (cron.nextID c + 1) in
  let path := Task.shellFilePath (Task.testMode (Task.self w)) cfg id in
  exists text,
    truncateText (Task.Command j) 40 = Some text
    /\ Task.addJob cfg p w =
       if String.eqb (Task.Schedule j) "" then (w, Go.Err ScheduleRequired)
       else if String.eqb (Task.Command j) ""
       then (w, Go.Err (CommandRequired (Task.Schedule j)))
       else
         match makeLoggerError j1 with
         | Some e =>
             ({| Task.self := Task.self w; Task.heap := <[p := j1]> (Task.heap w);
                 Task.files := Task.files w; Task.logged := Task.logged w |},
              Go.Err (LoggerError e))
         | None =>
             match cron.Parse (Task.Schedule j) with
             | Some cause =>
                 ({| Task.self := Task.self w; Task.heap := <[p := j2]> (Task.heap w);
                     Task.files := Task.files w; Task.logged := Task.logged w |},
                  Go.Err (InvalidSchedule (Task.Schedule j) cause))
             | None =>
                 ({| Task.self :=
                       Task.setCron
                         {| cron.entries :=
                              cron.entries c
                                ++ [{| cron.ID := id; cron.Schedule := Task.Schedule j;
                                       cron.Job :=
                                         cron.Then
                                           (Task.jobWrappers (Task.RunningMode j)) p |}];
                            cron.nextID := id;
                            cron.running := cron.running c |} (Task.self w);
                     Task.heap :=
                       <[p := {| Task.Schedule := Task.Schedule j;
                                 Task.Command := Task.Command j;
                                 Task.RunningMode := Task.RunningMode j;
                                 Task.task := true; Task.logger := true;
                                 Task.id := id; Task.shellFile := path |}]>
                         (Task.heap w);
                     Task.files :=
                       if creatable path then <[path := Task.Command j]> (Task.files w)
                       else Task.files w;
                     Task.logged :=
                       Task.logged w
                         ++ [LogInfo "add job" [("schedule", Task.Schedule j);
                                                ("command", text)]] |}, Go.Ok)
             end
         end.
Proof.
  intros Hp j1 j2 c id path.
  destruct (truncateText_nonneg (Task.Command j) 40 ltac:(lia)) as [text Htext].
  exists text. split; [exact Htext|].
  unfold Task.addJob. rewrite Hp.
  destruct (String.eqb (Task.Schedule j) ""); [reflexivity|].
  destruct (String.eqb (Task.Command j) ""); [reflexivity|].
  fold j1. unfold Task.makeLogger. cbn [Task.heap Task.store].
  rewrite lookup_insert_eq.
  destruct (makeLoggerError j1) as [e|]; [reflexivity|].
  cbn [Task.task Task.logger Task.Schedule Task.Command Task.RunningMode Task.id
       Task.shellFile j1]. fold j2.
  rewrite (Task_createCronJob_eq cfg p _ j2)
    by (cbn [Task.heap Task.store]; apply lookup_insert_eq).
  cbn [Task.Schedule j2].
  destruct (cron.Parse (Task.Schedule j)) as [cause|].
  - unfold Task.store. cbn [Task.heap Task.self Task.files Task.logged].
    now rewrite insert_insert_eq.
  - rewrite Htext. unfold Task.store, Task.log.
    cbn [Task.heap Task.self Task.files Task.logged Task.testMode Task.Cron
         Task.Command j2].
    now rewrite !insert_insert_eq.
Qed.

Lemma Task_addJob_Panic `{Platform Task.job} (cfg : string) (p : nat)
    (w w' : Task.World) :
  Task.addJob cfg p w = (w', Go.Panic) -> Task.heap w !! p = None /\ w' = w.
Proof.
  intros Hrun. destruct (Task.heap w !! p) as [j|] eqn:Hp.
  - destruct (Task_addJob_eq cfg p w j Hp) as (text & _ & Heq).
    rewrite Heq in Hrun.
    repeat match type of Hrun with
           | (if ?b then _ else _) = _ => destruct b
           | match ?o with Some _ => _ | None => _ end = _ => destruct o
           end; discriminate.
  - unfold Task.addJob in Hrun. rewrite Hp in Hrun. now injection Hrun as <-.
Qed.

(** A job that fails leaves the task, the files and the log alone; on the
    heap at most the job's own [task] and [logger] fields change. *)
Lemma Task_addJob_Err `{Platform Task.job} (cfg : string) (p : nat)
    (w w' : Task.World) (e : error) :
  Task.addJob cfg p w = (w', Go.Err e) ->
  exists j j',
    Task.heap w !! p = Some j
    /\ Task.self w' = Task.self w
    /\ Task.files w' = Task.files w
    /\ Task.logged w' = Task.logged w
    /\ Task.heap w' = <[p := j']> (Task.heap w)
    /\ Task.Schedule j' = Task.Schedule j
    /\ Task.Command j' = Task.Command j
    /\ Task.shellFile j' = Task.shellFile j.
Proof.
  intros Hrun. destruct (Task.heap w !! p) as [j|] eqn:Hp.
  - exists j. destruct (Task_addJob_eq cfg p w j Hp) as (text & _ & Heq).
    rewrite Heq in Hrun.
    repeat match type of Hrun with
           | (if ?b then _ else _) = _ => destruct b
           | match ?o with Some _ => _ | None => _ end = _ => destruct o
           end; try discriminate; injection Hrun as <- _;
      try (exists j; cbn; rewrite insert_id by assumption; tauto);
      eexists; cbn; repeat split; reflexivity.
  - unfold Task.addJob in Hrun. rewrite Hp in Hrun. discriminate.
Qed.

(** A job that is added: it passed the validations, it is appended to the
    cron table under the next id, it holds that id and the path of its shell
    file, and the shell file is written. *)
Lemma Task_addJob_Ok `{Platform Task.job} (cfg : string) (p : nat)
    (w w' : Task.World) :
  Task.addJob cfg p w = (w', Go.Ok) ->
  exists j j' e,
    Task.heap w !! p = Some j
    /\ Task.Schedule j <> "" /\ Task.Command j <> ""
    /\ Task.self w'
       = Task.setCron
           {| cron.entries := cron.entries (Task.Cron (Task.self w)) ++ [e];
              cron.nextID := Go.wrap64 (cron.nextID (Task.Cron (Task.self w)) + 1);
              cron.running := cron.running (Task.Cron (Task.self w)) |} (Task.self w)
    /\ cron.inner (cron.Job e) = p
    /\ Task.heap w' = <[p := j']> (Task.heap w)
    /\ Task.Schedule j' = Task.Schedule j
    /\ Task.Command j' = Task.Command j
    /\ Task.id j' = Go.wrap64 (cron.nextID (Task.Cron (Task.self w)) + 1)
    /\ Task.shellFile j'
       = Task.shellFilePath (Task.testMode (Task.self w)) cfg (Task.id j')
    /\ Task.files w'
       = (if creatable (Task.shellFile j')
          then <[Task.shellFile j' := Task.Command j]> (Task.files w)
          else Task.files w).
Proof.
  intros Hrun. destruct (Task.heap w !! p) as [j|] eqn:Hp.
  - exists j. destruct (Task_addJob_eq cfg p w j Hp) as (text & _ & Heq).
    rewrite Heq in Hrun.
    destruct (String.eqb_spec (Task.Schedule j) ""); [discriminate|].
    destruct (String.eqb_spec (Task.Command j) ""); [discriminate|].
    destruct (makeLoggerError _); [discriminate|].
    destruct (cron.Parse (Task.Schedule j)); [discriminate|].
    injection Hrun as <-. do 2 eexists.
    cbn [Task.self Task.heap Task.files Task.id Task.shellFile Task.Schedule
         Task.Command cron.inner cron.Job].
    repeat split; try reflexivity; assumption.
  - unfold Task.addJob in Hrun. rewrite Hp in Hrun. discriminate.
Qed.

(** What no job of a batch changes, however it ends: the [Jobs] field and
    the test mode, the allocation of the heap, the schedule and the command
    of every job, and the shell files already written. *)
Lemma Task_addJob_frame `{Platform Task.job} (cfg : string) (p : nat)
    (w w' : Task.World) (r : Go.result error) :
  Task.addJob cfg p w = (w', r) ->
  Task.Jobs (Task.self w') = Task.Jobs (Task.self w)
  /\ Task.testMode (Task.self w') = Task.testMode (Task.self w)
  /\ (forall q j, Task.heap w !! q = Some j ->
        exists j', Task.heap w' !! q = Some j'
                   /\ Task.Schedule j' = Task.Schedule j
                   /\ Task.Command j' = Task.Command j)
  /\ (forall q, Task.saved w q -> Task.saved w' q).
Proof.
  intros Hrun. destruct r as [|e|].
  - destruct (Task_addJob_Ok _ _ _ _ Hrun)
      as (j & j' & e & Hp & _ & _ & Hself & _ & Hheap & Hs & Hc & _ & _ & Hfiles).
    rewrite Hself, Hheap. repeat split; try reflexivity.
    + intros q jq Hq. destruct (decide (p = q)) as [<-|Hne].
      * exists j'. rewrite lookup_insert_eq. replace jq with j by congruence. auto.
      * exists jq. rewrite lookup_insert_ne by assumption. auto.
    + intros q (jq & Hq & Hsaved). unfold Task.saved. rewrite Hheap, Hfiles.
      destruct (decide (p = q)) as [<-|Hne].
      * exists j'. rewrite lookup_insert_eq. split; [reflexivity|].
        intros ->. rewrite lookup_insert_eq. eauto.
      * exists jq. rewrite lookup_insert_ne by assumption. split; [assumption|].
        intros Hcr. destruct (creatable (Task.shellFile j')); [|auto].
        rewrite lookup_insert. destruct (decide _); eauto.
  - destruct (Task_addJob_Err _ _ _ _ _ Hrun)
      as (j & j' & Hp & Hself & Hfiles & _ & Hheap & Hs & Hc & Hsf).
    rewrite Hself, Hheap. repeat split; try reflexivity.
    + intros q jq Hq. destruct (decide (p = q)) as [<-|Hne].
      * exists j'. rewrite lookup_insert_eq. replace jq with j by congruence. auto.
      * exists jq. rewrite lookup_insert_ne by assumption. auto.
    + intros q (jq & Hq & Hsaved). unfold Task.saved. rewrite Hheap, Hfiles.
      destruct (decide (p = q)) as [<-|Hne].
      * exists j'. rewrite lookup_insert_eq. split; [reflexivity|].
        replace jq with j in Hsaved by congruence. now rewrite Hsf.
      * exists jq. rewrite lookup_insert_ne by assumption. auto.
  - destruct (Task_addJob_Panic _ _ _ _ Hrun) as [_ ->]. repeat split; eauto.
Qed.

(** ** A batch *)

Lemma Task_addJobs_frame `{Platform Task.job} (cfg : string) (jobs : list nat)
    (w w' : Task.World) (r : Go.result error) :
  Task.addJobs cfg jobs w = (w', r) ->
  Task.Jobs (Task.self w') = Task.Jobs (Task.self w)
  /\ Task.testMode (Task.self w') = Task.testMode (Task.self w)
  /\ (forall q j, Task.heap w !! q = Some j ->
        exists j', Task.heap w' !! q = Some j'
                   /\ Task.Schedule j' = Task.Schedule j
                   /\ Task.Command j' = Task.Command j)
  /\ (forall q, Task.saved w q -> Task.saved w' q).
Proof.
  revert w; induction jobs as [|p jobs IH]; intros w Hrun; cbn in Hrun.
  - injection Hrun as <- _. repeat split; eauto.
  - destruct (Task.addJob cfg p w) as [w1 r1] eqn:Hstep.
    apply Task_addJob_frame in Hstep as (HJ1 & HT1 & HF1 & HS1).
    assert (Hrest : Task.addJobs cfg jobs w1 = (w', r) \/ (w1, r1) = (w', r))
      by (destruct r1; auto).
    destruct Hrest as [Hrest|Hstop].
    + apply IH in Hrest as (HJ & HT & HF & HS).
      rewrite HJ, HT. repeat split; auto.
      intros q j Hq. destruct (HF1 q j Hq) as (j1 & Hq1 & Hs1 & Hc1).
      destruct (HF q j1 Hq1) as (j' & Hq' & Hs' & Hc').
      exists j'. repeat split; congruence.
    + injection Hstop as <- _. repeat split; auto.
Qed.

(** The loop stops at the first job that does not return normally. *)
Lemma Task_addJobs_split `{Platform Task.job} (cfg : string) (jobs : list nat)
    (w w' : Task.World) (r : Go.result error) :
  Task.addJobs cfg jobs w = (w', r) ->
  r <> Go.Ok ->
  exists pre p post w1,
    jobs = pre ++ p :: post
    /\ Task.addJobs cfg pre w = (w1, Go.Ok)
    /\ Task.addJob cfg p w1 = (w', r).
Proof.
  revert w; induction jobs as [|p jobs IH]; intros w Hrun Hr; cbn in Hrun.
  - injection Hrun as _ <-. contradiction.
  - destruct (Task.addJob cfg p w) as [w1 r1] eqn:Hstep.
    destruct r1.
    + destruct (IH _ Hrun Hr) as (pre & q & post & w2 & -> & Hpre & Hq).
      exists (p :: pre), q, post, w2. split; [reflexivity|].
      split; [|exact Hq]. cbn. now rewrite Hstep.
    + injection Hrun as <- <-. exists [], p, jobs, w. auto.
    + injection Hrun as <- <-. exists [], p, jobs, w. auto.
Qed.

(** A batch that went through: its jobs were appended to the cron table in
    order, and their shell files are on disk. *)
Lemma Task_addJobs_Ok `{Platform Task.job} (cfg : string) (jobs : list nat)
    (w w' : Task.World) :
  Task.addJobs cfg jobs w = (w', Go.Ok) ->
  (exists news,
      cron.entries (Task.Cron (Task.self w'))
      = cron.entries (Task.Cron (Task.self w)) ++ news
      /\ map (fun e => cron.inner (cron.Job e)) news = jobs)
  /\ (forall q, In q jobs -> Task.saved w' q).
Proof.
  revert w; induction jobs as [|p jobs IH]; intros w Hrun; cbn in Hrun.
  - injection Hrun as <-. split; [|intros q []].
    exists []. now rewrite app_nil_r.
  - destruct (Task.addJob cfg p w) as [w1 r1] eqn:Hstep.
    destruct r1; try discriminate.
    destruct (Task_addJob_Ok _ _ _ _ Hstep)
      as (j & j' & e & Hp & _ & _ & Hself & Hinner & Hheap & _ & _ & _ & _ & Hfiles).
    destruct (IH _ Hrun) as ((news & Hnews & Hmap) & Hsaved).
    split.
    + exists (e :: news). rewrite Hnews, Hself. cbn. rewrite <- app_assoc.
      split; [reflexivity|]. now rewrite Hinner, Hmap.
    + intros q [<-|Hq]; [|auto].
      apply (Task_addJobs_frame _ _ _ _ _ Hrun).
      exists j'. rewrite Hheap, Hfiles, lookup_insert_eq. split; [reflexivity|].
      intros ->. rewrite lookup_insert_eq. eauto.
Qed.

(** ** The same, for the revision with command lists *)

Lemma TaskCmds_addJob_eq `{Platform TaskCmds.job} (p : nat) (w : TaskCmds.World)
    (j : TaskCmds.job) :
  TaskCmds.heap w !! p = Some j ->
  let j1 := {| TaskCmds.Name := TaskCmds.Name j; TaskCmds.Schedule := TaskCmds.Schedule j;
               TaskCmds.Commands := TaskCmds.Commands j;
               TaskCmds.RunningMode := TaskCmds.RunningMode j; TaskCmds.task := true;
               TaskCmds.logger := TaskCmds.logger j; TaskCmds.id := TaskCmds.id j |} in
  let j2 := {| TaskCmds.Name := TaskCmds.Name j; TaskCmds.Schedule := TaskCmds.Schedule j;
               TaskCmds.Commands := TaskCmds.Commands j;
               TaskCmds.RunningMode := TaskCmds.RunningMode j; TaskCmds.task := true;
               TaskCmds.logger := true; TaskCmds.id := TaskCmds.id j |} in
  let c := TaskCmds.Cron (TaskCmds.self w) in
  let id := Go.wrap64 (cron.nextID c + 1) in
  TaskCmds.addJob p w =
  if String.eqb (TaskCmds.Schedule j) "" then (w, Go.Err ScheduleRequired)
  else if Z.of_nat (length (TaskCmds.Commands j)) <? 1
  then (w, Go.Err (CommandRequired (TaskCmds.Schedule j)))
  else
    match makeLoggerError j1 with
    | Some e =>
        ({| TaskCmds.self := TaskCmds.self w;
            TaskCmds.heap := <[p := j1]> (TaskCmds.heap w);
            TaskCmds.logged := TaskCmds.logged w |}, Go.Err (LoggerError e))
    | None =>
        match cron.Parse (TaskCmds.Schedule j) with
        | Some cause =>
            ({| TaskCmds.self := TaskCmds.self w;
                TaskCmds.heap := <[p := j2]> (TaskCmds.heap w);
                TaskCmds.logged := TaskCmds.logged w |},
             Go.Err (InvalidSchedule (TaskCmds.Schedule j) cause))
        | None =>
            ({| TaskCmds.self :=
                  TaskCmds.setCron
                    {| cron.entries :=
                         cron.entries c
                           ++ [{| cron.ID := id; cron.Schedule := TaskCmds.Schedule j;
                                  cron.Job :=
                                    cron.Then
                                      (TaskCmds.jobWrappers (TaskCmds.RunningMode j)) p |}];
                       cron.nextID := id;
                       cron.running := cron.running c |} (TaskCmds.self w);
                TaskCmds.heap :=
                  <[p := {| TaskCmds.Name := TaskCmds.Name j;
                            TaskCmds.Schedule := TaskCmds.Schedule j;
                            TaskCmds.Commands := TaskCmds.Commands j;
                            TaskCmds.RunningMode := TaskCmds.RunningMode j;
                            TaskCmds.task := true; TaskCmds.logger := true;
                            TaskCmds.id := id |}]> (TaskCmds.heap w);
                TaskCmds.logged :=
                  TaskCmds.logged w
                    ++ [LogInfo "add job" [("name", TaskCmds.Name j);
                                           ("schedule", TaskCmds.Schedule j)]] |}, Go.Ok)
        end
    end.
Proof.
  intros Hp j1 j2 c id.
  unfold TaskCmds.addJob. rewrite Hp.
  destruct (String.eqb (TaskCmds.Schedule j) ""); [reflexivity|].
  destruct (Z.of_nat (length (TaskCmds.Commands j)) <? 1); [reflexivity|].
  fold j1. unfold TaskCmds.makeLogger. cbn [TaskCmds.heap TaskCmds.store].
  rewrite lookup_insert_eq.
  destruct (makeLoggerError j1) as [e|]; [reflexivity|].
  cbn [TaskCmds.task TaskCmds.logger TaskCmds.Schedule TaskCmds.Commands
       TaskCmds.RunningMode TaskCmds.id TaskCmds.Name j1]. fold j2.
  rewrite (TaskCmds_createCronJob_eq p _ j2)
    by (cbn [TaskCmds.heap TaskCmds.store]; apply lookup_insert_eq).
  cbn [TaskCmds.Schedule j2].
  destruct (cron.Parse (TaskCmds.Schedule j)) as [cause|].
  - unfold TaskCmds.store. cbn [TaskCmds.heap TaskCmds.self TaskCmds.logged].
    now rewrite insert_insert_eq.
  - unfold TaskCmds.store, TaskCmds.log.
    cbn [TaskCmds.heap TaskCmds.self TaskCmds.logged TaskCmds.Cron j2].
    now rewrite !insert_insert_eq.
Qed.

Lemma TaskCmds_addJob_Panic `{Platform TaskCmds.job} (p : nat)
    (w w' : TaskCmds.World) :
  TaskCmds.addJob p w = (w', Go.Panic) -> TaskCmds.heap w !! p = None /\ w' = w.
Proof.
  intros Hrun. destruct (TaskCmds.heap w !! p) as [j|] eqn:Hp.
  - rewrite (TaskCmds_addJob_eq p w j Hp) in Hrun.
    repeat match type of Hrun with
           | (if ?b then _ else _) = _ => destruct b
           | match ?o with Some _ => _ | None => _ end = _ => destruct o
           end; discriminate.
  - unfold TaskCmds.addJob in Hrun. rewrite Hp in Hrun. now injection Hrun as <-.
Qed.

Lemma TaskCmds_addJob_Err `{Platform TaskCmds.job} (p : nat)
    (w w' : TaskCmds.World) (e : error) :
  TaskCmds.addJob p w = (w', Go.Err e) ->
  exists j j',
    TaskCmds.heap w !! p = Some j
    /\ TaskCmds.self w' = TaskCmds.self w
    /\ TaskCmds.logged w' = TaskCmds.logged w
    /\ TaskCmds.heap w' = <[p := j']> (TaskCmds.heap w)
    /\ TaskCmds.Schedule j' = TaskCmds.Schedule j
    /\ TaskCmds.Commands j' = TaskCmds.Commands j.
Proof.
  intros Hrun. destruct (TaskCmds.heap w !! p) as [j|] eqn:Hp.
  - exists j. rewrite (TaskCmds_addJob_eq p w j Hp) in Hrun.
    repeat match type of Hrun with
           | (if ?b then _ else _) = _ => destruct b
           | match ?o with Some _ => _ | None => _ end = _ => destruct o
           end; try discriminate; injection Hrun as <- _;
      try (exists j; cbn; rewrite insert_id by assumption; tauto);
      eexists; cbn; repeat split; reflexivity.
  - unfold TaskCmds.addJob in Hrun. rewrite Hp in Hrun. discriminate.
Qed.

Lemma TaskCmds_addJob_Ok `{Platform TaskCmds.job} (p : nat) (w w' : TaskCmds.World) :
  TaskCmds.addJob p w = (w', Go.Ok) ->
  exists j j' e,
    TaskCmds.heap w !! p = Some j
    /\ TaskCmds.Schedule j <> "" /\ TaskCmds.Commands j <> []
    /\ TaskCmds.self w'
       = TaskCmds.setCron
           {| cron.entries := cron.entries (TaskCmds.Cron (TaskCmds.self w)) ++ [e];
              cron.nextID := Go.wrap64 (cron.nextID (TaskCmds.Cron (TaskCmds.self w)) + 1);
              cron.running := cron.running (TaskCmds.Cron (TaskCmds.self w)) |}
           (TaskCmds.self w)
    /\ cron.inner (cron.Job e) = p
    /\ TaskCmds.heap w' = <[p := j']> (TaskCmds.heap w)
    /\ TaskCmds.Schedule j' = TaskCmds.Schedule j
    /\ TaskCmds.Commands j' = TaskCmds.Commands j.
Proof.
  intros Hrun. destruct (TaskCmds.heap w !! p) as [j|] eqn:Hp.
  - exists j. rewrite (TaskCmds_addJob_eq p w j Hp) in Hrun.
    destruct (String.eqb_spec (TaskCmds.Schedule j) ""); [discriminate|].
    destruct (Z.ltb_spec (Z.of_nat (length (TaskCmds.Commands j))) 1); [discriminate|].
    destruct (makeLoggerError _); [discriminate|].
    destruct (cron.Parse (TaskCmds.Schedule j)); [discriminate|].
    injection Hrun as <-. do 2 eexists.
    cbn [TaskCmds.self TaskCmds.heap TaskCmds.id TaskCmds.Schedule
         TaskCmds.Commands cron.inner cron.Job].
    repeat split; try reflexivity; try assumption.
    intros Hnil. rewrite Hnil in *. cbn in *. lia.
  - unfold TaskCmds.addJob in Hrun. rewrite Hp in Hrun. discriminate.
Qed.

Lemma TaskCmds_addJob_frame `{Platform TaskCmds.job} (p : nat)
    (w w' : TaskCmds.World) (r : Go.result error) :
  TaskCmds.addJob p w = (w', r) ->
  TaskCmds.Jobs (TaskCmds.self w') = TaskCmds.Jobs (TaskCmds.self w)
  /\ (forall q j, TaskCmds.heap w !! q = Some j ->
        exists j', TaskCmds.heap w' !! q = Some j'
                   /\ TaskCmds.Schedule j' = TaskCmds.Schedule j
                   /\ TaskCmds.Commands j' = TaskCmds.Commands j).
Proof.
  intros Hrun. destruct r as [|e|].
  - destruct (TaskCmds_addJob_Ok _ _ _ Hrun)
      as (j & j' & e & Hp & _ & _ & Hself & _ & Hheap & Hs & Hc).
    rewrite Hself, Hheap. split; [reflexivity|].
    intros q jq Hq. destruct (decide (p = q)) as [<-|Hne].
    + exists j'. rewrite lookup_insert_eq. replace jq with j by congruence. auto.
    + exists jq. rewrite lookup_insert_ne by assumption. auto.
  - destruct (TaskCmds_addJob_Err _ _ _ _ Hrun)
      as (j & j' & Hp & Hself & _ & Hheap & Hs & Hc).
    rewrite Hself, Hheap. split; [reflexivity|].
    intros q jq Hq. destruct (decide (p = q)) as [<-|Hne].
    + exists j'. rewrite lookup_insert_eq. replace jq with j by congruence. auto.
    + exists jq. rewrite lookup_insert_ne by assumption. auto.
  - destruct (TaskCmds_addJob_Panic _ _ _ Hrun) as [_ ->]. split; eauto.
Qed.

Lemma TaskCmds_addJobs_frame `{Platform TaskCmds.job} (jobs : list nat)
    (w w' : TaskCmds.World) (r : Go.result error) :
  TaskCmds.addJobs jobs w = (w', r) ->
  TaskCmds.Jobs (TaskCmds.self w') = TaskCmds.Jobs (TaskCmds.self w)
  /\ (forall q j, TaskCmds.heap w !! q = Some j ->
        exists j', TaskCmds.heap w' !! q = Some j'
                   /\ TaskCmds.Schedule j' = TaskCmds.Schedule j
                   /\ TaskCmds.Commands j' = TaskCmds.Commands j).
Proof.
  revert w; induction jobs as [|p jobs IH]; intros w Hrun; cbn in Hrun.
  - injection Hrun as <- _. split; eauto.
  - destruct (TaskCmds.addJob p w) as [w1 r1] eqn:Hstep.
    apply TaskCmds_addJob_frame in Hstep as (HJ1 & HF1).
    assert (Hrest : TaskCmds.addJobs jobs w1 = (w', r) \/ (w1, r1) = (w', r))
      by (destruct r1; auto).
    destruct Hrest as [Hrest|Hstop].
    + apply IH in Hrest as (HJ & HF). rewrite HJ. split; [assumption|].
      intros q j Hq. destruct (HF1 q j Hq) as (j1 & Hq1 & Hs1 & Hc1).
      destruct (HF q j1 Hq1) as (j' & Hq' & Hs' & Hc').
      exists j'. repeat split; congruence.
    + injection Hstop as <- _. split; auto.
Qed.

Lemma TaskCmds_addJobs_split `{Platform TaskCmds.job} (jobs : list nat)
    (w w' : TaskCmds.World) (r : Go.result error) :
  TaskCmds.addJobs jobs w = (w', r) ->
  r <> Go.Ok ->
  exists pre p post w1,
    jobs = pre ++ p :: post
    /\ TaskCmds.addJobs pre w = (w1, Go.Ok)
    /\ TaskCmds.addJob p w1 = (w', r).
Proof.
  revert w; induction jobs as [|p jobs IH]; intros w Hrun Hr; cbn in Hrun.
  - injection Hrun as _ <-. contradiction.
  - destruct (TaskCmds.addJob p w) as [w1 r1] eqn:Hstep.
    destruct r1.
    + destruct (IH _ Hrun Hr) as (pre & q & post & w2 & -> & Hpre & Hq).
      exists (p :: pre), q, post, w2. split; [reflexivity|].
      split; [|exact Hq]. cbn. now rewrite Hstep.
    + injection Hrun as <- <-. exists [], p, jobs, w. auto.
    + injection Hrun as <- <-. exists [], p, jobs, w. auto.
Qed.

Lemma TaskCmds_addJobs_Ok `{Platform TaskCmds.job} (jobs : list nat)
    (w w' : TaskCmds.World) :
  TaskCmds.addJobs jobs w = (w', Go.Ok) ->
  exists news,
    cron.entries (TaskCmds.Cron (TaskCmds.self w'))
    = cron.entries (TaskCmds.Cron (TaskCmds.self w)) ++ news
    /\ map (fun e => cron.inner (cron.Job e)) news = jobs.
Proof.
  revert w; induction jobs as [|p jobs IH]; intros w Hrun; cbn in Hrun.
  - injection Hrun as <-. exists []. now rewrite app_nil_r.
  - destruct (TaskCmds.addJob p w) as [w1 r1] eqn:Hstep.
    destruct r1; try discriminate.
    destruct (TaskCmds_addJob_Ok _ _ _ Hstep)
      as (j & j' & e & Hp & _ & _ & Hself & Hinner & _).
    destruct (IH _ Hrun) as (news & Hnews & Hmap).
    exists (e :: news). rewrite Hnews, Hself. cbn. rewrite <- app_assoc.
    split; [reflexivity|]. now rewrite Hinner, Hmap.
Qed.

(** ** [AddJob] *)

Lemma Task_AddJob_not_Ok `{Platform Task.job} (cfg : string) (jobs : list nat)
    (w w' : Task.World) (r : Go.result error) :
  r <> Go.Ok ->
  Task.AddJob cfg jobs w = (w', r) <-> Task.addJobs cfg jobs w = (w', r).
Proof.
  intros Hr. unfold Task.AddJob.
  destruct (Task.addJobs cfg jobs w) as [w1 [|e|]]; split; intros Heq;
    try exact Heq; injection Heq as _ <-; contradiction.
Qed.

Lemma TaskCmds_AddJob_not_Ok `{Platform TaskCmds.job} (jobs : list nat)
    (w w' : TaskCmds.World) (r : Go.result error) :
  r <> Go.Ok ->
  TaskCmds.AddJob jobs w = (w', r) <-> TaskCmds.addJobs jobs w = (w', r).
Proof.
  intros Hr. unfold TaskCmds.AddJob.
  destruct (TaskCmds.addJobs jobs w) as [w1 [|e|]]; split; intros Heq;
    try exact Heq; injection Heq as _ <-; contradiction.
Qed.

(** C2.  When [AddJob] returns an error, the batch splits around the first
    job that failed: the jobs before it were all added and are the entries
    appended to the cron table, in order; the error returned is the one of
    that job; neither that job nor a later one of the batch is in the table.
    Stated for both revisions of task.go. *)
Theorem AddJob_first_error_no_rollback :
  (forall (P : Platform Task.job) (cfg : string) (jobs : list nat)
          (w w' : Task.World) (e : error),
      Task.AddJob cfg jobs w = (w', Go.Err e) ->
      exists pre p post w1 news,
        jobs = pre ++ p :: post
        /\ Task.addJobs cfg pre w = (w1, Go.Ok)
        /\ Task.addJob cfg p w1 = (w', Go.Err e)
        /\ cron.entries (Task.Cron (Task.self w'))
           = cron.entries (Task.Cron (Task.self w)) ++ news
        /\ map (fun en => cron.inner (cron.Job en)) news = pre)
  /\ (forall (P : Platform TaskCmds.job) (jobs : list nat)
             (w w' : TaskCmds.World) (e : error),
         TaskCmds.AddJob jobs w = (w', Go.Err e) ->
         exists pre p post w1 news,
           jobs = pre ++ p :: post
           /\ TaskCmds.addJobs pre w = (w1, Go.Ok)
           /\ TaskCmds.addJob p w1 = (w', Go.Err e)
           /\ cron.entries (TaskCmds.Cron (TaskCmds.self w'))
              = cron.entries (TaskCmds.Cron (TaskCmds.self w)) ++ news
           /\ map (fun en => cron.inner (cron.Job en)) news = pre).
Proof.
  split.
  - intros P cfg jobs w w' e Hrun.
    apply Task_AddJob_not_Ok in Hrun; [|discriminate].
    destruct (Task_addJobs_split _ _ _ _ _ Hrun ltac:(discriminate))
      as (pre & p & post & w1 & Hjobs & Hpre & Hp).
    destruct (Task_addJobs_Ok _ _ _ _ Hpre) as ((news & Hnews & Hmap) & _).
    destruct (Task_addJob_Err _ _ _ _ _ Hp) as (j & j' & _ & Hself & _).
    exists pre, p, post, w1, news. rewrite Hself. auto.
  - intros P jobs w w' e Hrun.
    apply TaskCmds_AddJob_not_Ok in Hrun; [|discriminate].
    destruct (TaskCmds_addJobs_split _ _ _ _ Hrun ltac:(discriminate))
      as (pre & p & post & w1 & Hjobs & Hpre & Hp).
    destruct (TaskCmds_addJobs_Ok _ _ _ Hpre) as (news & Hnews & Hmap).
    destruct (TaskCmds_addJob_Err _ _ _ _ Hp) as (j & j' & _ & Hself & _).
    exists pre, p, post, w1, news. rewrite Hself. auto.
Qed.

Lemma AddJob_first_error_no_rollback_witness :
  exists w' e pre p post,
    Task.AddJob (H := Demo.platform) "/etc/cron/jobs.yaml" [1; 2; 5; 3]%nat Demo.world
    = (w', Go.Err e)
    /\ [1; 2; 5; 3]%nat = pre ++ p :: post
    /\ map (fun en => cron.inner (cron.Job en)) (cron.entries (Task.Cron (Task.self w')))
       = pre.
Proof.
  destruct (Task.AddJob (H := Demo.platform) "/etc/cron/jobs.yaml" [1; 2; 5; 3]%nat
              Demo.world) as [w' r] eqn:Hrun.
  assert (He : r = Go.Err (InvalidSchedule "every day" "expected 5 to 6 fields"))
    by (vm_compute in Hrun; congruence).
  subst r.
  destruct (proj1 AddJob_first_error_no_rollback Demo.platform _ _ _ _ _ Hrun)
    as (pre & p & post & w1 & news & Hjobs & Hpre & Hp & Hentries & Hmap).
  exists w'. eexists. exists pre, p, post. split; [reflexivity|].
  split; [exact Hjobs|]. rewrite Hentries. exact Hmap.
Defined.

(** A batch that holds a job without schedule or without command fails, and
    that job is not among the entries the batch appends to the cron table. *)
Lemma Task_addJobs_invalid `{Platform Task.job} (cfg : string) (p : nat)
    (jobs : list nat) :
  forall (w : Task.World) (j : Task.job),
    (forall q, In q jobs -> is_Some (Task.heap w !! q)) ->
    In p jobs ->
    Task.heap w !! p = Some j ->
    Task.Schedule j = "" \/ Task.Command j = "" ->
    exists w' e news,
      Task.addJobs cfg jobs w = (w', Go.Err e)
      /\ Task.Jobs (Task.self w') = Task.Jobs (Task.self w)
      /\ cron.entries (Task.Cron (Task.self w'))
         = cron.entries (Task.Cron (Task.self w)) ++ news
      /\ ~ In p (map (fun en => cron.inner (cron.Job en)) news).
Proof.
  induction jobs as [|q jobs IH]; intros w j Halloc Hin Hp Hbad; [destruct Hin|].
  cbn [Task.addJobs].
  destruct (Task.addJob cfg q w) as [w1 r1] eqn:Hstep.
  pose proof (Task_addJob_frame _ _ _ _ _ Hstep) as (HJ1 & _ & HF1 & _).
  destruct r1 as [|e|].
  - destruct (Task_addJob_Ok _ _ _ _ Hstep)
      as (jq & jq' & en & Hq & Hs & Hc & Hself & Hinner & _).
    assert (Hne : q <> p).
    { intros ->. rewrite Hp in Hq. injection Hq as <-. destruct Hbad; contradiction. }
    destruct Hin as [Heq|Hin]; [contradiction|].
    destruct (HF1 p j Hp) as (j1 & Hp1 & Hs1 & Hc1).
    destruct (IH w1 j1) as (w' & e & news & Hrun & HJ & Hentries & Hnotin); auto.
    + intros x Hx. destruct (Halloc x (or_intror Hx)) as [jx Hjx].
      destruct (HF1 x jx Hjx) as (jx' & Hjx' & _). eauto.
    + rewrite Hs1, Hc1. exact Hbad.
    + exists w', e, (en :: news). split; [exact Hrun|].
      split; [congruence|]. split.
      * rewrite Hentries, Hself. cbn. now rewrite <- app_assoc.
      * cbn. rewrite Hinner. intros [Heq|Hin']; [contradiction|auto].
  - destruct (Task_addJob_Err _ _ _ _ _ Hstep) as (jq & jq' & _ & Hself & _).
    exists w1, e, []. rewrite Hself, app_nil_r. auto.
  - destruct (Task_addJob_Panic _ _ _ _ Hstep) as [Hnone _].
    destruct (Halloc q (or_introl eq_refl)) as [jq Hjq]. congruence.
Qed.

Lemma TaskCmds_addJobs_invalid `{Platform TaskCmds.job} (p : nat) (jobs : list nat) :
  forall (w : TaskCmds.World) (j : TaskCmds.job),
    (forall q, In q jobs -> is_Some (TaskCmds.heap w !! q)) ->
    In p jobs ->
    TaskCmds.heap w !! p = Some j ->
    TaskCmds.Schedule j = "" \/ TaskCmds.Commands j = [] ->
    exists w' e news,
      TaskCmds.addJobs jobs w = (w', Go.Err e)
      /\ TaskCmds.Jobs (TaskCmds.self w') = TaskCmds.Jobs (TaskCmds.self w)
      /\ cron.entries (TaskCmds.Cron (TaskCmds.self w'))
         = cron.entries (TaskCmds.Cron (TaskCmds.self w)) ++ news
      /\ ~ In p (map (fun en => cron.inner (cron.Job en)) news).
Proof.
  induction jobs as [|q jobs IH]; intros w j Halloc Hin Hp Hbad; [destruct Hin|].
  cbn [TaskCmds.addJobs].
  destruct (TaskCmds.addJob q w) as [w1 r1] eqn:Hstep.
  pose proof (TaskCmds_addJob_frame _ _ _ _ Hstep) as (HJ1 & HF1).
  destruct r1 as [|e|].
  - destruct (TaskCmds_addJob_Ok _ _ _ Hstep)
      as (jq & jq' & en & Hq & Hs & Hc & Hself & Hinner & _).
    assert (Hne : q <> p).
    { intros ->. rewrite Hp in Hq. injection Hq as <-. destruct Hbad; contradiction. }
    destruct Hin as [Heq|Hin]; [contradiction|].
    destruct (HF1 p j Hp) as (j1 & Hp1 & Hs1 & Hc1).
    destruct (IH w1 j1) as (w' & e & news & Hrun & HJ & Hentries & Hnotin); auto.
    + intros x Hx. destruct (Halloc x (or_intror Hx)) as [jx Hjx].
      destruct (HF1 x jx Hjx) as (jx' & Hjx' & _). eauto.
    + rewrite Hs1, Hc1. exact Hbad.
    + exists w', e, (en :: news). split; [exact Hrun|].
      split; [congruence|]. split.
      * rewrite Hentries, Hself. cbn. now rewrite <- app_assoc.
      * cbn. rewrite Hinner. intros [Heq|Hin']; [contradiction|auto].
  - destruct (TaskCmds_addJob_Err _ _ _ _ Hstep) as (jq & jq' & _ & Hself & _).
    exists w1, e, []. rewrite Hself, app_nil_r. auto.
  - destruct (TaskCmds_addJob_Panic _ _ _ Hstep) as [Hnone _].
    destruct (Halloc q (or_introl eq_refl)) as [jq Hjq]. congruence.
Qed.

(** C3.  A batch of allocated jobs that holds a job with an empty schedule
    or no command makes [AddJob] return an error; the [Jobs] field is left as
    it was, and that job is not among the entries appended to the cron table,
    which is all the scheduler triggers.  Stated for both revisions of
    task.go: an empty command text in the first, an empty command list in the
    second. *)
Theorem AddJob_rejects_invalid_job :
  (forall (P : Platform Task.job) (cfg : string) (jobs : list nat) (w : Task.World)
          (p : nat) (j : Task.job),
      (forall q, In q jobs -> is_Some (Task.heap w !! q)) ->
      In p jobs ->
      Task.heap w !! p = Some j ->
      Task.Schedule j = "" \/ Task.Command j = "" ->
      exists w' e news,
        Task.AddJob cfg jobs w = (w', Go.Err e)
        /\ Task.Jobs (Task.self w') = Task.Jobs (Task.self w)
        /\ cron.entries (Task.Cron (Task.self w'))
           = cron.entries (Task.Cron (Task.self w)) ++ news
        /\ ~ In p (map (fun en => cron.inner (cron.Job en)) news))
  /\ (forall (P : Platform TaskCmds.job) (jobs : list nat) (w : TaskCmds.World)
             (p : nat) (j : TaskCmds.job),
         (forall q, In q jobs -> is_Some (TaskCmds.heap w !! q)) ->
         In p jobs ->
         TaskCmds.heap w !! p = Some j ->
         TaskCmds.Schedule j = "" \/ TaskCmds.Commands j = [] ->
         exists w' e news,
           TaskCmds.AddJob jobs w = (w', Go.Err e)
           /\ TaskCmds.Jobs (TaskCmds.self w') = TaskCmds.Jobs (TaskCmds.self w)
           /\ cron.entries (TaskCmds.Cron (TaskCmds.self w'))
              = cron.entries (TaskCmds.Cron (TaskCmds.self w)) ++ news
           /\ ~ In p (map (fun en => cron.inner (cron.Job en)) news)).
Proof.
  split.
  - intros P cfg jobs w p j Halloc Hin Hp Hbad.
    destruct (Task_addJobs_invalid cfg p jobs w j Halloc Hin Hp Hbad)
      as (w' & e & news & Hrun & Hrest).
    exists w', e, news. split; [|exact Hrest].
    apply Task_AddJob_not_Ok; [discriminate|exact Hrun].
  - intros P jobs w p j Halloc Hin Hp Hbad.
    destruct (TaskCmds_addJobs_invalid p jobs w j Halloc Hin Hp Hbad)
      as (w' & e & news & Hrun & Hrest).
    exists w', e, news. split; [|exact Hrest].
    apply TaskCmds_AddJob_not_Ok; [discriminate|exact Hrun].
Qed.

Lemma AddJob_rejects_invalid_job_witness :
  (exists w' e news,
      Task.AddJob (H := Demo.platform) "argument" [1; 4; 2]%nat Demo.world
      = (w', Go.Err e)
      /\ cron.entries (Task.Cron (Task.self w')) = news
      /\ ~ In 4%nat (map (fun en => cron.inner (cron.Job en)) news))
  /\ (exists w' e news,
         TaskCmds.AddJob (H := Demo.platformCmds) [1; 4; 2]%nat Demo.worldCmds
         = (w', Go.Err e)
         /\ cron.entries (TaskCmds.Cron (TaskCmds.self w')) = news
         /\ ~ In 4%nat (map (fun en => cron.inner (cron.Job en)) news)).
Proof.
  split.
  - destruct (proj1 AddJob_rejects_invalid_job Demo.platform "argument" [1; 4; 2]%nat
                Demo.world 4%nat (Demo.job "" "echo 4" "delay"))
      as (w' & e & news & Hrun & _ & Hentries & Hnotin).
    + intros q [<-|[<-|[<-|[]]]]; vm_compute; eauto.
    + cbn; auto.
    + vm_compute; reflexivity.
    + left; reflexivity.
    + exists w', e, news. split; [exact Hrun|]. split; [exact Hentries|exact Hnotin].
  - destruct (proj2 AddJob_rejects_invalid_job Demo.platformCmds [1; 4; 2]%nat
                Demo.worldCmds 4%nat (Demo.jobCmds "d" "@daily" [] "delay"))
      as (w' & e & news & Hrun & _ & Hentries & Hnotin).
    + intros q [<-|[<-|[<-|[]]]]; vm_compute; eauto.
    + cbn; auto.
    + vm_compute; reflexivity.
    + right; reflexivity.
    + exists w', e, news. split; [exact Hrun|]. split; [exact Hentries|exact Hnotin].
Defined.

(** ** [Stop] returns, and what it deletes *)

(** A context that is not done has its deadline ahead. *)
Lemma Err_None_before_deadline (ctx : context.Context) (now : Z) :
  context.Err ctx now = None -> now < context.deadline ctx.
Proof.
  unfold context.Err. destruct (context.parentDone ctx) as [tp|].
  - destruct ((tp <=? now) && (tp <=? context.deadline ctx)); [discriminate|].
    destruct (Z.leb_spec (context.deadline ctx) now); [discriminate|lia].
  - destruct (Z.leb_spec (context.deadline ctx) now); [discriminate|lia].
Qed.

(** The loop of [stopImpl] ends within the rounds that reach the deadline. *)
Lemma Task_waitRunning_total (tl : Timeline) (ctx : context.Context) (fuel : nat) :
  forall now,
    (Z.to_nat ((context.deadline ctx - now) / (100 * time.Second) + 1) < fuel)%nat ->
    exists t forced, Task.waitRunning fuel tl ctx now = Some (t, forced).
Proof.
  induction fuel as [|fuel IH]; intros now Hfuel; [lia|].
  cbn [Task.waitRunning].
  destruct (runningAt tl now >? 0); [|eauto].
  destruct (context.Err ctx now) as [[|]|] eqn:Herr; [eauto..|].
  apply Err_None_before_deadline in Herr.
  apply IH.
  replace (context.deadline ctx - (now + 100 * time.Second))
    with ((context.deadline ctx - now) + (-1) * (100 * time.Second)) by lia.
  rewrite Z.div_add by (unfold time.Second; lia).
  assert (0 <= (context.deadline ctx - now) / (100 * time.Second))
    by (apply Z.div_pos; unfold time.Second; lia).
  lia.
Qed.

Lemma TaskCmds_waitRunning_total (tl : Timeline) (ctx : context.Context) (fuel : nat) :
  forall now,
    (Z.to_nat ((context.deadline ctx - now) / (100 * time.Second) + 1) < fuel)%nat ->
    exists t forced, TaskCmds.waitRunning fuel tl ctx now = Some (t, forced).
Proof.
  induction fuel as [|fuel IH]; intros now Hfuel; [lia|].
  cbn [TaskCmds.waitRunning].
  destruct (context.Err ctx now) as [e|] eqn:Herr; [eauto|].
  destruct (runningAt tl now >? 0); [|eauto].
  apply Err_None_before_deadline in Herr.
  apply IH.
  replace (context.deadline ctx - (now + 100 * time.Second))
    with ((context.deadline ctx - now) + (-1) * (100 * time.Second)) by lia.
  rewrite Z.div_add by (unfold time.Second; lia).
  assert (0 <= (context.deadline ctx - now) / (100 * time.Second))
    by (apply Z.div_pos; unfold time.Second; lia).
  lia.
Qed.

(** What does hold of the instant at which the loop is left: it is the
    instant of the call, or less than one sleep after the deadline. *)
Lemma Task_waitRunning_bound (tl : Timeline) (ctx : context.Context) (fuel : nat) :
  forall now t forced,
    Task.waitRunning fuel tl ctx now = Some (t, forced) ->
    t = now \/ (now < t < context.deadline ctx + 100 * time.Second).
Proof.
  induction fuel as [|fuel IH]; intros now t forced Hwait; [discriminate|].
  cbn [Task.waitRunning] in Hwait.
  destruct (runningAt tl now >? 0); [|injection Hwait as <- _; now left].
  destruct (context.Err ctx now) as [[|]|] eqn:Herr;
    [injection Hwait as <- _; now left..|].
  apply Err_None_before_deadline in Herr.
  apply IH in Hwait. unfold time.Second in *. lia.
Qed.

Lemma TaskCmds_waitRunning_bound (tl : Timeline) (ctx : context.Context) (fuel : nat) :
  forall now t forced,
    TaskCmds.waitRunning fuel tl ctx now = Some (t, forced) ->
    t = now \/ (now < t < context.deadline ctx + 100 * time.Second).
Proof.
  induction fuel as [|fuel IH]; intros now t forced Hwait; [discriminate|].
  cbn [TaskCmds.waitRunning] in Hwait.
  destruct (context.Err ctx now) as [e|] eqn:Herr; [injection Hwait as <- _; now left|].
  destruct (runningAt tl now >? 0); [|injection Hwait as <- _; now left].
  apply Err_None_before_deadline in Herr.
  apply IH in Hwait. unfold time.Second in *. lia.
Qed.

Lemma roundsUntil_enough (ctx : context.Context) (now : Z) :
  (Z.to_nat ((context.deadline ctx - now) / (100 * time.Second) + 1)
   < Task.roundsUntil ctx now)%nat.
Proof. unfold Task.roundsUntil. lia. Qed.

(** The deferred loop over the jobs: a file that is the shell file of none
    of them stays as it is, no file appears, and when the jobs are all
    allocated the loop runs to its end and the shell file of each is gone. *)
Lemma Task_deleteShellFiles_files (jobs : list nat) :
  forall (w w' : Task.World) (r : Go.result error),
    Task.deleteShellFiles jobs w = (w', r) ->
    (forall path,
        (forall q j, In q jobs -> Task.heap w !! q = Some j -> Task.shellFile j <> path) ->
        Task.files w' !! path = Task.files w !! path)
    /\ (forall path, Task.files w !! path = None -> Task.files w' !! path = None)
    /\ ((forall q, In q jobs -> is_Some (Task.heap w !! q)) ->
        r = Go.Ok
        /\ forall q j, In q jobs -> Task.heap w !! q = Some j ->
                       Task.files w' !! Task.shellFile j = None).
Proof.
  induction jobs as [|p jobs IH]; intros w w' r Hdel; cbn in Hdel.
  - injection Hdel as <- <-. repeat split; auto. intros q j [].
  - unfold Task.deleteShellFile in Hdel.
    destruct (Task.heap w !! p) as [jp|] eqn:Hp.
    + apply IH in Hdel as (Hkeep & Hnone & Hall). cbn [Task.heap Task.files Task.setFiles] in *.
      split; [|split].
      * intros path Hpath. rewrite Hkeep.
        -- apply lookup_delete_ne. apply (Hpath p jp); [now left|assumption].
        -- intros q j Hq. apply Hpath. now right.
      * intros path Hgone. apply Hnone. rewrite lookup_delete. destruct (decide _); auto.
      * intros Halloc. destruct Hall as [-> Hdeleted]; [intros q Hq; apply Halloc; now right|].
        split; [reflexivity|].
        intros q j [<-|Hq] Hj; [|eauto].
        apply Hnone. replace j with jp by congruence. apply lookup_delete_eq.
    + injection Hdel as <- <-. split; [auto|]. split; [auto|].
      intros Halloc. destruct (Halloc p (or_introl eq_refl)) as [jp Hjp]. congruence.
Qed.

(** [stopImpl], once its loop is left: the heap and [Jobs] are as before,
    and the files are what the deferred loop over [Jobs] leaves. *)
Lemma Task_stopImpl_files (fuel : nat) (tl : Timeline) (ctx : context.Context)
    (now t : Z) (w w' : Task.World) (r : Go.result error) :
  Task.stopImpl fuel tl ctx now w = Some (w', t, r) ->
  Task.heap w' = Task.heap w
  /\ Task.Jobs (Task.self w') = Task.Jobs (Task.self w)
  /\ (forall path,
         (forall q j, In q (Task.Jobs (Task.self w)) -> Task.heap w !! q = Some j ->
                      Task.shellFile j <> path) ->
         Task.files w' !! path = Task.files w !! path)
  /\ ((forall q, In q (Task.Jobs (Task.self w)) -> is_Some (Task.heap w !! q)) ->
      (r = Go.Ok <-> 1 <= Task.wg (Task.self w))
      /\ forall q j, In q (Task.Jobs (Task.self w)) -> Task.heap w !! q = Some j ->
                     Task.files w' !! Task.shellFile j = None).
Proof.
  unfold Task.stopImpl. destruct (Task.waitRunning fuel tl ctx now) as [[t' forced]|];
    [|discriminate].
  set (w0 := Task.log _ _).
  assert (Hw0 : Task.heap w0 = Task.heap w /\ Task.files w0 = Task.files w
                /\ Task.Jobs (Task.self w0) = Task.Jobs (Task.self w)
                /\ Task.wg (Task.self w0) = Task.wg (Task.self w)).
  { unfold w0. destruct forced, (Task.quitSignalCtx (Task.self w)); cbn; auto. }
  destruct Hw0 as (Hheap0 & Hfiles0 & HJobs0 & Hwg0).
  destruct (Task.deleteShellFiles (Task.Jobs (Task.self w0)) w0) as [w1 r1] eqn:Hdel.
  pose proof (Task_deleteShellFiles_frame _ _ _ _ Hdel) as (Hself1 & Hheap1 & _).
  pose proof (Task_deleteShellFiles_files _ _ _ _ Hdel) as (Hkeep & _ & Hall).
  rewrite HJobs0, Hheap0, Hfiles0 in *.
  unfold Task.wgDone. intros Hret. injection Hret as Hw' _ Hr. subst w' r.
  cbn [Task.heap Task.self Task.files Task.onSelf Task.setWg Task.Jobs].
  split; [congruence|]. split; [congruence|]. split; [exact Hkeep|].
  intros Halloc. destruct (Hall Halloc) as [-> Hgone]. split; [|exact Hgone].
  rewrite Hself1, Hwg0.
  destruct (Z.ltb_spec (Task.wg (Task.self w) - 1) 0); split; intros;
    try lia; try discriminate; reflexivity.
Qed.

Lemma Task_Stop_returns (tl : Timeline) (now : Z) (w : Task.World) :
  exists w' t r, Task.Stop tl now w = Some (w', t, r).
Proof.
  unfold Task.Stop, Task.stopTest.
  destruct (Task.testMode (Task.self w));
    match goal with
    | |- context [Task.stopImpl ?f _ ?c _ ?w0] =>
        destruct (Task_waitRunning_total tl c f now (roundsUntil_enough c now))
          as (t & forced & Hwait);
        destruct (Task_stopImpl_returns f tl c now t forced w0 Hwait)
          as (w' & r & Hstop & _)
    end; eauto.
Qed.

Lemma Task_Stop_files (tl : Timeline) (now t : Z) (w w' : Task.World)
    (r : Go.result error) :
  Task.Stop tl now w = Some (w', t, r) ->
  Task.heap w' = Task.heap w
  /\ Task.Jobs (Task.self w') = Task.Jobs (Task.self w)
  /\ (forall path,
         (forall q j, In q (Task.Jobs (Task.self w)) -> Task.heap w !! q = Some j ->
                      Task.shellFile j <> path) ->
         Task.files w' !! path = Task.files w !! path)
  /\ ((forall q, In q (Task.Jobs (Task.self w)) -> is_Some (Task.heap w !! q)) ->
      (r = Go.Ok <-> 1 <= Task.wg (Task.self w))
      /\ forall q j, In q (Task.Jobs (Task.self w)) -> Task.heap w !! q = Some j ->
                     Task.files w' !! Task.shellFile j = None).
Proof.
  unfold Task.Stop, Task.stopTest. destruct (Task.testMode (Task.self w)).
  - apply Task_stopImpl_files.
  - intros Hstop. apply Task_stopImpl_files in Hstop. exact Hstop.
Qed.

(** The jobs of [Jobs] stay allocated through [AddJob], and the jobs a
    batch appends are allocated. *)
Lemma Task_AddJob_allocated `{Platform Task.job} (cfg : string) (jobs : list nat)
    (w w' : Task.World) (r : Go.result error) :
  Task.AddJob cfg jobs w = (w', r) ->
  (forall q, In q (Task.Jobs (Task.self w)) -> is_Some (Task.heap w !! q)) ->
  forall q, In q (Task.Jobs (Task.self w')) -> is_Some (Task.heap w' !! q).
Proof.
  unfold Task.AddJob. intros Hrun Halloc q.
  destruct (Task.addJobs cfg jobs w) as [w1 r1] eqn:Hloop.
  pose proof (Task_addJobs_frame _ _ _ _ _ Hloop) as (HJobs & _ & Hkeep & _).
  assert (Hold : In q (Task.Jobs (Task.self w)) -> is_Some (Task.heap w1 !! q)).
  { intros Hq. destruct (Halloc q Hq) as [j Hj].
    destruct (Hkeep q j Hj) as (j' & Hj' & _). eauto. }
  destruct r1 as [|e|]; injection Hrun as <- _.
  - cbn [Task.self Task.heap Task.onSelf Task.Jobs Task.setJobs]. rewrite HJobs.
    intros [Hq|Hq]%in_app_or; [auto|].
    destruct (Task_addJobs_Ok _ _ _ _ Hloop) as [_ Hsaved].
    destruct (Hsaved q Hq) as (j & Hj & _). eauto.
  - rewrite HJobs. exact Hold.
  - rewrite HJobs. exact Hold.
Qed.

(** No job of a batch touches the wait group. *)
Lemma Task_addJobs_wg `{Platform Task.job} (cfg : string) (jobs : list nat)
    (w w' : Task.World) (r : Go.result error) :
  Task.addJobs cfg jobs w = (w', r) ->
  Task.wg (Task.self w') = Task.wg (Task.self w).
Proof.
  revert w; induction jobs as [|p jobs IH]; intros w Hrun; cbn in Hrun.
  - now injection Hrun as <- _.
  - destruct (Task.addJob cfg p w) as [w1 r1] eqn:Hstep.
    assert (Hwg1 : Task.wg (Task.self w1) = Task.wg (Task.self w)).
    { destruct r1 as [|e|].
      - destruct (Task_addJob_Ok _ _ _ _ Hstep) as (j & j' & e & _ & _ & _ & Hself & _).
        now rewrite Hself.
      - destruct (Task_addJob_Err _ _ _ _ _ Hstep) as (j & j' & _ & Hself & _).
        now rewrite Hself.
      - destruct (Task_addJob_Panic _ _ _ _ Hstep) as [_ ->]. reflexivity. }
    destruct r1; [rewrite <- Hwg1; now apply IH | now injection Hrun as <- _ ..].
Qed.

(** What [Start] leaves of the world; outside test mode it starts no
    goroutine and the scheduler runs. *)
Lemma Task_Start_fields (w : Task.World) :
  Task.heap (fst (Task.Start w)) = Task.heap w
  /\ Task.files (fst (Task.Start w)) = Task.files w
  /\ Task.Jobs (Task.self (fst (Task.Start w))) = Task.Jobs (Task.self w)
  /\ Task.wg (Task.self (fst (Task.Start w))) = Task.wg (Task.self w) + 1
  /\ Task.testMode (Task.self (fst (Task.Start w))) = Task.testMode (Task.self w)
  /\ Task.quitSignalCtx (Task.self (fst (Task.Start w))) = Some false
  /\ (Task.testMode (Task.self w) = false ->
      snd (Task.Start w) = Task.Nothing
      /\ cron.entries (Task.Cron (Task.self (fst (Task.Start w))))
         = cron.entries (Task.Cron (Task.self w))
      /\ cron.running (Task.Cron (Task.self (fst (Task.Start w)))) = true).
Proof.
  unfold Task.Start, Task.startTest.
  destruct (Task.testMode (Task.self w)) eqn:Htest; cbn;
    rewrite ?Htest; repeat split; try reflexivity; discriminate.
Qed.

(** C6.  The claim fails on a batch that [AddJob] gives up.  The jobs before
    the failing one are in the cron table and their shell files are on disk,
    but [AddJob] has not appended them to [Jobs]; the deferred loop of
    [stopImpl], commented "delete all temporary shell files", ranges over
    [Jobs] only.  So on a task without earlier jobs, after [Start] and a
    [Stop] that returns normally, no file has been deleted and the shell
    file of each of those registered jobs is still on disk. *)
Theorem Stop_leaves_shell_files_of_failed_batch (P : Platform Task.job)
    (cfg : string) (jobs : list nat) (w w' : Task.World) (e : error)
    (tl : Timeline) (now : Z) :
  Task.Jobs (Task.self w) = [] ->
  Task.testMode (Task.self w) = false ->
  0 <= Task.wg (Task.self w) ->
  Task.AddJob cfg jobs w = (w', Go.Err e) ->
  exists pre p post news ws w'' t,
    jobs = pre ++ p :: post
    /\ cron.entries (Task.Cron (Task.self w'))
       = cron.entries (Task.Cron (Task.self w)) ++ news
    /\ map (fun en => cron.inner (cron.Job en)) news = pre
    /\ Task.Start w' = (ws, Task.Nothing)
    /\ cron.entries (Task.Cron (Task.self ws)) = cron.entries (Task.Cron (Task.self w'))
    /\ Task.Stop tl now ws = Some (w'', t, Go.Ok)
    /\ Task.Jobs (Task.self w'') = []
    /\ Task.files w'' = Task.files w'
    /\ forall q, In q pre ->
         exists j, Task.heap w'' !! q = Some j
                   /\ (creatable (Task.shellFile j) = true ->
                       is_Some (Task.files w'' !! Task.shellFile j)).
Proof.
  intros HJ Htest Hwg Hrun. apply Task_AddJob_not_Ok in Hrun; [|discriminate].
  pose proof (Task_addJobs_frame _ _ _ _ _ Hrun) as (HJobs & Htest' & _).
  pose proof (Task_addJobs_wg _ _ _ _ _ Hrun) as Hwg'.
  destruct (Task_addJobs_split _ _ _ _ _ Hrun ltac:(discriminate))
    as (pre & p & post & w1 & Hjobs & Hpre & Hp).
  destruct (Task_addJobs_Ok _ _ _ _ Hpre) as ((news & Hnews & Hmap) & Hsaved).
  destruct (Task_addJob_Err _ _ _ _ _ Hp) as (j & j' & _ & Hself & _).
  pose proof (Task_addJob_frame _ _ _ _ _ Hp) as (_ & _ & _ & Hkeep).
  rewrite Htest in Htest'. rewrite HJ in HJobs.
  destruct (Task_Start_fields w')
    as (Hheap1 & Hfiles1 & HJobs1 & Hwg1 & _ & _ & Hplain).
  destruct (Hplain Htest') as (Hspawn & Hentries1 & _).
  destruct (Task.Start w') as [ws sp] eqn:Hstart. cbn [fst snd] in *. subst sp.
  destruct (Task_Stop_returns tl now ws) as (w'' & t & r & Hstop).
  destruct (Task_Stop_files _ _ _ _ _ _ Hstop) as (Hheap2 & HJobs2 & Hfiles2 & Hall).
  rewrite HJobs1, HJobs in *.
  assert (Hfiles : Task.files w'' = Task.files w').
  { rewrite <- Hfiles1. apply map_eq. intros path. apply Hfiles2. intros q jq []. }
  assert (Hr : r = Go.Ok).
  { destruct Hall as [Hok _]; [intros q []|]. apply Hok. lia. }
  subst r.
  exists pre, p, post, news, ws, w'', t.
  split; [exact Hjobs|]. split; [now rewrite Hself|]. split; [exact Hmap|].
  split; [reflexivity|]. split; [exact Hentries1|]. split; [exact Hstop|].
  split; [exact HJobs2|]. split; [exact Hfiles|].
  intros q Hq. rewrite Hfiles, Hheap2, Hheap1. apply Hkeep, Hsaved, Hq.
Qed.

Lemma Stop_leaves_shell_files_of_failed_batch_witness :
  exists w' ws w'' t,
    Task.AddJob (H := Demo.platform) "/etc/cron/jobs.yaml" [1; 2; 5; 3]%nat Demo.world
    = (w', Go.Err (InvalidSchedule "every day" "expected 5 to 6 fields"))
    /\ map (fun en => cron.inner (cron.Job en)) (cron.entries (Task.Cron (Task.self w')))
       = [1; 2]%nat
    /\ Task.Start w' = (ws, Task.Nothing)
    /\ Task.Stop Demo.brief 0 ws = Some (w'', t, Go.Ok)
    /\ Task.Jobs (Task.self w'') = []
    /\ Task.files w'' !! "/etc/cron/.jobs.yaml-1.sh" = Some "echo 1"
    /\ Task.files w'' !! "/etc/cron/.jobs.yaml-2.sh" = Some "sleep 5".
Proof.
  destruct (Task.AddJob (H := Demo.platform) "/etc/cron/jobs.yaml" [1; 2; 5; 3]%nat
              Demo.world) as [w' r0] eqn:Hrun.
  assert (He : r0 = Go.Err (InvalidSchedule "every day" "expected 5 to 6 fields"))
    by (vm_compute in Hrun; congruence).
  subst r0.
  assert (Hw' : Task.files w' !! "/etc/cron/.jobs.yaml-1.sh" = Some "echo 1"
                /\ Task.files w' !! "/etc/cron/.jobs.yaml-2.sh" = Some "sleep 5"
                /\ map (fun en => cron.inner (cron.Job en))
                     (cron.entries (Task.Cron (Task.self w'))) = [1; 2]%nat)
    by (vm_compute in Hrun; injection Hrun as <-; vm_compute; repeat split; reflexivity).
  destruct Hw' as (Hfile1 & Hfile2 & Htable).
  destruct (Stop_leaves_shell_files_of_failed_batch Demo.platform "/etc/cron/jobs.yaml"
              [1; 2; 5; 3]%nat Demo.world w'
              (InvalidSchedule "every day" "expected 5 to 6 fields") Demo.brief 0
              eq_refl eq_refl ltac:(vm_compute; discriminate) Hrun)
    as (pre & p & post & news & ws & w'' & t
        & _ & _ & _ & Hstart & _ & Hstop & HJobs & Hfiles & _).
  exists w', ws, w'', t. split; [reflexivity|]. split; [exact Htable|].
  split; [exact Hstart|]. split; [exact Hstop|]. split; [exact HJobs|].
  rewrite Hfiles. split; [exact Hfile1|exact Hfile2].
Defined.

(** C8.  When [AddJob] returns an error the [Jobs] field is what it was.
    The jobs of the batch before the failing one are in the cron table and
    their shell files are on disk (unless they could not be created), but
    they are not appended to [Jobs]; the cleanup of a later [Stop] runs over
    [Jobs] and leaves every file alone that is not the shell file of a job
    of that collection. *)
Theorem AddJob_error_keeps_Jobs (P : Platform Task.job) (cfg : string)
    (jobs : list nat) (w w' : Task.World) (e : error) :
  Task.AddJob cfg jobs w = (w', Go.Err e) ->
  Task.Jobs (Task.self w') = Task.Jobs (Task.self w)
  /\ (exists pre p post news,
         jobs = pre ++ p :: post
         /\ cron.entries (Task.Cron (Task.self w'))
            = cron.entries (Task.Cron (Task.self w)) ++ news
         /\ map (fun en => cron.inner (cron.Job en)) news = pre
         /\ forall q, In q pre ->
              exists j, Task.heap w' !! q = Some j
                        /\ (creatable (Task.shellFile j) = true ->
                            is_Some (Task.files w' !! Task.shellFile j)))
  /\ (forall tl now w'' t r,
         Task.Stop tl now w' = Some (w'', t, r) ->
         forall path,
           (forall q j, In q (Task.Jobs (Task.self w)) -> Task.heap w' !! q = Some j ->
                        Task.shellFile j <> path) ->
           Task.files w'' !! path = Task.files w' !! path).
Proof.
  intros Hrun. apply Task_AddJob_not_Ok in Hrun; [|discriminate].
  pose proof (Task_addJobs_frame _ _ _ _ _ Hrun) as (HJobs & _).
  split; [exact HJobs|]. split.
  - destruct (Task_addJobs_split _ _ _ _ _ Hrun ltac:(discriminate))
      as (pre & p & post & w1 & Hjobs & Hpre & Hp).
    destruct (Task_addJobs_Ok _ _ _ _ Hpre) as ((news & Hnews & Hmap) & Hsaved).
    destruct (Task_addJob_Err _ _ _ _ _ Hp) as (j & j' & _ & Hself & _).
    pose proof (Task_addJob_frame _ _ _ _ _ Hp) as (_ & _ & _ & Hkeep).
    exists pre, p, post, news. rewrite Hself. repeat split; auto.
    intros q Hq. apply Hkeep, Hsaved, Hq.
  - intros tl now w'' t r Hstop path Hpath.
    destruct (Task_Stop_files _ _ _ _ _ _ Hstop) as (_ & _ & Hfiles & _).
    apply Hfiles. rewrite HJobs. exact Hpath.
Qed.

Lemma AddJob_error_keeps_Jobs_witness :
  exists w' e w'' t r,
    Task.AddJob (H := Demo.platform) "/etc/cron/jobs.yaml" [1; 2; 5; 3]%nat Demo.world
    = (w', Go.Err e)
    /\ Task.Jobs (Task.self w') = []
    /\ Task.Stop Demo.brief 0 w' = Some (w'', t, r)
    /\ Task.files w'' !! "/etc/cron/.jobs.yaml-1.sh" = Some "echo 1".
Proof.
  destruct (Task.AddJob (H := Demo.platform) "/etc/cron/jobs.yaml" [1; 2; 5; 3]%nat
              Demo.world) as [w' r0] eqn:Hrun.
  assert (He : r0 = Go.Err (InvalidSchedule "every day" "expected 5 to 6 fields"))
    by (vm_compute in Hrun; congruence).
  subst r0.
  assert (Hfile : Task.files w' !! "/etc/cron/.jobs.yaml-1.sh" = Some "echo 1")
    by (vm_compute in Hrun; injection Hrun as <-; vm_compute; reflexivity).
  destruct (AddJob_error_keeps_Jobs Demo.platform _ _ _ _ _ Hrun)
    as (HJobs & _ & Hclean).
  destruct (Task_Stop_returns Demo.brief 0 w') as (w'' & t & r & Hstop).
  exists w'. eexists. exists w'', t, r. split; [reflexivity|].
  split; [exact HJobs|]. split; [exact Hstop|].
  rewrite (Hclean _ _ _ _ _ Hstop); [exact Hfile|].
  intros q j [].
Defined.

(** ** The path of a shell file *)

Lemma itoa_inj (n m : Z) : Go.itoa n = Go.itoa m -> n = m.
Proof.
  unfold Go.itoa. intros Heq. apply DecimalZ.to_int_inj.
  apply (f_equal NilEmpty.int_of_string) in Heq.
  rewrite !NilEmpty.isi in Heq. now injection Heq.
Qed.

Lemma sepFree_app (a b : string) :
  filepath.sepFree (a +:+ b) = filepath.sepFree a && filepath.sepFree b.
Proof.
  induction a as [|x a IH]; [reflexivity|].
  rewrite append_cons. cbn [filepath.sepFree]. now rewrite IH, andb_assoc.
Qed.

Lemma itoa_sepFree (n : Z) : filepath.sepFree (Go.itoa n) = true.
Proof.
  unfold Go.itoa.
  assert (Hu : forall d, filepath.sepFree (NilEmpty.string_of_uint d) = true)
    by (induction d; cbn; auto).
  destruct (Z.to_int n) as [d|d]; cbn; apply Hu.
Qed.

(** An element of three bytes or more is none of "", "." and "..". *)
Lemma cleanStep_long (rooted : bool) (out : string) (dotdot : nat) (e : string) :
  (3 <= String.length e)%nat ->
  filepath.cleanStep rooted (out, dotdot) e
  = ((if (rooted && negb (String.length out =? 1)%nat)
         || (negb rooted && negb (String.length out =? 0)%nat)
      then out +:+ "/" else out) +:+ e, dotdot).
Proof.
  intros Hlen. unfold filepath.cleanStep.
  assert (H0 : String.eqb e "" = false)
    by (apply String.eqb_neq; intros ->; cbn in Hlen; lia).
  assert (H1 : String.eqb e "." = false)
    by (apply String.eqb_neq; intros ->; cbn in Hlen; lia).
  assert (H2 : String.eqb e ".." = false)
    by (apply String.eqb_neq; intros ->; cbn in Hlen; lia).
  now rewrite H0, H1, H2.
Qed.

Lemma elements_sepFree (c : string) :
  filepath.sepFree c = true -> filepath.elements c = [c].
Proof.
  induction c as [|x c IH]; [reflexivity|]. cbn [filepath.sepFree filepath.elements].
  intros [Hx Hc]%andb_true_iff. apply negb_true_iff in Hx.
  now rewrite Hx, (IH Hc).
Qed.

Lemma elements_last (path : string) :
  exists init l, filepath.elements path = init ++ [l].
Proof.
  induction path as [|x path (init & l & IH)]; [now exists [], ""|].
  cbn [filepath.elements]. destruct (filepath.IsPathSeparator x).
  - exists ("" :: init), l. now rewrite IH.
  - rewrite IH. destruct init as [|e init]; cbn.
    + now exists [], (String x l).
    + now exists (String x e :: init), l.
Qed.

(** Appending a separator-free string extends the last element. *)
Lemma elements_app_sepFree (path c : string) :
  filepath.sepFree c = true ->
  forall init l,
    filepath.elements path = init ++ [l] ->
    filepath.elements (path +:+ c) = init ++ [l +:+ c].
Proof.
  intros Hc. induction path as [|x path IH]; intros init l Hel.
  - cbn in Hel. destruct init as [|e [|e' init]]; try discriminate.
    injection Hel as <-. rewrite !append_nil. now apply elements_sepFree.
  - rewrite append_cons. cbn [filepath.elements] in *.
    destruct (filepath.IsPathSeparator x).
    + destruct init as [|e init].
      * destruct (elements_last path) as ([|? ?] & ? & Hp); rewrite Hp in Hel;
          discriminate.
      * injection Hel as <- Hel. now rewrite (IH _ _ Hel).
    + destruct (elements_last path) as (init' & l' & Hp).
      rewrite (IH _ _ Hp). rewrite Hp in Hel.
      destruct init' as [|e' init']; cbn in *.
      * destruct init as [|e [|e2 init]]; try discriminate.
        now injection Hel as <-.
      * destruct init as [|e init].
        -- destruct init'; discriminate.
        -- injection Hel as <- Hel. apply app_inj_tail in Hel as [<- <-].
           reflexivity.
Qed.

Lemma eqb_append_nonempty (a t : string) :
  (1 <= String.length t)%nat -> String.eqb (a +:+ t) "" = false.
Proof.
  intros Ht. apply String.eqb_neq. intros Heq.
  apply (f_equal String.length) in Heq. rewrite length_append in Heq.
  cbn in Heq. lia.
Qed.

(** [Clean] keeps a last element that is free of separators and three bytes
    long or more: what comes before it in the result depends on the head of
    the path only. *)
Lemma Clean_app_tail (head : string) :
  exists cleaned,
    forall t, filepath.sepFree t = true -> (3 <= String.length t)%nat ->
              filepath.Clean (head +:+ t) = cleaned +:+ t.
Proof.
  destruct head as [|a head].
  - exists "". intros t Ht Hlen. rewrite !append_nil.
    destruct t as [|x t]; [cbn in Hlen; lia|].
    unfold filepath.Clean. pose proof Ht as Ht'. cbn [filepath.sepFree] in Ht'.
    apply andb_true_iff in Ht' as [Hx _]. apply negb_true_iff in Hx. rewrite Hx.
    rewrite (elements_sepFree _ Ht). cbn [fold_left].
    rewrite cleanStep_long by assumption. cbn [fst String.length Nat.eqb negb andb orb].
    rewrite append_nil. destruct (String.eqb_spec (String x t) ""); [discriminate|].
    reflexivity.
  - destruct (filepath.IsPathSeparator a) eqn:Ha.
    + destruct (elements_last head) as (init & l & Hel).
      destruct (fold_left (filepath.cleanStep true) init ("/", 1%nat))
        as [out dotdot] eqn:Hfold.
      exists ((if (true && negb (String.length out =? 1)%nat)
                  || (negb true && negb (String.length out =? 0)%nat)
               then out +:+ "/" else out) +:+ l).
      intros t Ht Hlen. rewrite append_cons. unfold filepath.Clean. rewrite Ha.
      rewrite (elements_app_sepFree _ _ Ht _ _ Hel), fold_left_app, Hfold.
      cbn [fold_left]. rewrite cleanStep_long by (rewrite length_append; lia).
      cbn [fst]. rewrite <- append_assoc.
      now rewrite eqb_append_nonempty by lia.
    + destruct (elements_last (String a head)) as (init & l & Hel).
      destruct (fold_left (filepath.cleanStep false) init ("", 0%nat))
        as [out dotdot] eqn:Hfold.
      exists ((if (false && negb (String.length out =? 1)%nat)
                  || (negb false && negb (String.length out =? 0)%nat)
               then out +:+ "/" else out) +:+ l).
      intros t Ht Hlen. rewrite append_cons. unfold filepath.Clean. rewrite Ha.
      rewrite <- append_cons.
      rewrite (elements_app_sepFree _ _ Ht _ _ Hel), fold_left_app, Hfold.
      cbn [fold_left]. rewrite cleanStep_long by (rewrite length_append; lia).
      cbn [fst]. rewrite <- append_assoc.
      now rewrite eqb_append_nonempty by lia.
Qed.

Lemma Join_pair (d n : string) :
  (1 <= String.length n)%nat ->
  filepath.Join [d; n]
  = filepath.Clean ((if String.eqb d "" then "" else d +:+ "/") +:+ n).
Proof.
  intros Hn. cbn [filepath.Join filepath.joinSep].
  destruct (String.eqb d "").
  - destruct (String.eqb_spec n "") as [->|_]; [cbn in Hn; lia|]. reflexivity.
  - now rewrite append_assoc.
Qed.

(** For one source and one mode, the path of the shell file tells the id. *)
Lemma shellFilePath_inj `{Platform Task.job} (test : bool) (cfg : string) (id1 id2 : Z) :
  Task.shellFilePath test cfg id1 = Task.shellFilePath test cfg id2 -> id1 = id2.
Proof.
  unfold Task.shellFilePath, Task.shellFileName.
  set (src := if String.eqb cfg "argument" then _ else _).
  set (pfx := if test then ".test-" else ".").
  assert (Hname : forall n,
             pfx +:+ filepath.Base src +:+ "-" +:+ Go.itoa n +:+ ".sh"
             = (pfx +:+ filepath.Base src +:+ "-") +:+ (Go.itoa n +:+ ".sh"))
    by (intros n; now rewrite !append_assoc).
  assert (Hlen : forall n, (3 <= String.length (Go.itoa n +:+ ".sh"))%nat)
    by (intros n; rewrite length_append; cbn; lia).
  pose proof (Hlen id1) as Hlen1. pose proof (Hlen id2) as Hlen2.
  rewrite !Hname, !Join_pair by (rewrite length_append; lia).
  set (name := pfx +:+ filepath.Base src +:+ "-").
  set (dir := if String.eqb (filepath.Dir src) "" then "" else _).
  rewrite <- !(append_assoc dir name).
  destruct (Clean_app_tail (dir +:+ name)) as [cleaned Hclean].
  assert (Hfree : forall n, filepath.sepFree (Go.itoa n +:+ ".sh") = true)
    by (intros n; rewrite sepFree_app, itoa_sepFree; reflexivity).
  rewrite !Hclean by auto.
  intros Heq. apply String.app_inj in Heq. apply append_inj_r in Heq.
  now apply itoa_inj.
Qed.

(** ** The ids of a batch *)

Lemma wrap64_add_l (a b : Z) : Go.wrap64 (Go.wrap64 a + b) = Go.wrap64 (a + b).
Proof.
  unfold Go.wrap64. f_equal.
  replace ((a + 2 ^ 63) mod 2 ^ 64 - 2 ^ 63 + b + 2 ^ 63)
    with ((a + 2 ^ 63) mod 2 ^ 64 + b) by lia.
  rewrite Zplus_mod_idemp_l. f_equal. lia.
Qed.

(** Fewer than 2^64 consecutive ids do not meet, wrap-around or not. *)
Lemma wrap64_add_inj (n k1 k2 : Z) :
  0 <= k1 < 2 ^ 64 -> 0 <= k2 < 2 ^ 64 ->
  Go.wrap64 (n + k1) = Go.wrap64 (n + k2) -> k1 = k2.
Proof.
  unfold Go.wrap64. intros H1 H2 Heq.
  assert (Hmod : (n + k1 + 2 ^ 63) mod 2 ^ 64 = (n + k2 + 2 ^ 63) mod 2 ^ 64) by lia.
  pose proof (Z.div_mod (n + k1 + 2 ^ 63) (2 ^ 64) ltac:(lia)) as D1.
  pose proof (Z.div_mod (n + k2 + 2 ^ 63) (2 ^ 64) ltac:(lia)) as D2.
  rewrite Hmod in D1.
  set (q1 := (n + k1 + 2 ^ 63) / 2 ^ 64) in *.
  set (q2 := (n + k2 + 2 ^ 63) / 2 ^ 64) in *.
  assert (k1 - k2 = 2 ^ 64 * (q1 - q2)) by lia.
  assert (q1 - q2 = 0) by lia. lia.
Qed.

(** A job that is not in the batch is not touched. *)
Lemma Task_addJobs_untouched `{Platform Task.job} (cfg : string) (jobs : list nat)
    (q : nat) :
  forall (w w' : Task.World) (r : Go.result error),
    Task.addJobs cfg jobs w = (w', r) ->
    ~ In q jobs ->
    Task.heap w' !! q = Task.heap w !! q.
Proof.
  induction jobs as [|p jobs IH]; intros w w' r Hrun Hq; cbn in Hrun.
  - now injection Hrun as <- _.
  - destruct (Task.addJob cfg p w) as [w1 r1] eqn:Hstep.
    assert (Hne : p <> q) by (intros ->; apply Hq; now left).
    assert (H1 : Task.heap w1 !! q = Task.heap w !! q).
    { destruct r1 as [|e|].
      - destruct (Task_addJob_Ok _ _ _ _ Hstep)
          as (j & j' & en & _ & _ & _ & _ & _ & Hheap & _).
        rewrite Hheap. now apply lookup_insert_ne.
      - destruct (Task_addJob_Err _ _ _ _ _ Hstep)
          as (j & j' & _ & _ & _ & _ & Hheap & _).
        rewrite Hheap. now apply lookup_insert_ne.
      - now destruct (Task_addJob_Panic _ _ _ _ Hstep) as [_ ->]. }
    destruct r1; [|injection Hrun as <- _; exact H1..].
    rewrite <- H1. apply (IH _ _ _ Hrun). intros Hin. apply Hq. now right.
Qed.

(** In a batch without repetition that went through, the job at position
    [k] holds the [k+1]-th id after the table's last one, and the path made
    of the source and that id. *)
Lemma Task_addJobs_ids `{Platform Task.job} (cfg : string) (jobs : list nat) :
  forall (w w' : Task.World),
    Task.addJobs cfg jobs w = (w', Go.Ok) ->
    NoDup jobs ->
    forall k p,
      nth_error jobs k = Some p ->
      exists j,
        Task.heap w' !! p = Some j
        /\ Task.id j
           = Go.wrap64 (cron.nextID (Task.Cron (Task.self w)) + (Z.of_nat k + 1))
        /\ Task.shellFile j
           = Task.shellFilePath (Task.testMode (Task.self w)) cfg (Task.id j).
Proof.
  induction jobs as [|q jobs IH]; intros w w' Hrun Hnodup k p Hk.
  - destruct k; discriminate.
  - cbn in Hrun. destruct (Task.addJob cfg q w) as [w1 r1] eqn:Hstep.
    destruct r1; try discriminate.
    destruct (Task_addJob_Ok _ _ _ _ Hstep)
      as (j & j' & en & _ & _ & _ & Hself & _ & Hheap & _ & _ & Hid & Hpath & _).
    inversion Hnodup as [|? ? Hnotin Hnodup']; subst.
    rewrite list_elem_of_In in Hnotin.
    destruct k as [|k]; cbn in Hk.
    + injection Hk as <-. exists j'.
      rewrite (Task_addJobs_untouched _ _ _ _ _ _ Hrun Hnotin), Hheap, lookup_insert_eq.
      split; [reflexivity|]. split; [|exact Hpath].
      rewrite Hid. f_equal; lia.
    + destruct (IH _ _ Hrun Hnodup' k p Hk) as (jp & Hp & Hidp & Hpathp).
      exists jp. split; [exact Hp|].
      rewrite Hself in Hidp, Hpathp. cbn in Hidp, Hpathp.
      split; [|exact Hpathp].
      rewrite Hidp, wrap64_add_l. f_equal; lia.
Qed.

(** C7.  The job that [createCronJob] registers holds the id the cron table
    assigned, and the path of its shell file is the join of the directory of
    the source with a name made of a dot (".test-" in test mode), the base
    name of the source, a dash, the id in decimal and ".sh"; the source is
    the config file, or "argument" in the temporary directory when the jobs
    came from the command line.  For one source the path tells the id, so that
    two jobs of a batch, which hold different ids, hold different paths. *)
Theorem shellFile_path_of_source_and_id (P : Platform Task.job) :
  (forall (cfg : string) (p : nat) (w w' : Task.World),
      Task.createCronJob cfg p w = (w', Go.Ok) ->
      exists j en,
        Task.heap w' !! p = Some j
        /\ In en (cron.entries (Task.Cron (Task.self w')))
        /\ cron.inner (cron.Job en) = p
        /\ cron.ID en = Task.id j
        /\ let src := if String.eqb cfg "argument"
                      then filepath.Join [TempDir; "argument"] else cfg in
           Task.shellFile j
           = filepath.Join
               [filepath.Dir src;
                (if Task.testMode (Task.self w) then ".test-" else ".")
                  +:+ filepath.Base src +:+ "-" +:+ Go.itoa (Task.id j) +:+ ".sh"])
  /\ (forall (test : bool) (cfg : string) (id1 id2 : Z),
         id1 <> id2 ->
         Task.shellFilePath test cfg id1 <> Task.shellFilePath test cfg id2)
  /\ (forall (cfg : string) (jobs : list nat) (w w' : Task.World),
         Task.AddJob cfg jobs w = (w', Go.Ok) ->
         NoDup jobs ->
         Z.of_nat (length jobs) < 2 ^ 64 ->
         forall p1 p2 j1 j2,
           In p1 jobs -> In p2 jobs -> p1 <> p2 ->
           Task.heap w' !! p1 = Some j1 ->
           Task.heap w' !! p2 = Some j2 ->
           Task.shellFile j1 <> Task.shellFile j2).
Proof.
  split; [|split].
  - intros cfg p w w' Hrun.
    destruct (Task.heap w !! p) as [j|] eqn:Hp.
    + rewrite (Task_createCronJob_eq cfg p w j Hp) in Hrun.
      destruct (cron.Parse (Task.Schedule j)); [discriminate|].
      injection Hrun as <-. do 2 eexists.
      cbn [Task.heap Task.self Task.Cron Task.setCron cron.entries].
      split; [apply lookup_insert_eq|].
      split; [apply in_or_app; right; left; reflexivity|].
      repeat split.
    + unfold Task.createCronJob in Hrun. rewrite Hp in Hrun. discriminate.
  - intros test cfg id1 id2 Hne Heq. apply Hne. exact (shellFilePath_inj _ _ _ _ Heq).
  - intros cfg jobs w w' Hrun Hnodup Hlen p1 p2 j1 j2 Hin1 Hin2 Hne Hj1 Hj2 Heq.
    unfold Task.AddJob in Hrun.
    destruct (Task.addJobs cfg jobs w) as [w2 [|e|]] eqn:Hloop; try discriminate.
    injection Hrun as <-. cbn [Task.heap Task.onSelf] in Hj1, Hj2.
    apply In_nth_error in Hin1 as [k1 Hk1]. apply In_nth_error in Hin2 as [k2 Hk2].
    destruct (Task_addJobs_ids cfg jobs w w2 Hloop Hnodup k1 p1 Hk1)
      as (j1' & Hj1' & Hid1 & Hpath1).
    destruct (Task_addJobs_ids cfg jobs w w2 Hloop Hnodup k2 p2 Hk2)
      as (j2' & Hj2' & Hid2 & Hpath2).
    replace j1' with j1 in * by congruence. replace j2' with j2 in * by congruence.
    rewrite Hpath1, Hpath2 in Heq. apply shellFilePath_inj in Heq.
    rewrite Hid1, Hid2 in Heq.
    assert (Hk1' : (k1 < length jobs)%nat) by (apply nth_error_Some; congruence).
    assert (Hk2' : (k2 < length jobs)%nat) by (apply nth_error_Some; congruence).
    apply wrap64_add_inj in Heq; [|lia..].
    assert (k1 = k2) by lia. subst k2. congruence.
Qed.

Lemma shellFile_path_of_source_and_id_witness :
  exists w' j1 j2,
    Task.AddJob (H := Demo.platform) "argument" [1; 2]%nat Demo.world = (w', Go.Ok)
    /\ Task.heap w' !! 1%nat = Some j1
    /\ Task.heap w' !! 2%nat = Some j2
    /\ Task.shellFile j1 = "/tmp/.argument-1.sh"
    /\ Task.shellFile j2 = "/tmp/.argument-2.sh"
    /\ Task.shellFile j1 <> Task.shellFile j2.
Proof.
  destruct (Task.AddJob (H := Demo.platform) "argument" [1; 2]%nat Demo.world)
    as [w' r] eqn:Hrun.
  assert (Hr : r = Go.Ok) by (vm_compute in Hrun; congruence). subst r.
  assert (Hheap : exists j1 j2,
             Task.heap w' !! 1%nat = Some j1 /\ Task.heap w' !! 2%nat = Some j2
             /\ Task.shellFile j1 = "/tmp/.argument-1.sh"
             /\ Task.shellFile j2 = "/tmp/.argument-2.sh").
  { vm_compute in Hrun. injection Hrun as <-. do 2 eexists.
    repeat split; vm_compute; reflexivity. }
  destruct Hheap as (j1 & j2 & Hj1 & Hj2 & Hs1 & Hs2).
  exists w', j1, j2. repeat split; try assumption.
  assert (Hnodup : NoDup [1; 2]%nat)     by (apply NoDup_cons; split; [intros Hin%list_elem_of_In; cbn in Hin; lia
                                  | apply NoDup_singleton]).
  assert (Hlen : Z.of_nat (length [1; 2]%nat) < 2 ^ 64) by (vm_compute; reflexivity).
  apply (proj2 (proj2 (shellFile_path_of_source_and_id Demo.platform))
           "argument" [1; 2]%nat Demo.world w' Hrun Hnodup Hlen 1%nat 2%nat j1 j2).
  - now left.
  - right; now left.
  - discriminate.
  - exact Hj1.
  - exact Hj2.
Defined.

(* ===================================================================== *)
(** * Part III: further properties of the code                            *)
(* ===================================================================== *)

(** ** truncateText, beyond its normal use *)

Lemma prefix_append (a b : string) : String.prefix a (a +:+ b) = true.
Proof.
  induction a as [|x a IH]; [now destruct b|].
  rewrite append_cons. cbn. destruct (ascii_dec x x); [exact IH|contradiction].
Qed.

(** X1.  [truncateText] panics exactly on a negative [max]: the slice
    [s[:max]] is then out of range whatever the string, while for
    [0 <= max] the call always returns. *)
Theorem truncateText_panics_iff (s : string) (max : Z) :
  truncateText s max = None <-> max < 0.
Proof.
  unfold truncateText, Go.len. split.
  - destruct (Z.geb_spec max (Z.of_nat (String.length s))); [discriminate|].
    destruct (Z.ltb_spec max 0); [trivial|discriminate].
  - intros Hneg.
    destruct (Z.geb_spec max (Z.of_nat (String.length s))); [lia|].
    destruct (Z.ltb_spec max 0); [reflexivity|lia].
Qed.

(** X2.  What [truncateText] returns is never longer than [max + 3] bytes
    nor more than two bytes longer than the string, and it starts with the
    first [max] bytes of the string (with the whole string when that is
    shorter). *)
Theorem truncateText_bounded (s r : string) (max : Z) :
  truncateText s max = Some r ->
  Go.len r <= max + 3
  /\ Go.len r <= Go.len s + 2
  /\ String.prefix (substring 0 (Z.to_nat max) s) r = true.
Proof.
  unfold truncateText, Go.len.
  destruct (Z.geb_spec max (Z.of_nat (String.length s))) as [Hge|Hlt].
  - intros [= <-]. repeat split; try lia. apply prefix_substring_0.
  - destruct (Z.ltb_spec max 0); [discriminate|]. intros [= <-].
    rewrite length_append, length_substring_0 by lia. cbn [String.length].
    repeat split; try lia. apply prefix_append.
Qed.

Lemma truncateText_bounded_witness :
  truncateText "sleep 5 && echo done" 5 = Some "sleep..."
  /\ Go.len "sleep..." <= 5 + 3.
Proof.
  split; [reflexivity|].
  apply (truncateText_bounded "sleep 5 && echo done" "sleep..." 5). reflexivity.
Defined.

(** ** [AddJob]: what a batch leaves *)

(** A job that is added, with its cron entry and its log record spelled
    out. *)
Lemma Task_addJob_Ok_record `{Platform Task.job} (cfg : string) (p : nat)
    (w w' : Task.World) :
  Task.addJob cfg p w = (w', Go.Ok) ->
  exists j text,
    Task.heap w !! p = Some j
    /\ cron.Parse (Task.Schedule j) = None
    /\ truncateText (Task.Command j) 40 = Some text
    /\ Task.Cron (Task.self w')
       = {| cron.entries :=
              cron.entries (Task.Cron (Task.self w))
                ++ [{| cron.ID := Go.wrap64 (cron.nextID (Task.Cron (Task.self w)) + 1);
                       cron.Schedule := Task.Schedule j;
                       cron.Job := cron.Then (Task.jobWrappers (Task.RunningMode j)) p |}];
            cron.nextID := Go.wrap64 (cron.nextID (Task.Cron (Task.self w)) + 1);
            cron.running := cron.running (Task.Cron (Task.self w)) |}
    /\ Task.logged w'
       = Task.logged w
           ++ [LogInfo "add job" [("schedule", Task.Schedule j); ("command", text)]].
Proof.
  intros Hrun. destruct (Task.heap w !! p) as [j|] eqn:Hp.
  - exists j. destruct (Task_addJob_eq cfg p w j Hp) as (text & Htext & Heq).
    exists text. rewrite Heq in Hrun.
    destruct (String.eqb (Task.Schedule j) ""); [discriminate|].
    destruct (String.eqb (Task.Command j) ""); [discriminate|].
    destruct (makeLoggerError _); [discriminate|].
    destruct (cron.Parse (Task.Schedule j)); [discriminate|].
    injection Hrun as <-. repeat split; auto.
  - unfold Task.addJob in Hrun. rewrite Hp in Hrun. discriminate.
Qed.

(** A job that fails, by the error it returns: the checks come in the order
    schedule, command, logger, parser, and the job is left on the heap with
    the fields the check looked at. *)
Lemma Task_addJob_Err_class `{Platform Task.job} (cfg : string) (p : nat)
    (w w' : Task.World) (e : error) :
  Task.addJob cfg p w = (w', Go.Err e) ->
  exists j,
    Task.heap w' !! p = Some j
    /\ match e with
       | ScheduleRequired => Task.Schedule j = ""
       | CommandRequired s =>
           s = Task.Schedule j /\ Task.Schedule j <> "" /\ Task.Command j = ""
       | LoggerError m =>
           Task.Schedule j <> "" /\ Task.Command j <> ""
           /\ makeLoggerError j = Some m
       | InvalidSchedule s cause =>
           s = Task.Schedule j /\ Task.Schedule j <> "" /\ Task.Command j <> ""
           /\ cron.Parse s = Some cause
       end.
Proof.
  intros Hrun. destruct (Task.heap w !! p) as [j|] eqn:Hp.
  - destruct (Task_addJob_eq cfg p w j Hp) as (text & _ & Heq).
    rewrite Heq in Hrun.
    destruct (String.eqb_spec (Task.Schedule j) "") as [Hs|Hs].
    { injection Hrun as <- <-. now exists j. }
    destruct (String.eqb_spec (Task.Command j) "") as [Hc|Hc].
    { injection Hrun as <- <-. now exists j. }
    destruct (makeLoggerError _) as [m|] eqn:Hm.
    { injection Hrun as <- <-. eexists. cbn [Task.heap].
      split; [apply lookup_insert_eq|]. cbn. auto. }
    destruct (cron.Parse (Task.Schedule j)) as [cause|] eqn:Hparse; [|discriminate].
    injection Hrun as <- <-. eexists. cbn [Task.heap].
    split; [apply lookup_insert_eq|]. cbn. auto.
  - unfold Task.addJob in Hrun. rewrite Hp in Hrun. discriminate.
Qed.

(** The records a batch logs and the entries it appends, however it ends:
    each entry was accepted by the parser and stands for a job that holds
    the entry's schedule and a command. *)
Lemma Task_addJobs_entries `{Platform Task.job} (cfg : string) (jobs : list nat) :
  forall (w w' : Task.World) (r : Go.result error),
    Task.addJobs cfg jobs w = (w', r) ->
    exists news,
      cron.entries (Task.Cron (Task.self w'))
      = cron.entries (Task.Cron (Task.self w)) ++ news
      /\ forall en, In en news ->
           cron.Parse (cron.Schedule en) = None
           /\ exists j, Task.heap w' !! cron.inner (cron.Job en) = Some j
                        /\ Task.Schedule j = cron.Schedule en
                        /\ Task.Schedule j <> "" /\ Task.Command j <> "".
Proof.
  induction jobs as [|p jobs IH]; intros w w' r Hrun; cbn in Hrun.
  - injection Hrun as <- _. exists []. rewrite app_nil_r. split; [reflexivity|].
    intros en [].
  - destruct (Task.addJob cfg p w) as [w1 r1] eqn:Hstep.
    destruct r1 as [|e|].
    + destruct (Task_addJob_Ok_record _ _ _ _ Hstep)
        as (j & text & Hp & Hparse & _ & Hcron & _).
      destruct (Task_addJob_Ok _ _ _ _ Hstep)
        as (j0 & j' & en0 & Hp0 & Hs & Hc & _ & _ & Hheap & Hs' & Hc' & _).
      replace j0 with j in * by congruence.
      destruct (IH _ _ _ Hrun) as (news & Hnews & Hvalid).
      pose proof (Task_addJobs_frame _ _ _ _ _ Hrun) as (_ & _ & Hkeep & _).
      eexists (_ :: news). rewrite Hnews, Hcron. cbn [cron.entries].
      rewrite <- app_assoc. split; [reflexivity|].
      intros en [<-|Hen]; [|auto]. cbn [cron.Schedule cron.Job cron.inner].
      split; [exact Hparse|].
      destruct (Hkeep p j') as (j2 & Hj2 & Hs2 & Hc2);
        [rewrite Hheap; apply lookup_insert_eq|].
      exists j2. split; [exact Hj2|]. rewrite Hs2, Hc2, Hs', Hc'. auto.
    + injection Hrun as <- _.
      destruct (Task_addJob_Err _ _ _ _ _ Hstep) as (j & j' & _ & Hself & _).
      exists []. rewrite Hself, app_nil_r. split; [reflexivity|]. intros en [].
    + injection Hrun as <- _.
      destruct (Task_addJob_Panic _ _ _ _ Hstep) as [_ ->].
      exists []. rewrite app_nil_r. split; [reflexivity|]. intros en [].
Qed.

Lemma Task_addJobs_logged `{Platform Task.job} (cfg : string) (jobs : list nat) :
  forall (w w' : Task.World),
    Task.addJobs cfg jobs w = (w', Go.Ok) ->
    exists recs,
      Task.logged w' = Task.logged w ++ recs
      /\ length recs = length jobs
      /\ forall rec, In rec recs -> exists kv, rec = LogInfo "add job" kv.
Proof.
  induction jobs as [|p jobs IH]; intros w w' Hrun; cbn in Hrun.
  - injection Hrun as <-. exists []. rewrite app_nil_r. repeat split; auto.
    intros rec [].
  - destruct (Task.addJob cfg p w) as [w1 r1] eqn:Hstep.
    destruct r1; try discriminate.
    destruct (Task_addJob_Ok_record _ _ _ _ Hstep) as (j & text & _ & _ & _ & _ & Hlog).
    destruct (IH _ _ Hrun) as (recs & Hrecs & Hlen & Hall).
    eexists (_ :: recs). rewrite Hrecs, Hlog, <- app_assoc.
    split; [reflexivity|]. split; [cbn; now rewrite Hlen|].
    intros rec [<-|Hin]; eauto.
Qed.

(** X3.  A batch that [AddJob] accepts is appended to [Jobs] as a whole and
    in order; the cron table gets one entry per job in the same order, and
    one "add job" record per job is logged. *)
Theorem AddJob_success_appends (P : Platform Task.job) (cfg : string)
    (jobs : list nat) (w w' : Task.World) :
  Task.AddJob cfg jobs w = (w', Go.Ok) ->
  Task.Jobs (Task.self w') = Task.Jobs (Task.self w) ++ jobs
  /\ (exists news,
         cron.entries (Task.Cron (Task.self w'))
         = cron.entries (Task.Cron (Task.self w)) ++ news
         /\ map (fun en => cron.inner (cron.Job en)) news = jobs)
  /\ (exists recs,
         Task.logged w' = Task.logged w ++ recs
         /\ length recs = length jobs
         /\ forall rec, In rec recs -> exists kv, rec = LogInfo "add job" kv).
Proof.
  unfold Task.AddJob. intros Hrun.
  destruct (Task.addJobs cfg jobs w) as [w1 [|e|]] eqn:Hloop; try discriminate.
  injection Hrun as <-.
  pose proof (Task_addJobs_frame _ _ _ _ _ Hloop) as (HJobs & _).
  destruct (Task_addJobs_Ok _ _ _ _ Hloop) as (Hnews & _).
  cbn [Task.self Task.onSelf Task.Jobs Task.setJobs Task.Cron Task.logged].
  rewrite HJobs. split; [reflexivity|]. split; [exact Hnews|].
  exact (Task_addJobs_logged cfg jobs w w1 Hloop).
Qed.

Lemma AddJob_success_appends_witness :
  exists w',
    Task.AddJob (H := Demo.platform) "/etc/cron/jobs.yaml" [2; 1]%nat Demo.world
    = (w', Go.Ok)
    /\ Task.Jobs (Task.self w') = [2; 1]%nat.
Proof.
  destruct (Task.AddJob (H := Demo.platform) "/etc/cron/jobs.yaml" [2; 1]%nat Demo.world)
    as [w' r] eqn:Hrun.
  assert (Hr : r = Go.Ok) by (vm_compute in Hrun; congruence). subst r.
  exists w'. split; [reflexivity|].
  destruct (AddJob_success_appends Demo.platform _ _ _ _ Hrun) as (HJobs & _).
  exact HJobs.
Defined.

(** X5.  The error of [AddJob] tells what is wrong with a job of the batch,
    which is left on the heap: "schedule required" for an empty schedule,
    whatever the command; "command required", carrying the schedule, for an
    empty command under a schedule; the logger's error for a job that passed
    both checks; "invalid schedule", carrying the schedule and the parser's
    error, for a job whose schedule the parser rejects. *)
Theorem AddJob_error_names_job (P : Platform Task.job) (cfg : string)
    (jobs : list nat) (w w' : Task.World) (e : error) :
  Task.AddJob cfg jobs w = (w', Go.Err e) ->
  exists p j,
    In p jobs
    /\ Task.heap w' !! p = Some j
    /\ match e with
       | ScheduleRequired => Task.Schedule j = ""
       | CommandRequired s =>
           s = Task.Schedule j /\ Task.Schedule j <> "" /\ Task.Command j = ""
       | LoggerError m =>
           Task.Schedule j <> "" /\ Task.Command j <> ""
           /\ makeLoggerError j = Some m
       | InvalidSchedule s cause =>
           s = Task.Schedule j /\ Task.Schedule j <> "" /\ Task.Command j <> ""
           /\ cron.Parse s = Some cause
       end.
Proof.
  intros Hrun. apply Task_AddJob_not_Ok in Hrun; [|discriminate].
  destruct (Task_addJobs_split _ _ _ _ _ Hrun ltac:(discriminate))
    as (pre & p & post & w1 & -> & _ & Hp).
  destruct (Task_addJob_Err_class _ _ _ _ _ Hp) as (j & Hj & Hclass).
  exists p, j. split; [apply in_or_app; right; now left|]. auto.
Qed.

Lemma AddJob_error_names_job_witness :
  exists w' p j,
    Task.AddJob (H := Demo.platform) "argument" [1; 5; 4]%nat Demo.world
    = (w', Go.Err (InvalidSchedule "every day" "expected 5 to 6 fields"))
    /\ Task.heap w' !! p = Some j
    /\ Task.Schedule j = "every day".
Proof.
  destruct (Task.AddJob (H := Demo.platform) "argument" [1; 5; 4]%nat Demo.world)
    as [w' r] eqn:Hrun.
  assert (He : r = Go.Err (InvalidSchedule "every day" "expected 5 to 6 fields"))
    by (vm_compute in Hrun; congruence).
  subst r.
  destruct (AddJob_error_names_job Demo.platform _ _ _ _ _ Hrun)
    as (p & j & _ & Hj & Hs & _).
  exists w', p, j. split; [reflexivity|]. split; [exact Hj|]. now symmetry.
Defined.

(** X6.  [AddJob] keeps the jobs it registers well-formed, whether the batch
    goes through or not: afterwards every job of [Jobs] has a schedule and a
    command, and every entry of the cron table carries a schedule the parser
    accepted and stands for a job that holds that schedule and a command,
    provided that was so before (as it is for a new task). *)
Theorem AddJob_keeps_registered_valid (P : Platform Task.job) (cfg : string)
    (jobs : list nat) (w w' : Task.World) (r : Go.result error) :
  (forall q, In q (Task.Jobs (Task.self w)) ->
     exists j, Task.heap w !! q = Some j
               /\ Task.Schedule j <> "" /\ Task.Command j <> "") ->
  (forall en, In en (cron.entries (Task.Cron (Task.self w))) ->
     cron.Parse (cron.Schedule en) = None
     /\ exists j, Task.heap w !! cron.inner (cron.Job en) = Some j
                  /\ Task.Schedule j = cron.Schedule en
                  /\ Task.Schedule j <> "" /\ Task.Command j <> "") ->
  Task.AddJob cfg jobs w = (w', r) ->
  (forall q, In q (Task.Jobs (Task.self w')) ->
     exists j, Task.heap w' !! q = Some j
               /\ Task.Schedule j <> "" /\ Task.Command j <> "")
  /\ (forall en, In en (cron.entries (Task.Cron (Task.self w'))) ->
        cron.Parse (cron.Schedule en) = None
        /\ exists j, Task.heap w' !! cron.inner (cron.Job en) = Some j
                     /\ Task.Schedule j = cron.Schedule en
                     /\ Task.Schedule j <> "" /\ Task.Command j <> "").
Proof.
  intros HJ HE Hrun. unfold Task.AddJob in Hrun.
  destruct (Task.addJobs cfg jobs w) as [w1 r1] eqn:Hloop.
  pose proof (Task_addJobs_frame _ _ _ _ _ Hloop) as (HJobs & _ & Hkeep & _).
  destruct (Task_addJobs_entries _ _ _ _ _ Hloop) as (news & Hnews & Hvalid).
  assert (HJ1 : forall q, In q (Task.Jobs (Task.self w)) ->
                  exists j, Task.heap w1 !! q = Some j
                            /\ Task.Schedule j <> "" /\ Task.Command j <> "").
  { intros q Hq. destruct (HJ q Hq) as (j & Hj & Hs & Hc).
    destruct (Hkeep q j Hj) as (j' & Hj' & Hs' & Hc').
    exists j'. rewrite Hs', Hc'. auto. }
  assert (HE1 : forall en, In en (cron.entries (Task.Cron (Task.self w1))) ->
                  cron.Parse (cron.Schedule en) = None
                  /\ exists j, Task.heap w1 !! cron.inner (cron.Job en) = Some j
                               /\ Task.Schedule j = cron.Schedule en
                               /\ Task.Schedule j <> "" /\ Task.Command j <> "").
  { intros en. rewrite Hnews. intros [Hen|Hen]%in_app_or; [|auto].
    destruct (HE en Hen) as (Hparse & j & Hj & Hsch & Hs & Hc).
    split; [exact Hparse|].
    destruct (Hkeep _ j Hj) as (j' & Hj' & Hs' & Hc').
    exists j'. rewrite Hs', Hc'. auto. }
  destruct r1 as [|e|]; injection Hrun as <- _;
    cbn [Task.self Task.onSelf Task.Jobs Task.setJobs Task.Cron Task.heap];
    rewrite ?HJobs; split; auto.
  intros q [Hq|Hq]%in_app_or; [auto|].
  destruct (Task_addJobs_Ok _ _ _ _ Hloop) as ((news' & Hnews' & Hmap) & _).
  rewrite Hnews in Hnews'. apply app_inv_head in Hnews'. subst news'.
  rewrite <- Hmap in Hq. apply in_map_iff in Hq as (en & <- & Hen).
  destruct (Hvalid en Hen) as (_ & j & Hj & _ & Hs & Hc). eauto.
Qed.

Lemma AddJob_keeps_registered_valid_witness :
  exists w' r,
    Task.AddJob (H := Demo.platform) "argument" [1; 2; 4]%nat Demo.world = (w', r)
    /\ forall en, In en (cron.entries (Task.Cron (Task.self w'))) ->
         cron.Parse (Parser := Demo.parser) (cron.Schedule en) = None.
Proof.
  destruct (Task.AddJob (H := Demo.platform) "argument" [1; 2; 4]%nat Demo.world)
    as [w' r] eqn:Hrun.
  exists w', r. split; [reflexivity|].
  destruct (AddJob_keeps_registered_valid Demo.platform "argument" [1; 2; 4]%nat
              Demo.world w' r
              ltac:(intros q Hq; destruct Hq) ltac:(intros en Hen; destruct Hen) Hrun)
    as [_ HE].
  intros en Hen. apply HE, Hen.
Defined.

(** ** The ids of the cron table *)

(** X7.  Ids are handed out in registration order and never reused: when
    the entries of the cron table carry the ids 1, 2, 3, ... in order and the
    table's counter is their number (as in a new task), the same holds after
    [AddJob], whether the batch goes through or not, as long as the counter
    stays within the 64-bit range; the ids of the table are then pairwise
    distinct. *)
Theorem AddJob_ids_consecutive (P : Platform Task.job) (cfg : string)
    (jobs : list nat) (w w' : Task.World) (r : Go.result error) :
  map cron.ID (cron.entries (Task.Cron (Task.self w)))
  = map (fun k => Z.of_nat k + 1) (seq 0 (length (cron.entries (Task.Cron (Task.self w))))) ->
  cron.nextID (Task.Cron (Task.self w))
  = Z.of_nat (length (cron.entries (Task.Cron (Task.self w)))) ->
  Z.of_nat (length (cron.entries (Task.Cron (Task.self w))) + length jobs)
  <= Go.maxInt64 ->
  Task.AddJob cfg jobs w = (w', r) ->
  map cron.ID (cron.entries (Task.Cron (Task.self w')))
  = map (fun k => Z.of_nat k + 1) (seq 0 (length (cron.entries (Task.Cron (Task.self w')))))
  /\ cron.nextID (Task.Cron (Task.self w'))
     = Z.of_nat (length (cron.entries (Task.Cron (Task.self w'))))
  /\ List.NoDup (map cron.ID (cron.entries (Task.Cron (Task.self w')))).
Proof.
  intros Hids Hnext Hbound Hrun.
  assert (Hloop : exists w1,
             Task.addJobs cfg jobs w = (w1, r)
             /\ Task.Cron (Task.self w') = Task.Cron (Task.self w1)).
  { unfold Task.AddJob in Hrun.
    destruct (Task.addJobs cfg jobs w) as [w1 [|e|]]; injection Hrun as <- <-;
      eexists; split; reflexivity. }
  destruct Hloop as (w1 & Hloop & ->). clear Hrun.
  assert (Hinv : map cron.ID (cron.entries (Task.Cron (Task.self w1)))
                 = map (fun k => Z.of_nat k + 1)
                     (seq 0 (length (cron.entries (Task.Cron (Task.self w1)))))
                 /\ cron.nextID (Task.Cron (Task.self w1))
                    = Z.of_nat (length (cron.entries (Task.Cron (Task.self w1))))).
  { revert w Hids Hnext Hbound Hloop.
    induction jobs as [|p jobs IH]; intros w Hids Hnext Hbound Hloop; cbn in Hloop.
    - injection Hloop as <- _. auto.
    - destruct (Task.addJob cfg p w) as [w2 r2] eqn:Hstep.
      destruct r2 as [|e|].
      + destruct (Task_addJob_Ok_record _ _ _ _ Hstep) as (j & text & _ & _ & _ & Hcron & _).
        apply (IH w2); [| | |exact Hloop]; rewrite Hcron; cbn [cron.entries cron.nextID].
        * rewrite map_app, length_app, Nat.add_1_r, seq_S, map_app, Hids, Hnext.
          cbn [map length Nat.add cron.ID]. f_equal. f_equal.
          apply wrap64_small. unfold Go.minInt64, Go.maxInt64 in *. cbn [length] in Hbound.
          lia.
        * rewrite length_app, Hnext. cbn [length].
          rewrite wrap64_small; [lia|].
          unfold Go.minInt64, Go.maxInt64 in *. cbn [length] in Hbound. lia.
        * rewrite length_app. cbn [length] in *. lia.
      + injection Hloop as <- _.
        destruct (Task_addJob_Err _ _ _ _ _ Hstep) as (j & j' & _ & -> & _). auto.
      + injection Hloop as <- _.
        destruct (Task_addJob_Panic _ _ _ _ Hstep) as [_ ->]. auto. }
  destruct Hinv as [Hids1 Hnext1]. split; [exact Hids1|]. split; [exact Hnext1|].
  rewrite Hids1. apply Finite.Injective_map_NoDup; [|apply List.seq_NoDup].
  intros a b Hab. lia.
Qed.

Lemma AddJob_ids_consecutive_witness :
  exists w' r,
    Task.AddJob (H := Demo.platform) "argument" [1; 2; 5; 3]%nat Demo.world = (w', r)
    /\ List.NoDup (map cron.ID (cron.entries (Task.Cron (Task.self w')))).
Proof.
  destruct (Task.AddJob (H := Demo.platform) "argument" [1; 2; 5; 3]%nat Demo.world)
    as [w' r] eqn:Hrun.
  exists w', r. split; [reflexivity|].
  apply (AddJob_ids_consecutive Demo.platform "argument" [1; 2; 5; 3]%nat Demo.world w' r
           ltac:(reflexivity) ltac:(reflexivity) ltac:(vm_compute; discriminate) Hrun).
Defined.

(** ** Batches compose *)

(** The loop of [AddJob] does not look at the [Jobs] field. *)
Lemma Task_addJob_setJobs `{Platform Task.job} (cfg : string) (p : nat)
    (js : list nat) (w : Task.World) :
  Task.addJob cfg p (Task.onSelf (Task.setJobs js) w)
  = (Task.onSelf (Task.setJobs js) (fst (Task.addJob cfg p w)),
     snd (Task.addJob cfg p w)).
Proof.
  destruct (Task.heap w !! p) as [j|] eqn:Hp.
  - destruct (Task_addJob_eq cfg p w j Hp) as (text & Htext & ->).
    destruct (Task_addJob_eq cfg p (Task.onSelf (Task.setJobs js) w) j Hp)
      as (text' & Htext' & ->).
    replace text' with text by congruence.
    destruct (String.eqb (Task.Schedule j) ""); [reflexivity|].
    destruct (String.eqb (Task.Command j) ""); [reflexivity|].
    destruct (makeLoggerError _); [reflexivity|].
    destruct (cron.Parse (Task.Schedule j)); reflexivity.
  - unfold Task.addJob. cbn [Task.heap Task.onSelf]. now rewrite Hp.
Qed.

Lemma Task_addJobs_setJobs `{Platform Task.job} (cfg : string) (jobs js : list nat) :
  forall w : Task.World,
    Task.addJobs cfg jobs (Task.onSelf (Task.setJobs js) w)
    = (Task.onSelf (Task.setJobs js) (fst (Task.addJobs cfg jobs w)),
       snd (Task.addJobs cfg jobs w)).
Proof.
  induction jobs as [|p jobs IH]; intros w; [reflexivity|].
  cbn [Task.addJobs]. rewrite Task_addJob_setJobs.
  destruct (Task.addJob cfg p w) as [w1 [|e|]]; cbn [fst snd]; [apply IH|reflexivity..].
Qed.

Lemma Task_addJobs_app `{Platform Task.job} (cfg : string) (a b : list nat) :
  forall w : Task.World,
    Task.addJobs cfg (a ++ b) w
    = match Task.addJobs cfg a w with
      | (w1, Go.Ok) => Task.addJobs cfg b w1
      | r => r
      end.
Proof.
  induction a as [|p a IH]; intros w; [reflexivity|].
  cbn [Task.addJobs app].
  destruct (Task.addJob cfg p w) as [w1 [|e|]]; [apply IH|reflexivity..].
Qed.

(** X4.  Batches compose: [AddJob] accepts the concatenation of two batches
    exactly when it accepts the first and then, on the world that leaves,
    the second; the world left is the same either way. *)
Theorem AddJob_app (P : Platform Task.job) (cfg : string) (a b : list nat)
    (w w' : Task.World) :
  Task.AddJob cfg (a ++ b) w = (w', Go.Ok)
  <-> exists w1, Task.AddJob cfg a w = (w1, Go.Ok)
                 /\ Task.AddJob cfg b w1 = (w', Go.Ok).
Proof.
  unfold Task.AddJob. rewrite Task_addJobs_app.
  destruct (Task.addJobs cfg a w) as [wa ra] eqn:Ha.
  pose proof (Task_addJobs_frame _ _ _ _ _ Ha) as (HJa & _).
  destruct ra as [|e|].
  - assert (Hb : forall js,
               Task.addJobs cfg b (Task.onSelf (Task.setJobs js) wa)
               = (Task.onSelf (Task.setJobs js) (fst (Task.addJobs cfg b wa)),
                  snd (Task.addJobs cfg b wa)))
      by (intros js; apply Task_addJobs_setJobs).
    destruct (Task.addJobs cfg b wa) as [wb rb] eqn:Hbrun.
    pose proof (Task_addJobs_frame _ _ _ _ _ Hbrun) as (HJb & _).
    cbn [fst snd] in Hb.
    change (Task.onSelf (fun t => Task.setJobs (Task.Jobs t ++ a) t) wa)
      with (Task.onSelf (Task.setJobs (Task.Jobs (Task.self wa) ++ a)) wa).
    split.
    + intros Hrun. destruct rb; try discriminate. injection Hrun as <-.
      eexists. split; [reflexivity|]. rewrite Hb.
      unfold Task.onSelf, Task.setJobs. cbn. rewrite HJb, app_assoc. reflexivity.
    + intros (w1 & Hw1 & Hrun). injection Hw1 as <-. rewrite Hb in Hrun.
      destruct rb; try discriminate. injection Hrun as <-.
      unfold Task.onSelf, Task.setJobs. cbn. rewrite HJb, app_assoc. reflexivity.
  - split; [discriminate|]. intros (w1 & Hw1 & _). discriminate.
  - split; [discriminate|]. intros (w1 & Hw1 & _). discriminate.
Qed.

Lemma AddJob_app_witness :
  exists w1 w',
    Task.AddJob (H := Demo.platform) "argument" [1]%nat Demo.world = (w1, Go.Ok)
    /\ Task.AddJob (H := Demo.platform) "argument" [2; 3]%nat w1 = (w', Go.Ok)
    /\ Task.AddJob (H := Demo.platform) "argument" ([1] ++ [2; 3])%nat Demo.world
       = (w', Go.Ok).
Proof.
  destruct (Task.AddJob (H := Demo.platform) "argument" ([1] ++ [2; 3])%nat Demo.world)
    as [w' r] eqn:Hrun.
  assert (Hr : r = Go.Ok) by (vm_compute in Hrun; congruence). subst r.
  destruct (proj1 (AddJob_app Demo.platform "argument" [1]%nat [2; 3]%nat Demo.world w')
              Hrun) as (w1 & Ha & Hb).
  exists w1, w'. auto.
Defined.

(** ** [Stop]: when it returns and what it logs *)

Lemma Err_DeadlineExceeded (ctx : context.Context) (t : Z) :
  context.Err ctx t = Some context.DeadlineExceeded -> context.deadline ctx <= t.
Proof.
  unfold context.Err. destruct (context.parentDone ctx) as [tp|].
  - destruct ((tp <=? t) && (tp <=? context.deadline ctx)); [discriminate|].
    destruct (Z.leb_spec (context.deadline ctx) t); [trivial|discriminate].
  - destruct (Z.leb_spec (context.deadline ctx) t); [trivial|discriminate].
Qed.

Lemma Err_Canceled (ctx : context.Context) (t : Z) :
  context.Err ctx t = Some context.Canceled ->
  exists tp, context.parentDone ctx = Some tp /\ tp <= t /\ tp <= context.deadline ctx.
Proof.
  unfold context.Err. destruct (context.parentDone ctx) as [tp|].
  - destruct (Z.leb_spec tp t); destruct (Z.leb_spec tp (context.deadline ctx));
      cbn; try (destruct (context.deadline ctx <=? t); discriminate).
    intros _. exists tp. auto.
  - destruct (context.deadline ctx <=? t); discriminate.
Qed.

(** The loop of [stopImpl]: it is left after a whole number of sleeps; on a
    forced quit a job is in flight and the deadline has passed; otherwise no
    job is in flight or the parent context was cancelled. *)
Lemma Task_waitRunning_spec (tl : Timeline) (ctx : context.Context) (fuel : nat) :
  forall now t forced,
    Task.waitRunning fuel tl ctx now = Some (t, forced) ->
    (exists k : nat, t = now + Z.of_nat k * (100 * time.Second))
    /\ (forced = true ->
        0 < runningAt tl t /\ context.Err ctx t = Some context.DeadlineExceeded)
    /\ (forced = false ->
        runningAt tl t <= 0 \/ context.Err ctx t = Some context.Canceled).
Proof.
  induction fuel as [|fuel IH]; intros now t forced Hwait; [discriminate|].
  cbn [Task.waitRunning] in Hwait.
  destruct (Z.gtb_spec (runningAt tl now) 0) as [Hrun|Hrun].
  - destruct (context.Err ctx now) as [[|]|] eqn:Herr.
    + injection Hwait as <- <-. split; [exists 0%nat; lia|].
      split; [discriminate|intros _; right; exact Herr].
    + injection Hwait as <- <-. split; [exists 0%nat; lia|].
      split; [intros _; split; [lia|exact Herr]|discriminate].
    + destruct (IH _ _ _ Hwait) as ((k & ->) & Hrest).
      split; [exists (S k); lia|exact Hrest].
  - injection Hwait as <- <-. split; [exists 0%nat; lia|].
    split; [discriminate|]. intros _. left. lia.
Qed.

Lemma TaskCmds_waitRunning_spec (tl : Timeline) (ctx : context.Context) (fuel : nat) :
  forall now t forced,
    TaskCmds.waitRunning fuel tl ctx now = Some (t, forced) ->
    (exists k : nat, t = now + Z.of_nat k * (100 * time.Second))
    /\ (forced = true -> context.Err ctx t <> None)
    /\ (forced = false -> runningAt tl t <= 0 /\ context.Err ctx t = None).
Proof.
  induction fuel as [|fuel IH]; intros now t forced Hwait; [discriminate|].
  cbn [TaskCmds.waitRunning] in Hwait.
  destruct (context.Err ctx now) as [e|] eqn:Herr.
  - injection Hwait as <- <-. split; [exists 0%nat; lia|].
    split; [intros _; congruence|discriminate].
  - destruct (Z.gtb_spec (runningAt tl now) 0) as [Hrun|Hrun].
    + destruct (IH _ _ _ Hwait) as ((k & ->) & Hrest).
      split; [exists (S k); lia|exact Hrest].
    + injection Hwait as <- <-. split; [exists 0%nat; lia|].
      split; [discriminate|]. intros _. split; [lia|exact Herr].
Qed.

(** [stopImpl], read backwards: how its loop ended, the log and the task
    it leaves. *)
Lemma Task_stopImpl_inv (fuel : nat) (tl : Timeline) (ctx : context.Context)
    (now t : Z) (w w' : Task.World) (r : Go.result error) :
  Task.stopImpl fuel tl ctx now w = Some (w', t, r) ->
  exists forced,
    Task.waitRunning fuel tl ctx now = Some (t, forced)
    /\ Task.logged w'
       = Task.logged w
           ++ (if forced : bool then [LogError "" "cron jobs force quiting" []] else [])
           ++ [LogInfo "all jobs quit" []]
    /\ Task.self w'
       = Task.setWg (Task.wg (Task.self w) - 1)
           (Task.setQuitSignalCtx
              (match Task.quitSignalCtx (Task.self w) with
               | Some _ => Some true
               | None => None
               end) (Task.self w)).
Proof.
  unfold Task.stopImpl.
  destruct (Task.waitRunning fuel tl ctx now) as [[t' forced]|]; [|discriminate].
  set (w0 := Task.log _ _).
  destruct (Task.deleteShellFiles (Task.Jobs (Task.self w0)) w0) as [w1 r1] eqn:Hdel.
  apply Task_deleteShellFiles_frame in Hdel as (Hself & _ & Hlog).
  unfold Task.wgDone. intros Hret. injection Hret as <- <- _.
  exists forced. split; [reflexivity|].
  cbn [Task.logged Task.self Task.onSelf]. rewrite Hlog, Hself. unfold w0.
  destruct w as [[J C st g q rp tm] h f l].
  destruct forced, q; cbn; rewrite <- ?app_assoc; split; reflexivity.
Qed.

(** [Stop] is [stopImpl] under the context it makes. *)
Lemma Task_Stop_inv (tl : Timeline) (now t : Z) (w w' : Task.World)
    (r : Go.result error) :
  Task.Stop tl now w = Some (w', t, r) ->
  let ctx := context.WithTimeout
               (if Task.testMode (Task.self w) then None else schedulerIdle tl)
               now (Task.stoppingTimeout (Task.self w)) in
  exists forced,
    Task.waitRunning (Task.roundsUntil ctx now) tl ctx now = Some (t, forced)
    /\ Task.logged w'
       = Task.logged w
           ++ (if forced : bool then [LogError "" "cron jobs force quiting" []] else [])
           ++ [LogInfo "all jobs quit" []]
    /\ Task.self w'
       = Task.setWg (Task.wg (Task.self w) - 1)
           (Task.setQuitSignalCtx
              (match Task.quitSignalCtx (Task.self w) with
               | Some _ => Some true
               | None => None
               end)
              (if Task.testMode (Task.self w) then Task.self w
               else Task.setCron (cron.Stop (Task.Cron (Task.self w))) (Task.self w))).
Proof.
  unfold Task.Stop, Task.stopTest.
  destruct (Task.testMode (Task.self w)) eqn:Htest; cbn zeta; intros Hstop;
    apply Task_stopImpl_inv in Hstop as (forced & Hwait & Hlog & Hself);
    exists forced; (split; [exact Hwait|]); (split; [exact Hlog|]); exact Hself.
Qed.

Lemma Task_deleteShellFiles_no_Err (jobs : list nat) :
  forall (w w' : Task.World) (r : Go.result error),
    Task.deleteShellFiles jobs w = (w', r) -> r = Go.Ok \/ r = Go.Panic.
Proof.
  induction jobs as [|p jobs IH]; intros w w' r Hdel; cbn in Hdel.
  - injection Hdel as _ <-. now left.
  - unfold Task.deleteShellFile in Hdel. destruct (Task.heap w !! p).
    + eapply IH, Hdel.
    + injection Hdel as _ <-. now right.
Qed.

Lemma Task_stopImpl_result (fuel : nat) (tl : Timeline) (ctx : context.Context)
    (now t : Z) (w w' : Task.World) (r : Go.result error) :
  (forall q, In q (Task.Jobs (Task.self w)) -> is_Some (Task.heap w !! q)) ->
  Task.stopImpl fuel tl ctx now w = Some (w', t, r) ->
  r = if Task.wg (Task.self w) - 1 <? 0 then Go.Panic else Go.Ok.
Proof.
  intros Halloc Hstop.
  destruct (Task_stopImpl_files _ _ _ _ _ _ _ _ Hstop) as (_ & _ & _ & Hall).
  destruct (Hall Halloc) as [Hok _].
  revert Hstop. unfold Task.stopImpl.
  destruct (Task.waitRunning fuel tl ctx now) as [[t' forced]|]; [|discriminate].
  match goal with
  | |- context [Task.deleteShellFiles ?js ?w0] =>
      destruct (Task.deleteShellFiles js w0) as [w1 r1] eqn:Hdel
  end.
  unfold Task.wgDone. intros Hret. injection Hret as _ _ Hr.
  destruct (Z.ltb_spec (Task.wg (Task.self w) - 1) 0) as [Hneg|Hpos];
    [|apply Hok; lia].
  destruct r as [|e|]; [pose proof (proj1 Hok eq_refl); lia| |reflexivity].
  exfalso. destruct (Task_deleteShellFiles_no_Err _ _ _ _ Hdel) as [->| ->];
    [|discriminate].
  destruct (_ <? 0); discriminate.
Qed.

Lemma Task_Stop_result (tl : Timeline) (now t : Z) (w w' : Task.World)
    (r : Go.result error) :
  (forall q, In q (Task.Jobs (Task.self w)) -> is_Some (Task.heap w !! q)) ->
  Task.Stop tl now w = Some (w', t, r) ->
  r = if Task.wg (Task.self w) - 1 <? 0 then Go.Panic else Go.Ok.
Proof.
  unfold Task.Stop, Task.stopTest. intros Halloc.
  destruct (Task.testMode (Task.self w)); intros Hstop;
    apply Task_stopImpl_result in Hstop; auto.
Qed.

Lemma TaskCmds_Stop_inv (tl : Timeline) (now t : Z) (w w' : TaskCmds.World)
    (r : Go.result error) :
  TaskCmds.Stop tl now w = Some (w', t, r) ->
  let c := context.WithTimeout None now (TaskCmds.stoppingTimeout (TaskCmds.self w)) in
  exists forced,
    TaskCmds.waitRunning (TaskCmds.roundsUntil c now) tl c now = Some (t, forced)
    /\ TaskCmds.logged w'
       = TaskCmds.logged w ++ (if forced : bool then [LogError "" "force quit" []] else [])
    /\ TaskCmds.wg (TaskCmds.self w') = TaskCmds.wg (TaskCmds.self w) - 1
    /\ TaskCmds.Jobs (TaskCmds.self w') = TaskCmds.Jobs (TaskCmds.self w)
    /\ r = if TaskCmds.wg (TaskCmds.self w) - 1 <? 0 then Go.Panic else Go.Ok.
Proof.
  unfold TaskCmds.Stop. destruct w as [[J C st g q d] h l]. cbv zeta.
  cbn [TaskCmds.self TaskCmds.onSelf TaskCmds.ctx TaskCmds.setCron TaskCmds.logged
       TaskCmds.stoppingTimeout TaskCmds.wg TaskCmds.Jobs].
  destruct q as [b|]; cbn [TaskCmds.self TaskCmds.onSelf TaskCmds.setCtx
                           TaskCmds.stoppingTimeout];
    destruct (TaskCmds.waitRunning _ tl _ now) as [[t' forced]|]; try discriminate;
    intros Hret; injection Hret as <- <- <-; exists forced;
    destruct forced; cbn; rewrite ?app_nil_r; repeat split; reflexivity.
Qed.

Lemma TaskCmds_Stop_returns (tl : Timeline) (now : Z) (w : TaskCmds.World) :
  exists w' t r, TaskCmds.Stop tl now w = Some (w', t, r).
Proof.
  unfold TaskCmds.Stop.
  match goal with
  | |- context [TaskCmds.waitRunning ?f tl ?c now] =>
      destruct (TaskCmds_waitRunning_total tl c f now) as (t & forced & ->)
  end; [unfold TaskCmds.roundsUntil; lia|eauto].
Qed.

(** X8.  With no job in flight when it is called, [Stop] returns at once.
    In the first revision it logs "all jobs quit" and nothing else; in the
    second, where the context is looked at first, it logs nothing, provided
    the timeout is positive. *)
Theorem Stop_idle_returns_at_once :
  (forall (tl : Timeline) (now : Z) (w : Task.World),
      runningAt tl now <= 0 ->
      exists w' r,
        Task.Stop tl now w = Some (w', now, r)
        /\ Task.logged w' = Task.logged w ++ [LogInfo "all jobs quit" []])
  /\ (forall (tl : Timeline) (now : Z) (w : TaskCmds.World),
         runningAt tl now <= 0 ->
         0 < Go.wrap64 (TaskCmds.stoppingTimeout (TaskCmds.self w) * time.Millisecond) ->
         exists w' r,
           TaskCmds.Stop tl now w = Some (w', now, r)
           /\ TaskCmds.logged w' = TaskCmds.logged w).
Proof.
  split.
  - intros tl now w Hidle.
    destruct (Task_Stop_returns tl now w) as (w' & t & r & Hstop).
    destruct (Task_Stop_inv _ _ _ _ _ _ Hstop) as (forced & Hwait & Hlog & _).
    unfold Task.roundsUntil in Hwait. rewrite Nat.add_comm in Hwait.
    cbn [Nat.add Task.waitRunning] in Hwait.
    destruct (Z.gtb_spec (runningAt tl now) 0); [lia|].
    injection Hwait as <- <-. exists w', r. split; [exact Hstop|exact Hlog].
  - intros tl now w Hidle Hpos.
    destruct (TaskCmds_Stop_returns tl now w) as (w' & t & r & Hstop).
    destruct (TaskCmds_Stop_inv _ _ _ _ _ _ Hstop) as (forced & Hwait & Hlog & _).
    unfold TaskCmds.roundsUntil in Hwait. rewrite Nat.add_comm in Hwait.
    cbn [Nat.add TaskCmds.waitRunning] in Hwait.
    rewrite Err_before_deadline in Hwait
      by (cbn [context.deadline context.parentDone context.WithTimeout]; trivial; lia).
    destruct (Z.gtb_spec (runningAt tl now) 0); [lia|].
    injection Hwait as <- <-. exists w', r. split; [exact Hstop|].
    rewrite Hlog. apply app_nil_r.
Qed.

Lemma Stop_idle_returns_at_once_witness :
  exists w' r,
    Task.Stop Demo.brief (2 * time.Second) Demo.started
    = Some (w', 2 * time.Second, r).
Proof.
  destruct (proj1 Stop_idle_returns_at_once Demo.brief (2 * time.Second) Demo.started
              ltac:(vm_compute; discriminate)) as (w' & r & Hstop & _).
  exists w', r. exact Hstop.
Defined.

(** X9.  In the second revision the context is looked at before the
    counter: with a timeout that is zero or negative, [Stop] logs "force
    quit" and returns at once, whether a job is in flight or not. *)
Theorem Stop_nonpositive_timeout_forces (tl : Timeline) (now : Z) (w : TaskCmds.World) :
  Go.wrap64 (TaskCmds.stoppingTimeout (TaskCmds.self w) * time.Millisecond) <= 0 ->
  exists w' r,
    TaskCmds.Stop tl now w = Some (w', now, r)
    /\ TaskCmds.logged w' = TaskCmds.logged w ++ [LogError "" "force quit" []].
Proof.
  intros Hneg.
  destruct (TaskCmds_Stop_returns tl now w) as (w' & t & r & Hstop).
  destruct (TaskCmds_Stop_inv _ _ _ _ _ _ Hstop) as (forced & Hwait & Hlog & _).
  unfold TaskCmds.roundsUntil in Hwait. rewrite Nat.add_comm in Hwait.
  cbn [Nat.add TaskCmds.waitRunning] in Hwait.
  rewrite Err_after_deadline in Hwait
    by (cbn [context.deadline context.WithTimeout]; lia).
  cbn [context.parentDone context.WithTimeout] in Hwait.
  injection Hwait as <- <-. exists w', r. split; [exact Hstop|exact Hlog].
Qed.

Lemma Stop_nonpositive_timeout_forces_witness :
  exists w' r,
    TaskCmds.Stop {| runningAt := fun _ => 0; schedulerIdle := None |} 0
      (TaskCmds.onSelf
         (fun t => {| TaskCmds.Jobs := TaskCmds.Jobs t; TaskCmds.Cron := TaskCmds.Cron t;
                      TaskCmds.stoppingTimeout := 0; TaskCmds.wg := 1;
                      TaskCmds.ctx := TaskCmds.ctx t;
                      TaskCmds.isDocker := TaskCmds.isDocker t |}) Demo.worldCmds)
    = Some (w', 0, r)
    /\ TaskCmds.logged w' = [LogError "" "force quit" []].
Proof.
  match goal with
  | |- exists w' r, TaskCmds.Stop ?tl 0 ?w = _ /\ _ =>
      destruct (Stop_nonpositive_timeout_forces tl 0 w ltac:(vm_compute; discriminate))
        as (w' & r & Hstop & Hlog)
  end.
  exists w', r. split; [exact Hstop|exact Hlog].
Defined.

(** X10.  [Stop] always returns, a whole number of 100-second sleeps after
    the call, and either at once or less than one sleep after the deadline
    that the stopping timeout sets.  Stated for both revisions. *)
Theorem Stop_returns_within_a_sleep_of_deadline :
  (forall (tl : Timeline) (now : Z) (w : Task.World),
      exists w' t r (k : nat),
        Task.Stop tl now w = Some (w', t, r)
        /\ t = now + Z.of_nat k * (100 * time.Second)
        /\ (t = now
            \/ t < now + Go.wrap64 (Task.stoppingTimeout (Task.self w) * time.Millisecond)
                   + 100 * time.Second))
  /\ (forall (tl : Timeline) (now : Z) (w : TaskCmds.World),
         exists w' t r (k : nat),
           TaskCmds.Stop tl now w = Some (w', t, r)
           /\ t = now + Z.of_nat k * (100 * time.Second)
           /\ (t = now
               \/ t < now
                      + Go.wrap64 (TaskCmds.stoppingTimeout (TaskCmds.self w)
                                   * time.Millisecond)
                      + 100 * time.Second)).
Proof.
  split.
  - intros tl now w.
    destruct (Task_Stop_returns tl now w) as (w' & t & r & Hstop).
    destruct (Task_Stop_inv _ _ _ _ _ _ Hstop) as (forced & Hwait & _).
    destruct (Task_waitRunning_spec _ _ _ _ _ _ Hwait) as ((k & Hk) & _).
    apply Task_waitRunning_bound in Hwait.
    cbn [context.deadline context.WithTimeout] in Hwait.
    exists w', t, r, k. split; [exact Hstop|]. split; [exact Hk|]. lia.
  - intros tl now w.
    destruct (TaskCmds_Stop_returns tl now w) as (w' & t & r & Hstop).
    destruct (TaskCmds_Stop_inv _ _ _ _ _ _ Hstop) as (forced & Hwait & _).
    destruct (TaskCmds_waitRunning_spec _ _ _ _ _ _ Hwait) as ((k & Hk) & _).
    apply TaskCmds_waitRunning_bound in Hwait.
    cbn [context.deadline context.WithTimeout] in Hwait.
    exists w', t, r, k. split; [exact Hstop|]. split; [exact Hk|]. lia.
Qed.

(** X11.  What the first revision of [Stop] logs, and why: either the
    forced quit followed by "all jobs quit", and then a job is still in
    flight when [Stop] returns and the deadline has passed; or "all jobs
    quit" alone, and then no job is in flight, or, outside test mode, the
    scheduler's own runs had finished by then and before the deadline. *)
Theorem Stop_log (tl : Timeline) (now t : Z) (w w' : Task.World)
    (r : Go.result error) :
  Task.Stop tl now w = Some (w', t, r) ->
  (Task.logged w'
   = Task.logged w ++ [LogError "" "cron jobs force quiting" [];
                       LogInfo "all jobs quit" []]
   /\ 0 < runningAt tl t
   /\ now + Go.wrap64 (Task.stoppingTimeout (Task.self w) * time.Millisecond) <= t)
  \/ (Task.logged w' = Task.logged w ++ [LogInfo "all jobs quit" []]
      /\ (runningAt tl t <= 0
          \/ (Task.testMode (Task.self w) = false
              /\ exists idle,
                   schedulerIdle tl = Some idle /\ idle <= t
                   /\ idle <= now + Go.wrap64 (Task.stoppingTimeout (Task.self w)
                                               * time.Millisecond)))).
Proof.
  intros Hstop.
  destruct (Task_Stop_inv _ _ _ _ _ _ Hstop) as (forced & Hwait & Hlog & _).
  destruct (Task_waitRunning_spec _ _ _ _ _ _ Hwait) as (_ & Hforced & Hfree).
  rewrite Hlog. destruct forced.
  - left. destruct (Hforced eq_refl) as [Hrun Herr].
    apply Err_DeadlineExceeded in Herr. auto.
  - right. split; [reflexivity|].
    destruct (Hfree eq_refl) as [Hrun|Herr]; [now left|right].
    apply Err_Canceled in Herr as (tp & Hparent & Ht & Hd).
    cbn [context.parentDone context.deadline context.WithTimeout] in Hparent, Hd.
    destruct (Task.testMode (Task.self w)); [discriminate|].
    split; [reflexivity|]. exists tp. auto.
Qed.

Lemma Stop_log_witness :
  exists w' t r,
    Task.Stop Demo.stuck 0 Demo.started = Some (w', t, r)
    /\ 0 < runningAt Demo.stuck t.
Proof.
  destruct (Task_Stop_returns Demo.stuck 0 Demo.started) as (w' & t & r & Hstop).
  exists w', t, r. split; [exact Hstop|].
  destruct (Stop_log _ _ _ _ _ _ Hstop) as [(_ & Hrun & _)|(_ & [Hrun|(_ & idle & Hidle & _)])].
  - exact Hrun.
  - cbn in Hrun. lia.
  - discriminate.
Defined.

(** ** [Start] and [Stop] on the wait group *)

(** X12.  Outside test mode [Start] and [Stop] pair up on the wait group:
    [Start] starts no goroutine of its own, and a [Stop] after it returns
    normally, takes the counter back to what it was, leaves the quit-signal
    context cancelled and the scheduler stopped; a second [Stop] without a
    [Start] finds the counter at zero and panics. *)
Theorem Start_Stop_waitgroup (tl : Timeline) (now : Z) (w : Task.World) :
  (forall q, In q (Task.Jobs (Task.self w)) -> is_Some (Task.heap w !! q)) ->
  0 <= Task.wg (Task.self w) ->
  Task.testMode (Task.self w) = false ->
  exists w1 w' t,
    Task.Start w = (w1, Task.Nothing)
    /\ cron.running (Task.Cron (Task.self w1)) = true
    /\ Task.Stop tl now w1 = Some (w', t, Go.Ok)
    /\ Task.wg (Task.self w') = Task.wg (Task.self w)
    /\ Task.quitSignalCtx (Task.self w') = Some true
    /\ Task.Jobs (Task.self w') = Task.Jobs (Task.self w)
    /\ cron.running (Task.Cron (Task.self w')) = false
    /\ (Task.wg (Task.self w) = 0 ->
        forall tl2 now2,
          exists w'' t2, Task.Stop tl2 now2 w' = Some (w'', t2, Go.Panic)).
Proof.
  intros Halloc Hwg Hplain.
  destruct (Task_Start_fields w) as (Hheap & _ & HJobs & Hwg1 & Htest & Hquit & Hno).
  destruct (Hno Hplain) as (Hspawn & _ & Hrunning).
  destruct (Task.Start w) as [w1 sp] eqn:Hstart. cbn [fst snd] in *. subst sp.
  destruct (Task_Stop_returns tl now w1) as (w' & t & r & Hstop).
  assert (Halloc1 : forall q, In q (Task.Jobs (Task.self w1)) ->
                      is_Some (Task.heap w1 !! q))
    by (rewrite HJobs, Hheap; exact Halloc).
  pose proof (Task_Stop_result _ _ _ _ _ _ Halloc1 Hstop) as Hr.
  rewrite Hwg1 in Hr. destruct (Z.ltb_spec (Task.wg (Task.self w) + 1 - 1) 0); [lia|].
  subst r.
  destruct (Task_Stop_inv _ _ _ _ _ _ Hstop) as (_ & _ & _ & Hself).
  destruct (Task_Stop_files _ _ _ _ _ _ Hstop) as (Hheap' & HJobs' & _).
  rewrite Hquit, Hwg1, Htest, Hplain in Hself.
  exists w1, w', t. split; [reflexivity|]. split; [exact Hrunning|].
  split; [exact Hstop|]. rewrite Hself.
  split; [cbn; lia|]. split; [reflexivity|].
  split; [rewrite <- HJobs, <- HJobs', Hself; reflexivity|].
  split; [reflexivity|].
  intros Hzero tl2 now2.
  destruct (Task_Stop_returns tl2 now2 w') as (w'' & t2 & r2 & Hstop2).
  assert (Halloc2 : forall q, In q (Task.Jobs (Task.self w')) ->
                      is_Some (Task.heap w' !! q))
    by (rewrite HJobs', Hheap'; exact Halloc1).
  pose proof (Task_Stop_result _ _ _ _ _ _ Halloc2 Hstop2) as Hr2.
  rewrite Hself in Hr2. cbn [Task.wg Task.setWg] in Hr2.
  destruct (Z.ltb_spec (Task.wg (Task.self w) + 1 - 1 - 1) 0); [|lia].
  subst r2. eauto.
Qed.

Lemma Start_Stop_waitgroup_witness :
  exists w1 w' t w'' t2,
    Task.Start Demo.world = (w1, Task.Nothing)
    /\ Task.Stop Demo.brief 0 w1 = Some (w', t, Go.Ok)
    /\ Task.Stop Demo.brief t w' = Some (w'', t2, Go.Panic).
Proof.
  destruct (Start_Stop_waitgroup Demo.brief 0 Demo.world
              ltac:(intros q Hq; destruct Hq) ltac:(cbn; lia) eq_refl)
    as (w1 & w' & t & Hstart & _ & Hstop & _ & _ & _ & _ & Htwice).
  destruct (Htwice eq_refl Demo.brief t) as (w'' & t2 & Hstop2).
  exists w1, w', t, w'', t2. split; [exact Hstart|]. split; [exact Hstop|exact Hstop2].
Defined.

(** ** What [Stop] deletes *)

(** X18.  [Stop] returns, and when it has returned the shell file of every
    job of the [Jobs] collection is off the disk: the deferred loop of
    [stopImpl] calls [deleteShellFile] on each of them.  The jobs of the
    collection are allocated, as they are after [AddJob]. *)
Theorem Stop_removes_shell_files (tl : Timeline) (now : Z) (w : Task.World) :
  (forall q, In q (Task.Jobs (Task.self w)) -> is_Some (Task.heap w !! q)) ->
  exists w' t r,
    Task.Stop tl now w = Some (w', t, r)
    /\ Task.Jobs (Task.self w') = Task.Jobs (Task.self w)
    /\ Task.heap w' = Task.heap w
    /\ forall q j, In q (Task.Jobs (Task.self w')) -> Task.heap w' !! q = Some j ->
                   Task.files w' !! Task.shellFile j = None.
Proof.
  intros Halloc. destruct (Task_Stop_returns tl now w) as (w' & t & r & Hstop).
  exists w', t, r. split; [exact Hstop|].
  destruct (Task_Stop_files _ _ _ _ _ _ Hstop) as (Hheap & HJobs & _ & Hgone).
  split; [exact HJobs|]. split; [exact Hheap|].
  rewrite HJobs, Hheap. apply Hgone, Halloc.
Qed.

Lemma Stop_removes_shell_files_witness :
  Task.Jobs (Task.self Demo.started) = [1; 2]%nat
  /\ Task.files Demo.started !! "/etc/cron/.jobs.yaml-1.sh" = Some "echo 1"
  /\ exists w' t r,
       Task.Stop Demo.brief 0 Demo.started = Some (w', t, r)
       /\ Task.files w' !! "/etc/cron/.jobs.yaml-1.sh" = None
       /\ Task.files w' !! "/etc/cron/.jobs.yaml-2.sh" = None.
Proof.
  split; [vm_compute; reflexivity|]. split; [vm_compute; reflexivity|].
  destruct (Stop_removes_shell_files Demo.brief 0 Demo.started)
    as (w' & t & r & Hstop & HJobs & Hheap & Hgone).
  - intros q Hq. vm_compute in Hq. destruct Hq as [<-|[<-|[]]]; vm_compute; eauto.
  - exists w', t, r. split; [exact Hstop|].
    assert (HJ : Task.Jobs (Task.self w') = [1; 2]%nat) by (rewrite HJobs; reflexivity).
    split.
    + apply (Hgone 1%nat
               {| Task.Schedule := "* * * * *"; Task.Command := "echo 1";
                  Task.RunningMode := ""; Task.task := true; Task.logger := true;
                  Task.id := 1; Task.shellFile := "/etc/cron/.jobs.yaml-1.sh" |}).
      * rewrite HJ. now left.
      * rewrite Hheap. vm_compute. reflexivity.
    + apply (Hgone 2%nat
               {| Task.Schedule := "@every 1s"; Task.Command := "sleep 5";
                  Task.RunningMode := "skip"; Task.task := true; Task.logger := true;
                  Task.id := 2; Task.shellFile := "/etc/cron/.jobs.yaml-2.sh" |}).
      * rewrite HJ. right. now left.
      * rewrite Hheap. vm_compute. reflexivity.
Defined.

(** ** [LoadSettings] *)

(** No job of a batch loses its name, schedule or commands. *)
Lemma TaskCmds_addJob_keeps `{Platform TaskCmds.job} (p : nat)
    (w w' : TaskCmds.World) (r : Go.result error) :
  TaskCmds.addJob p w = (w', r) ->
  forall q j, TaskCmds.heap w !! q = Some j ->
    exists j', TaskCmds.heap w' !! q = Some j'
               /\ TaskCmds.Name j' = TaskCmds.Name j
               /\ TaskCmds.Schedule j' = TaskCmds.Schedule j
               /\ TaskCmds.Commands j' = TaskCmds.Commands j.
Proof.
  intros Hrun q jq Hq. destruct (TaskCmds.heap w !! p) as [j|] eqn:Hp.
  - rewrite (TaskCmds_addJob_eq p w j Hp) in Hrun.
    assert (Hcase : w' = w
                    \/ exists j', TaskCmds.heap w' = <[p := j']> (TaskCmds.heap w)
                                  /\ TaskCmds.Name j' = TaskCmds.Name j
                                  /\ TaskCmds.Schedule j' = TaskCmds.Schedule j
                                  /\ TaskCmds.Commands j' = TaskCmds.Commands j).
    { repeat match type of Hrun with
             | (if ?b then _ else _) = _ => destruct b
             | match ?o with Some _ => _ | None => _ end = _ => destruct o
             end; injection Hrun as <- _; auto; right; eexists; cbn; auto. }
    destruct Hcase as [->|(j' & Hheap & Hn & Hs & Hc)]; [eauto|].
    rewrite Hheap. destruct (decide (p = q)) as [<-|Hne].
    + exists j'. rewrite lookup_insert_eq. replace jq with j by congruence. auto.
    + exists jq. rewrite lookup_insert_ne by assumption. auto.
  - unfold TaskCmds.addJob in Hrun. rewrite Hp in Hrun. injection Hrun as <- _. eauto.
Qed.

Lemma TaskCmds_AddJob_keeps `{Platform TaskCmds.job} (jobs : list nat)
    (w w' : TaskCmds.World) (r : Go.result error) :
  TaskCmds.AddJob jobs w = (w', r) ->
  TaskCmds.Jobs (TaskCmds.self w')
  = TaskCmds.Jobs (TaskCmds.self w) ++ (match r with Go.Ok => jobs | _ => [] end)
  /\ forall q j, TaskCmds.heap w !! q = Some j ->
       exists j', TaskCmds.heap w' !! q = Some j'
                  /\ TaskCmds.Name j' = TaskCmds.Name j
                  /\ TaskCmds.Schedule j' = TaskCmds.Schedule j
                  /\ TaskCmds.Commands j' = TaskCmds.Commands j.
Proof.
  intros Hrun.
  assert (Hloop : forall js (w0 w1 : TaskCmds.World) r1,
             TaskCmds.addJobs js w0 = (w1, r1) ->
             forall q j, TaskCmds.heap w0 !! q = Some j ->
               exists j', TaskCmds.heap w1 !! q = Some j'
                          /\ TaskCmds.Name j' = TaskCmds.Name j
                          /\ TaskCmds.Schedule j' = TaskCmds.Schedule j
                          /\ TaskCmds.Commands j' = TaskCmds.Commands j).
  { induction js as [|p js IH]; intros w0 w1 r1 Hloop q j Hq; cbn in Hloop.
    - injection Hloop as <- _. eauto.
    - destruct (TaskCmds.addJob p w0) as [w2 r2] eqn:Hstep.
      destruct (TaskCmds_addJob_keeps _ _ _ _ Hstep q j Hq) as (j2 & Hq2 & Hn2 & Hs2 & Hc2).
      destruct r2; [|injection Hloop as <- _; eauto..].
      destruct (IH _ _ _ Hloop q j2 Hq2) as (j' & Hq' & Hn & Hs & Hc).
      exists j'. repeat split; congruence. }
  unfold TaskCmds.AddJob in Hrun.
  destruct (TaskCmds.addJobs jobs w) as [w1 r1] eqn:Hrun1.
  pose proof (TaskCmds_addJobs_frame _ _ _ _ Hrun1) as (HJobs & _).
  specialize (Hloop _ _ _ _ Hrun1).
  destruct r1; injection Hrun as <- <-; cbn [TaskCmds.self TaskCmds.onSelf TaskCmds.Jobs
                                             TaskCmds.setJobs TaskCmds.heap];
    rewrite ?HJobs, ?app_nil_r; auto.
Qed.

(** The jobs of a config are put at new places of the heap under their
    keys; nothing else changes. *)
Lemma collect_spec `{Platform TaskCmds.job} `{Settings.Disk}
    (schedules : list (string * option TaskCmds.job)) :
  forall (w w' : TaskCmds.World) (o : option (list nat)),
    Settings.collect schedules w = (w', o) ->
    TaskCmds.self w' = TaskCmds.self w
    /\ TaskCmds.logged w' = TaskCmds.logged w
    /\ (forall q j, TaskCmds.heap w !! q = Some j -> TaskCmds.heap w' !! q = Some j)
    /\ forall ptrs q, o = Some ptrs -> In q ptrs ->
         TaskCmds.heap w !! q = None
         /\ exists k j,
              In (k, Some j) schedules
              /\ TaskCmds.heap w' !! q
                 = Some {| TaskCmds.Name := k; TaskCmds.Schedule := TaskCmds.Schedule j;
                           TaskCmds.Commands := TaskCmds.Commands j;
                           TaskCmds.RunningMode := TaskCmds.RunningMode j;
                           TaskCmds.task := TaskCmds.task j;
                           TaskCmds.logger := TaskCmds.logger j;
                           TaskCmds.id := TaskCmds.id j |}.
Proof.
  induction schedules as [|[k [j|]] rest IH]; intros w w' o Hrun; cbn in Hrun.
  - injection Hrun as <- <-. split; [reflexivity|]. split; [reflexivity|].
    split; [auto|]. intros ptrs q [= <-] [].
  - set (p := fresh (dom (TaskCmds.heap w))) in *.
    assert (Hfresh : TaskCmds.heap w !! p = None)
      by (apply not_elem_of_dom, is_fresh).
    match type of Hrun with
    | context [Settings.collect rest ?w1] =>
        destruct (Settings.collect rest w1) as [w2 o2] eqn:Hrest
    end.
    destruct (IH _ _ _ Hrest) as (Hself & Hlog & Hkeep & Hnew).
    cbn [TaskCmds.self TaskCmds.logged TaskCmds.heap TaskCmds.store] in *.
    assert (Hkeep' : forall q jq, TaskCmds.heap w !! q = Some jq ->
                       TaskCmds.heap w2 !! q = Some jq).
    { intros q jq Hq. apply Hkeep. rewrite lookup_insert_ne; [exact Hq|].
      intros <-. congruence. }
    destruct o2 as [ps|]; injection Hrun as <- <-;
      (split; [exact Hself|]); (split; [exact Hlog|]); (split; [exact Hkeep'|]);
      [|discriminate].
    intros ptrs q [= <-] [<-|Hq].
    + split; [exact Hfresh|]. exists k, j. split; [now left|].
      apply Hkeep, lookup_insert_eq.
    + destruct (Hnew ps q eq_refl Hq) as (Hnone & k' & j' & Hin & Hq').
      split.
      * destruct (decide (p = q)) as [<-|Hne]; [exact Hfresh|].
        now rewrite lookup_insert_ne in Hnone.
      * exists k', j'. split; [now right|exact Hq'].
  - injection Hrun as <- <-. split; [reflexivity|]. split; [reflexivity|].
    split; [auto|]. discriminate.
Qed.

Lemma extends_refl `{Platform TaskCmds.job} `{Settings.Disk} (w : TaskCmds.World) :
  Settings.extends w w.
Proof.
  split; [|eauto]. exists []. rewrite app_nil_r. split; [reflexivity|]. intros q [].
Qed.

Lemma extends_trans `{Platform TaskCmds.job} `{Settings.Disk}
    (w w1 w2 : TaskCmds.World) :
  Settings.extends w w1 -> Settings.extends w1 w2 -> Settings.extends w w2.
Proof.
  intros ((new1 & HJ1 & Hnew1) & Hkeep1) ((new2 & HJ2 & Hnew2) & Hkeep2). split.
  - exists (new1 ++ new2). split; [now rewrite HJ2, HJ1, app_assoc|].
    intros q [Hq|Hq]%in_app_or.
    + destruct (Hnew1 q Hq) as (Hnone & j1 & f & schedules & j & Hq1 & Hf & Hin & Hs & Hc).
      split; [exact Hnone|].
      destruct (Hkeep2 q j1 Hq1) as (j2 & Hq2 & Hn2 & Hs2 & Hc2).
      exists j2, f, schedules, j. rewrite Hn2, Hs2, Hc2. repeat split; assumption.
    + destruct (Hnew2 q Hq) as (Hnone & Hrest). split; [|exact Hrest].
      destruct (TaskCmds.heap w !! q) as [j|] eqn:Hq0; [|reflexivity].
      destruct (Hkeep1 q j Hq0) as (j1 & Hq1 & _). congruence.
  - intros q j Hq. destruct (Hkeep1 q j Hq) as (j1 & Hq1 & Hn1 & Hs1 & Hc1).
    destruct (Hkeep2 q j1 Hq1) as (j2 & Hq2 & Hn2 & Hs2 & Hc2).
    exists j2. repeat split; congruence.
Qed.

Lemma loadFile_extends `{Platform TaskCmds.job} `{Settings.Disk} (filename : string)
    (w w' : TaskCmds.World) (r : Go.result Settings.loadError) :
  Settings.loadFile filename w = (w', r) -> Settings.extends w w'.
Proof.
  unfold Settings.loadFile.
  destruct (Settings.loadSetting filename) as [e|schedules] eqn:Hload.
  { intros [= <- _]. apply extends_refl. }
  destruct (Settings.collect schedules w) as [w1 o] eqn:Hcollect.
  destruct (collect_spec _ _ _ _ Hcollect) as (Hself & _ & Hkeep & Hnew).
  destruct o as [ptrs|].
  - destruct (TaskCmds.AddJob ptrs w1) as [w2 r2] eqn:Hadd.
    destruct (TaskCmds_AddJob_keeps _ _ _ _ Hadd) as (HJobs & Hkeep2).
    intros Hret. assert (w' = w2) by (destruct r2; congruence). subst w2. clear Hret.
    split.
    + exists (match r2 with Go.Ok => ptrs | _ => [] end).
      rewrite HJobs, Hself. split; [reflexivity|].
      intros q Hq. assert (Hq' : In q ptrs) by (destruct r2; [exact Hq|destruct Hq..]).
      destruct (Hnew ptrs q eq_refl Hq') as (Hnone & k & j & Hin & Hq1).
      split; [exact Hnone|].
      destruct (Hkeep2 q _ Hq1) as (j' & Hj' & Hn & Hs & Hc).
      exists j', filename, schedules, j. cbn in Hn, Hs, Hc. rewrite Hn.
      repeat split; assumption.
    + intros q j Hq. apply Hkeep2, Hkeep, Hq.
  - intros [= <- _]. split.
    + exists []. rewrite app_nil_r, Hself. split; [reflexivity|]. intros q [].
    + intros q j Hq. exists j. split; [apply Hkeep, Hq|]. auto.
Qed.

Lemma loadFiles_extends `{Platform TaskCmds.job} `{Settings.Disk}
    (filenames : list string) :
  forall (w w' : TaskCmds.World) (r : Go.result Settings.loadError),
    Settings.loadFiles filenames w = (w', r) -> Settings.extends w w'.
Proof.
  induction filenames as [|f rest IH]; intros w w' r Hrun; cbn in Hrun.
  - injection Hrun as <- _. apply extends_refl.
  - destruct (Settings.loadFile f w) as [w1 r1] eqn:Hfile.
    apply loadFile_extends in Hfile.
    destruct r1; [|injection Hrun as <- _; exact Hfile..].
    eapply extends_trans; [exact Hfile|]. eapply IH, Hrun.
Qed.

Lemma loadPath_extends `{Platform TaskCmds.job} `{Settings.Disk} (path : string)
    (w w' : TaskCmds.World) (r : Go.result Settings.loadError) :
  Settings.loadPath path w = (w', r) -> Settings.extends w w'.
Proof.
  unfold Settings.loadPath. destruct (Settings.Stat path) as [e|[|]].
  - intros [= <- _]. apply extends_refl.
  - destruct (Settings.findYamls path) as [e|files].
    + intros [= <- _]. apply extends_refl.
    + apply loadFiles_extends.
  - apply loadFiles_extends.
Qed.

Lemma LoadSettings_extends `{Platform TaskCmds.job} `{Settings.Disk}
    (configs : list string) :
  forall (w w' : TaskCmds.World) (r : Go.result Settings.loadError),
    Settings.LoadSettings configs w = (w', r) -> Settings.extends w w'.
Proof.
  induction configs as [|path rest IH]; intros w w' r Hrun; cbn in Hrun.
  - injection Hrun as <- _. apply extends_refl.
  - destruct (Settings.loadPath path w) as [w1 r1] eqn:Hpath.
    apply loadPath_extends in Hpath.
    destruct r1; [|injection Hrun as <- _; exact Hpath..].
    eapply extends_trans; [exact Hpath|]. eapply IH, Hrun.
Qed.

(** X13.  Whatever [LoadSettings] returns, [Jobs] has only grown, by jobs
    that were not on the heap before, and each of them carries a key of a
    config file as its name and the schedule and commands found under that
    key; the jobs that were there keep their name, schedule and commands. *)
Theorem LoadSettings_names_jobs_by_key (P : Platform TaskCmds.job) (D : Settings.Disk)
    (configs : list string) (w w' : TaskCmds.World)
    (r : Go.result Settings.loadError) :
  Settings.LoadSettings configs w = (w', r) ->
  (exists new,
      TaskCmds.Jobs (TaskCmds.self w') = TaskCmds.Jobs (TaskCmds.self w) ++ new
      /\ forall q, In q new ->
           TaskCmds.heap w !! q = None
           /\ exists j' filename schedules j,
                TaskCmds.heap w' !! q = Some j'
                /\ Settings.loadSetting filename = inr schedules
                /\ In (TaskCmds.Name j', Some j) schedules
                /\ TaskCmds.Schedule j' = TaskCmds.Schedule j
                /\ TaskCmds.Commands j' = TaskCmds.Commands j)
  /\ (forall q j, TaskCmds.heap w !! q = Some j ->
        exists j', TaskCmds.heap w' !! q = Some j'
                   /\ TaskCmds.Name j' = TaskCmds.Name j
                   /\ TaskCmds.Schedule j' = TaskCmds.Schedule j
                   /\ TaskCmds.Commands j' = TaskCmds.Commands j).
Proof. intros Hrun. exact (LoadSettings_extends configs w w' r Hrun). Qed.

Lemma LoadSettings_names_jobs_by_key_witness :
  exists w' r new,
    Settings.LoadSettings (H := Demo.platformCmds) (H0 := DemoDisk.disk)
      ["/srv/jobs.yaml"; "/etc/cron"] DemoDisk.world = (w', r)
    /\ TaskCmds.Jobs (TaskCmds.self w') = new
    /\ length new = 3%nat.
Proof.
  destruct (Settings.LoadSettings (H := Demo.platformCmds) (H0 := DemoDisk.disk)
              ["/srv/jobs.yaml"; "/etc/cron"] DemoDisk.world) as [w' r] eqn:Hrun.
  destruct (LoadSettings_names_jobs_by_key Demo.platformCmds DemoDisk.disk _ _ _ _ Hrun)
    as ((new & HJobs & _) & _).
  change (TaskCmds.Jobs (TaskCmds.self w') = new) in HJobs.
  exists w', r, new. split; [reflexivity|]. split; [exact HJobs|].
  rewrite <- HJobs. vm_compute in Hrun. injection Hrun as <- _. reflexivity.
Defined.

Lemma loadFile_Err `{Platform TaskCmds.job} `{Settings.Disk} (filename : string)
    (w w' : TaskCmds.World) (e : Settings.loadError) :
  Settings.loadFile filename w = (w', Go.Err e) ->
  (exists m, e = Settings.SettingError m /\ Settings.loadSetting filename = inl m)
  \/ (exists cause schedules w2 ptrs,
         e = Settings.ConfigError filename cause
         /\ Settings.loadSetting filename = inr schedules
         /\ Settings.collect schedules w = (w2, Some ptrs)
         /\ TaskCmds.AddJob ptrs w2 = (w', Go.Err cause)).
Proof.
  unfold Settings.loadFile.
  destruct (Settings.loadSetting filename) as [m|schedules] eqn:Hload.
  { intros [= <- <-]. left. exists m. split; reflexivity. }
  destruct (Settings.collect schedules w) as [w2 [ptrs|]] eqn:Hcollect; [|discriminate].
  destruct (TaskCmds.AddJob ptrs w2) as [w3 [|cause|]] eqn:Hadd; try discriminate.
  intros [= <- <-]. right. exists cause, schedules, w2, ptrs.
  repeat split; auto.
Qed.

Lemma loadFiles_Err `{Platform TaskCmds.job} `{Settings.Disk} (filenames : list string) :
  forall (w w' : TaskCmds.World) (e : Settings.loadError),
    Settings.loadFiles filenames w = (w', Go.Err e) ->
    exists filename w1,
      In filename filenames /\ Settings.loadFile filename w1 = (w', Go.Err e).
Proof.
  induction filenames as [|f rest IH]; intros w w' e Hrun; cbn in Hrun; [discriminate|].
  destruct (Settings.loadFile f w) as [w1 [|e1|]] eqn:Hfile.
  - destruct (IH _ _ _ Hrun) as (f' & w2 & Hin & Hf'). exists f', w2. split; [now right|auto].
  - injection Hrun as <- <-. exists f, w. split; [now left|auto].
  - discriminate.
Qed.

Lemma loadPath_Err `{Platform TaskCmds.job} `{Settings.Disk} (path : string)
    (w w' : TaskCmds.World) (e : Settings.loadError) :
  Settings.loadPath path w = (w', Go.Err e) ->
  (exists m, e = Settings.StatError m /\ Settings.Stat path = inl m)
  \/ (exists m, e = Settings.FindError m /\ Settings.Stat path = inr true
                /\ Settings.findYamls path = inl m)
  \/ (exists filename w1,
         (Settings.Stat path = inr false /\ filename = path
          \/ exists files, Settings.Stat path = inr true
                           /\ Settings.findYamls path = inr files
                           /\ In filename files)
         /\ Settings.loadFile filename w1 = (w', Go.Err e)).
Proof.
  unfold Settings.loadPath. destruct (Settings.Stat path) as [m|[|]].
  - intros [= <- <-]. left. exists m. split; reflexivity.
  - destruct (Settings.findYamls path) as [m|files].
    + intros [= <- <-]. right. left. exists m. repeat split; reflexivity.
    + intros Hfiles. destruct (loadFiles_Err _ _ _ _ Hfiles) as (f & w1 & Hin & Hf).
      right. right. exists f, w1. split; [|exact Hf].
      right. exists files. repeat split; [reflexivity..|exact Hin].
  - intros Hfiles. destruct (loadFiles_Err _ _ _ _ Hfiles) as (f & w1 & Hin & Hf).
    right. right. exists f, w1. split; [|exact Hf].
    left. destruct Hin as [<-|[]]. split; reflexivity.
Qed.

(** X14.  The error of [LoadSettings] tells where it comes from: the error
    of [os.Stat] or of [findYamls] on one of the paths given; the error of
    [loadSetting] on one of the files the paths stand for; or the error of
    [AddJob] on the jobs of one of those files, wrapped with the name of that
    file. *)
Theorem LoadSettings_error_source (P : Platform TaskCmds.job) (D : Settings.Disk)
    (configs : list string) (w w' : TaskCmds.World) (e : Settings.loadError) :
  Settings.LoadSettings configs w = (w', Go.Err e) ->
  match e with
  | Settings.StatError m =>
      exists path, In path configs /\ Settings.Stat path = inl m
  | Settings.FindError m =>
      exists path, In path configs /\ Settings.Stat path = inr true
                   /\ Settings.findYamls path = inl m
  | Settings.SettingError m =>
      exists path filename,
        In path configs
        /\ (Settings.Stat path = inr false /\ filename = path
            \/ exists files, Settings.Stat path = inr true
                             /\ Settings.findYamls path = inr files
                             /\ In filename files)
        /\ Settings.loadSetting filename = inl m
  | Settings.ConfigError filename cause =>
      exists path schedules w1 w2 ptrs,
        In path configs
        /\ (Settings.Stat path = inr false /\ filename = path
            \/ exists files, Settings.Stat path = inr true
                             /\ Settings.findYamls path = inr files
                             /\ In filename files)
        /\ Settings.loadSetting filename = inr schedules
        /\ Settings.collect schedules w1 = (w2, Some ptrs)
        /\ TaskCmds.AddJob ptrs w2 = (w', Go.Err cause)
  end.
Proof.
  revert w. induction configs as [|path rest IH]; intros w Hrun; cbn in Hrun;
    [discriminate|].
  destruct (Settings.loadPath path w) as [w1 [|e1|]] eqn:Hpath.
  - specialize (IH _ Hrun). destruct e.
    + destruct IH as (p & Hin & Hp). exists p. split; [now right|exact Hp].
    + destruct IH as (p & Hin & Hp). exists p. split; [now right|exact Hp].
    + destruct IH as (p & f & Hin & Hp). exists p, f. split; [now right|exact Hp].
    + destruct IH as (p & sch & wa & wb & ptrs & Hin & Hp).
      exists p, sch, wa, wb, ptrs. split; [now right|exact Hp].
  - injection Hrun as <- <-. clear IH.
    destruct (loadPath_Err _ _ _ _ Hpath)
      as [(m & -> & Hstat)|[(m & -> & Hstat & Hfind)|(f & wa & Hof & Hf)]].
    + exists path. split; [now left|exact Hstat].
    + exists path. split; [now left|]. split; assumption.
    + destruct (loadFile_Err _ _ _ _ Hf)
        as [(m & -> & Hm)|(cause & sch & wb & ptrs & -> & Hsch & Hcol & Hadd)].
      * exists path, f. split; [now left|]. split; assumption.
      * exists path, sch, wa, wb, ptrs. split; [now left|]. repeat split; assumption.
  - discriminate.
Qed.

Lemma LoadSettings_error_source_witness :
  exists w',
    Settings.LoadSettings (H := Demo.platformCmds) (H0 := DemoDisk.disk)
      ["/srv/jobs.yaml"; "/etc/cron"] DemoDisk.world
    = (w', Go.Err (Settings.ConfigError "/etc/cron/b.yaml" (CommandRequired "@hourly")))
    /\ exists path, In path ["/srv/jobs.yaml"; "/etc/cron"]
                    /\ Settings.Stat (Disk := DemoDisk.disk) path = inr true.
Proof.
  destruct (Settings.LoadSettings (H := Demo.platformCmds) (H0 := DemoDisk.disk)
              ["/srv/jobs.yaml"; "/etc/cron"] DemoDisk.world) as [w' r] eqn:Hrun.
  assert (Hr : r = Go.Err (Settings.ConfigError "/etc/cron/b.yaml"
                             (CommandRequired "@hourly")))
    by (vm_compute in Hrun; congruence).
  subst r. exists w'. split; [reflexivity|].
  destruct (LoadSettings_error_source Demo.platformCmds DemoDisk.disk _ _ _ _ Hrun)
    as (path & sch & w1 & w2 & ptrs & Hin & Hof & _).
  exists path. split; [exact Hin|].
  destruct Hof as [[Hstat Heq]|(files & Hstat & _)]; [|exact Hstat].
  subst path. destruct Hin as [Hin|[Hin|[]]]; discriminate.
Defined.

Lemma LoadSettings_app `{Platform TaskCmds.job} `{Settings.Disk} (a b : list string) :
  forall w : TaskCmds.World,
    Settings.LoadSettings (a ++ b) w
    = match Settings.LoadSettings a w with
      | (w1, Go.Ok) => Settings.LoadSettings b w1
      | r => r
      end.
Proof.
  induction a as [|path a IH]; intros w; [reflexivity|].
  cbn [Settings.LoadSettings app].
  destruct (Settings.loadPath path w) as [w1 [|e|]]; [apply IH|reflexivity..].
Qed.

(** X15.  Loading a list of paths is loading a first part of it and then
    the rest; when the rest fails, the load is not rolled back: what the
    first part appended to [Jobs] stays there. *)
Theorem LoadSettings_partial_load_stands (P : Platform TaskCmds.job)
    (D : Settings.Disk) (a b : list string) (w w1 w' : TaskCmds.World)
    (r : Go.result Settings.loadError) :
  Settings.LoadSettings a w = (w1, Go.Ok) ->
  Settings.LoadSettings b w1 = (w', r) ->
  Settings.LoadSettings (a ++ b) w = (w', r)
  /\ exists new, TaskCmds.Jobs (TaskCmds.self w')
                 = TaskCmds.Jobs (TaskCmds.self w1) ++ new.
Proof.
  intros Ha Hb. rewrite LoadSettings_app, Ha. split; [exact Hb|].
  destruct (LoadSettings_extends _ _ _ _ Hb) as ((new & HJobs & _) & _). eauto.
Qed.

Lemma LoadSettings_partial_load_stands_witness :
  exists w1 w' e,
    Settings.LoadSettings (H := Demo.platformCmds) (H0 := DemoDisk.disk)
      ["/srv/jobs.yaml"] DemoDisk.world = (w1, Go.Ok)
    /\ Settings.LoadSettings (H := Demo.platformCmds) (H0 := DemoDisk.disk)
         (["/srv/jobs.yaml"] ++ ["/nowhere"]) DemoDisk.world = (w', Go.Err e)
    /\ TaskCmds.Jobs (TaskCmds.self w1) = [0%nat]
    /\ exists new, TaskCmds.Jobs (TaskCmds.self w') = [0%nat] ++ new.
Proof.
  destruct (Settings.LoadSettings (H := Demo.platformCmds) (H0 := DemoDisk.disk)
              ["/srv/jobs.yaml"] DemoDisk.world) as [w1 r1] eqn:Ha.
  assert (Hr1 : r1 = Go.Ok) by (vm_compute in Ha; congruence). subst r1.
  assert (HJ1 : TaskCmds.Jobs (TaskCmds.self w1) = [0%nat])
    by (vm_compute in Ha; injection Ha as <-; reflexivity).
  destruct (Settings.LoadSettings (H := Demo.platformCmds) (H0 := DemoDisk.disk)
              ["/nowhere"] w1) as [w' r] eqn:Hb.
  assert (Hr : r = Go.Err (Settings.StatError "no such file or directory"))
    by (cbn in Hb; congruence).
  subst r.
  destruct (LoadSettings_partial_load_stands Demo.platformCmds DemoDisk.disk
              _ _ _ _ _ _ Ha Hb) as (Hab & new & HJobs).
  exists w1, w'. eexists. split; [reflexivity|]. split; [exact Hab|].
  split; [exact HJ1|]. exists new. rewrite <- HJ1. exact HJobs.
Defined.

(** ** The shell files of a batch *)

(** X16.  For one source and one mode, the paths of the shell files differ
    in the id only: each is one and the same head, which ends in a dash,
    followed by the id in decimal and ".sh". *)
Theorem shellFilePath_format (P : Platform Task.job) (test : bool) (cfg : string) :
  exists head,
    forall id, Task.shellFilePath test cfg id = head +:+ "-" +:+ Go.itoa id +:+ ".sh".
Proof.
  unfold Task.shellFilePath, Task.shellFileName.
  set (src := if String.eqb cfg "argument" then _ else _).
  set (pfx := if test then ".test-" else ".").
  set (dir := if String.eqb (filepath.Dir src) "" then "" else filepath.Dir src +:+ "/").
  destruct (Clean_app_tail (dir +:+ pfx +:+ filepath.Base src)) as [head Hhead].
  exists head. intros id.
  rewrite Join_pair.
  - fold dir. rewrite <- (Hhead ("-" +:+ Go.itoa id +:+ ".sh")).
    + now rewrite !append_assoc.
    + rewrite !sepFree_app, itoa_sepFree. reflexivity.
    + rewrite !length_append. cbn. lia.
  - rewrite !length_append. destruct test; cbn; lia.
Qed.

(** A file that is the shell file of no job of the batch is left alone by a
    batch that goes through. *)
Lemma Task_addJobs_other_files `{Platform Task.job} (cfg : string) (jobs : list nat)
    (path content : string) :
  forall (w w' : Task.World),
    Task.addJobs cfg jobs w = (w', Go.Ok) ->
    Task.files w !! path = Some content ->
    (forall i, (i < length jobs)%nat ->
       Task.shellFilePath (Task.testMode (Task.self w)) cfg
         (Go.wrap64 (cron.nextID (Task.Cron (Task.self w)) + (Z.of_nat i + 1)))
       <> path) ->
    Task.files w' !! path = Some content.
Proof.
  induction jobs as [|p jobs IH]; intros w w' Hrun Hfile Hother; cbn in Hrun.
  - now injection Hrun as <-.
  - destruct (Task.addJob cfg p w) as [w1 r1] eqn:Hstep.
    destruct r1; try discriminate.
    destruct (Task_addJob_Ok _ _ _ _ Hstep)
      as (j & j' & en & _ & _ & _ & Hself & _ & _ & _ & _ & Hid & Hpath & Hfiles).
    apply (IH _ _ Hrun).
    + rewrite Hfiles. destruct (creatable (Task.shellFile j')); [|exact Hfile].
      rewrite lookup_insert_ne; [exact Hfile|].
      rewrite Hpath, Hid. apply (Hother 0%nat). cbn. lia.
    + intros i Hi. rewrite Hself. cbn [Task.testMode Task.Cron Task.setCron cron.nextID].
      rewrite wrap64_add_l.
      replace (cron.nextID (Task.Cron (Task.self w)) + 1 + (Z.of_nat i + 1))
        with (cron.nextID (Task.Cron (Task.self w)) + (Z.of_nat (S i) + 1)) by lia.
      apply Hother. cbn. lia.
Qed.

Lemma Task_addJobs_shell_files `{Platform Task.job} (cfg : string) (jobs : list nat) :
  forall (w w' : Task.World),
    Task.addJobs cfg jobs w = (w', Go.Ok) ->
    NoDup jobs ->
    Z.of_nat (length jobs) < 2 ^ 64 ->
    forall p, In p jobs ->
      exists j, Task.heap w' !! p = Some j
                /\ (creatable (Task.shellFile j) = true ->
                    Task.files w' !! Task.shellFile j = Some (Task.Command j)).
Proof.
  induction jobs as [|q jobs IH]; intros w w' Hrun Hnodup Hlen p Hin; [destruct Hin|].
  cbn in Hrun. destruct (Task.addJob cfg q w) as [w1 r1] eqn:Hstep.
  destruct r1; try discriminate.
  inversion Hnodup as [|? ? Hnotin Hnodup']; subst.
  rewrite list_elem_of_In in Hnotin.
  cbn [length] in Hlen.
  destruct Hin as [<-|Hin]; [|apply (IH _ _ Hrun Hnodup'); [lia|exact Hin]].
  destruct (Task_addJob_Ok _ _ _ _ Hstep)
    as (j & j' & en & _ & _ & _ & Hself & _ & Hheap & _ & Hcmd & Hid & Hpath & Hfiles).
  exists j'. rewrite (Task_addJobs_untouched _ _ _ _ _ _ Hrun Hnotin), Hheap.
  split; [apply lookup_insert_eq|]. intros Hcr.
  apply (Task_addJobs_other_files cfg jobs _ _ w1 w' Hrun).
  - rewrite Hfiles, Hcr, Hcmd. apply lookup_insert_eq.
  - intros i Hi. rewrite Hself. cbn [Task.testMode Task.Cron Task.setCron cron.nextID].
    rewrite wrap64_add_l, Hpath, Hid. intros Heq.
    apply shellFilePath_inj in Heq.
    replace (cron.nextID (Task.Cron (Task.self w)) + 1 + (Z.of_nat i + 1))
      with (cron.nextID (Task.Cron (Task.self w)) + (Z.of_nat i + 2)) in Heq by lia.
    apply wrap64_add_inj in Heq; lia.
Qed.

(** X17.  After a batch without repetition that [AddJob] accepts, the shell
    file of each job of the batch is on disk and holds that job's command
    (unless the file could not be created): no job of the batch overwrites
    the file of another. *)
Theorem AddJob_writes_commands (P : Platform Task.job) (cfg : string)
    (jobs : list nat) (w w' : Task.World) :
  Task.AddJob cfg jobs w = (w', Go.Ok) ->
  NoDup jobs ->
  Z.of_nat (length jobs) < 2 ^ 64 ->
  forall p, In p jobs ->
    exists j, Task.heap w' !! p = Some j
              /\ (creatable (Task.shellFile j) = true ->
                  Task.files w' !! Task.shellFile j = Some (Task.Command j)).
Proof.
  unfold Task.AddJob. intros Hrun Hnodup Hlen p Hin.
  destruct (Task.addJobs cfg jobs w) as [w1 [|e|]] eqn:Hloop; try discriminate.
  injection Hrun as <-. cbn [Task.heap Task.files Task.onSelf].
  exact (Task_addJobs_shell_files cfg jobs w w1 Hloop Hnodup Hlen p Hin).
Qed.

Lemma AddJob_writes_commands_witness :
  exists w' j,
    Task.AddJob (H := Demo.platform) "argument" [1; 2]%nat Demo.world = (w', Go.Ok)
    /\ Task.heap w' !! 2%nat = Some j
    /\ Task.files w' !! Task.shellFile j = Some (Task.Command j).
Proof.
  destruct (Task.AddJob (H := Demo.platform) "argument" [1; 2]%nat Demo.world)
    as [w' r] eqn:Hrun.
  assert (Hr : r = Go.Ok) by (vm_compute in Hrun; congruence). subst r.
  assert (Hnodup : NoDup [1; 2]%nat)
    by (apply NoDup_cons; split; [intros Hin%list_elem_of_In; cbn in Hin; lia
                                  | apply NoDup_singleton]).
  destruct (AddJob_writes_commands Demo.platform "argument" [1; 2]%nat Demo.world w'
              Hrun Hnodup ltac:(vm_compute; reflexivity) 2%nat ltac:(right; now left))
    as (j & Hj & Hfile).
  exists w', j. split; [reflexivity|]. split; [exact Hj|]. apply Hfile. reflexivity.
Defined.
